(** * The bridge client of twitter-algo-analyzer: a shallow embedding

    The development follows [twitter_client.py] (the authenticated, retrying
    HTTP client), the dataclasses of [models.py] it builds, and the cookie
    bundle assembled by [_collect_twitter_tokens] in [open_x_cdp.py].

    Python values are dynamically typed; the embedding keeps that: a JSON-like
    [value] type, builtins that raise the exception Python raises on a value
    of the wrong type, and an exception monad in which every method runs. *)

From Stdlib Require Import ZArith List String Ascii Bool Lia Sorted.
From Stdlib Require Import DecimalString.
Import ListNotations.

Set Warnings "-register-all".

Local Open Scope string_scope.
Local Open Scope Z_scope.

(** ** Python values, exceptions and builtins *)

Module Py.

(** What [json.load] / [response.json()] can produce, numbers being integers
    (no float occurs in the paths studied; [bool] is kept apart from [int]).
    A dict is an association list in insertion order, each key bound once. *)
Inductive value : Type :=
| VNone
| VBool (b : bool)
| VInt (z : Z)
| VStr (s : string)
| VList (l : list value)
| VDict (d : list (string * value)).

(** The exceptions met on the paths of the client.  [TwitterClientError] is the
    module's own exception and carries its message; [RequestException] stands
    for any [requests] failure other than a timeout or a connection error.
    [OverflowError] and [OSError] come from the libraries: the date parser
    raises the first on a number too large for a date, [time.sleep] the first
    or the second on a delay too long for the clock. *)
Inductive exn : Type :=
| TwitterClientError (msg : string)
| ValueError (msg : string)
| AttributeError
| TypeError
| KeyError
| RequestException
| OverflowError
| OSError.

Inductive result (A : Type) : Type :=
| Ok (a : A)
| Raise (e : exn).

Arguments Ok {A} a.
Arguments Raise {A} e.

Definition bind {A B} (m : result A) (k : A -> result B) : result B :=
  match m with
  | Ok a => k a
  | Raise e => Raise e
  end.

Definition is_ok {A} (m : result A) : bool :=
  match m with Ok _ => true | Raise _ => false end.

(** [bool(v)]. *)
Definition truthy (v : value) : bool :=
  match v with
  | VNone => false
  | VBool b => b
  | VInt z => negb (z =? 0)
  | VStr s => negb (String.eqb s EmptyString)
  | VList l => match l with [] => false | _ => true end
  | VDict d => match d with [] => false | _ => true end
  end.

(** [d.get(k)] on the association list of a dict. *)
Fixpoint lookup (k : string) (d : list (string * value)) : option value :=
  match d with
  | [] => None
  | (k', v) :: rest => if String.eqb k k' then Some v else lookup k rest
  end.

(** [d[k] = v]: rebinding keeps the key's position, a new key goes last. *)
Fixpoint dict_set (k : string) (v : value) (d : list (string * value))
  : list (string * value) :=
  match d with
  | [] => [(k, v)]
  | (k', v') :: rest =>
      if String.eqb k k' then (k, v) :: rest else (k', v') :: dict_set k v rest
  end.

(** [x.get(k, dflt)]; only dicts have the method. *)
Definition get (x : value) (k : string) (dflt : value) : result value :=
  match x with
  | VDict d => Ok (match lookup k d with Some v => v | None => dflt end)
  | _ => Raise AttributeError
  end.

Fixpoint prefix_of (p s : string) : bool :=
  match p, s with
  | EmptyString, _ => true
  | String a p', String b s' => if Ascii.eqb a b then prefix_of p' s' else false
  | String _ _, EmptyString => false
  end.

(** [needle in hay] on two strings. *)
Fixpoint contains (needle hay : string) : bool :=
  if prefix_of needle hay then true
  else match hay with
       | EmptyString => false
       | String _ hay' => contains needle hay'
       end.

(** [k in x] for a string [k]: key of a dict, element of a list, substring of
    a string; the other types are not containers. *)
Definition py_in (k : string) (x : value) : result bool :=
  match x with
  | VDict d => Ok (match lookup k d with Some _ => true | None => false end)
  | VList l =>
      Ok (existsb (fun v => match v with VStr s => String.eqb s k | _ => false end) l)
  | VStr s => Ok (contains k s)
  | _ => Raise TypeError
  end.

(** [x[k]] for a string [k]. *)
Definition index (x : value) (k : string) : result value :=
  match x with
  | VDict d => match lookup k d with Some v => Ok v | None => Raise KeyError end
  | _ => Raise TypeError
  end.

(** [v < 0] on the values of the model: integers compare ([bool] being an
    [int]), nothing else does.  Python compares a float as well; floats are
    outside the model, and what is proved of metrics is stated for integers. *)
Definition lt_zero (v : value) : result bool :=
  match v with
  | VInt z => Ok (z <? 0)
  | VBool _ => Ok false
  | _ => Raise TypeError
  end.

(** [all(f(x) for x in l)] and [any(f(x) for x in l)], left to right, stopping
    at the first decisive element or the first exception. *)
Fixpoint all_m {A} (f : A -> result bool) (l : list A) : result bool :=
  match l with
  | [] => Ok true
  | x :: rest => bind (f x) (fun b => if b then all_m f rest else Ok false)
  end.

Fixpoint any_m {A} (f : A -> result bool) (l : list A) : result bool :=
  match l with
  | [] => Ok false
  | x :: rest => bind (f x) (fun b => if b then Ok true else any_m f rest)
  end.

(** A list comprehension [[f(x) for x in l]]. *)
Fixpoint map_m {A B} (f : A -> result B) (l : list A) : result (list B) :=
  match l with
  | [] => Ok []
  | x :: rest =>
      bind (f x) (fun y => bind (map_m f rest) (fun ys => Ok (y :: ys)))
  end.

Definition is_upper (c : ascii) : bool :=
  let n := nat_of_ascii c in (65 <=? n)%nat && (n <=? 90)%nat.

Definition is_lower (c : ascii) : bool :=
  let n := nat_of_ascii c in (97 <=? n)%nat && (n <=? 122)%nat.

Definition lower_char (c : ascii) : ascii :=
  if is_upper c then ascii_of_nat (nat_of_ascii c + 32) else c.

Definition upper_char (c : ascii) : ascii :=
  if is_lower c then ascii_of_nat (nat_of_ascii c - 32) else c.

(** [s.lower()] and [s.upper()] on the letters A-Z / a-z.  Python also folds
    letters outside ASCII.  Among the 8-bit characters of this model none
    lowers to a letter of "http", and only the sharp s rises to a letter of
    "POST" (to a double S, which "POST" has not), so that the search for
    "http" and the comparison to "POST", the only uses made of these results,
    are decided as in Python. *)
Fixpoint lower (s : string) : string :=
  match s with
  | EmptyString => EmptyString
  | String c s' => String (lower_char c) (lower s')
  end.

Fixpoint upper (s : string) : string :=
  match s with
  | EmptyString => EmptyString
  | String c s' => String (upper_char c) (upper s')
  end.

(** The characters below 256 that [str.split()] treats as separators. *)
Definition is_space (c : ascii) : bool :=
  let n := nat_of_ascii c in
  ((9 <=? n)%nat && (n <=? 13)%nat) || ((28 <=? n)%nat && (n <=? 32)%nat)
  || (n =? 133)%nat || (n =? 160)%nat.

(** [len(s.split())]: the number of maximal runs of non-separators. *)
Fixpoint count_words (in_word : bool) (s : string) : nat :=
  match s with
  | EmptyString => O
  | String c s' =>
      if is_space c then count_words false s'
      else if in_word then count_words true s' else S (count_words true s')
  end.

(** [sep.join(parts)]. *)
Fixpoint join (sep : string) (parts : list string) : string :=
  match parts with
  | [] => EmptyString
  | [p] => p
  | p :: rest => p ++ sep ++ join sep rest
  end.

(** [str(z)] for an integer. *)
Definition str_of_Z (z : Z) : string := NilZero.string_of_int (Z.to_int z).

End Py.

Export Py.

Notation "x <- m ;; k" := (bind m (fun x => k))
  (at level 61, m at next level, right associativity).
Notation "m ;;; k" := (bind m (fun _ => k))
  (at level 61, right associativity).

(** ** models.py *)

(** A [datetime], as a point on a time line. *)
Definition datetime := Z.

Record EngagementMetrics := {
  likes : value;
  retweets : value;
  replies : value;
  views : value
}.

(** [EngagementMetrics(...)] followed by its [__post_init__]. *)
Definition new_EngagementMetrics (l rt rp v : value) : result EngagementMetrics :=
  negative <- any_m lt_zero [l; rt; rp; v] ;;
  if negative then Raise (ValueError "Engagement metrics cannot be negative")
  else Ok {| likes := l; retweets := rt; replies := rp; views := v |}.

Record ContentFeatures := {
  has_question : bool;
  has_media : bool;
  has_links : bool;
  has_hashtags : bool;
  has_mentions : bool;
  length : nat;
  word_count : nat;
  sentiment : string;
  topics : list string;
  language : string
}.

Definition valid_sentiments : list string := ["positive"; "negative"; "neutral"].

(** [ContentFeatures(...)] followed by its [__post_init__]. *)
Definition new_ContentFeatures (f : ContentFeatures) : result ContentFeatures :=
  if existsb (String.eqb (sentiment f)) valid_sentiments then Ok f
  else Raise (ValueError ("Invalid sentiment: " ++ sentiment f)).

Record Profile := {
  p_id : value;
  username : value;
  display_name : value;
  bio : value;
  avatar : value;
  verified : value;
  followers : value;
  following : value;
  location : value;
  url : value;
  join_date : option datetime;
  tweet_count : value;
  pinned_tweet : value
}.

Record Tweet := {
  id : value;
  text : string;
  user : Profile;
  created_at : datetime;
  engagement : EngagementMetrics;
  features : ContentFeatures;
  urls : value;
  hashtags : value;
  mentions : value;
  media : value;
  is_retweet : value;
  is_reply : value;
  is_thread : value;
  thread_position : value;
  quoted_tweet : value;
  retweeted_tweet : value
}.

Definition zero_engagement : EngagementMetrics :=
  {| likes := VInt 0; retweets := VInt 0; replies := VInt 0; views := VInt 0 |}.

(** [Tweet.__post_init__]: an engagement or features argument left at [None]
    is replaced by the default object. *)
Definition default_features (txt : string) : ContentFeatures :=
  {| has_question := false; has_media := false; has_links := false;
     has_hashtags := false; has_mentions := false;
     length := String.length txt; word_count := count_words false txt;
     sentiment := "neutral"; topics := []; language := "en" |}.

Definition new_Tweet (i : value) (txt : string) (u : Profile) (t : datetime)
    (e : option EngagementMetrics) (f : option ContentFeatures)
    (us hs ms md rt rp th pos q r : value) : Tweet :=
  {| id := i; text := txt; user := u; created_at := t;
     engagement := match e with Some e' => e' | None => zero_engagement end;
     features := match f with Some f' => f' | None => default_features txt end;
     urls := us; hashtags := hs; mentions := ms; media := md;
     is_retweet := rt; is_reply := rp; is_thread := th;
     thread_position := pos; quoted_tweet := q; retweeted_tweet := r |}.

(** ** twitter_client.py: configuration, transport and events *)

Record ApiConfig := {
  base_url : string;
  timeout_seconds : Z;
  max_retries : Z;
  backoff_base : Z
}.

(** The keys of [config.api] a caller may have supplied. *)
Record ApiOverrides := {
  o_base_url : option string;
  o_timeout_seconds : option Z;
  o_max_retries : option Z;
  o_backoff_base : option Z
}.

(** [self.session] is an attribute that [close] deletes. *)
Record TwitterClient := {
  config : ApiConfig;
  has_session : bool;
  cookie_data : value
}.

Definition or_default {A} (o : option A) (d : A) : A :=
  match o with Some a => a | None => d end.

(** [__init__]: without a [base_url] the whole [api] dict is replaced, then
    each missing key receives its default. *)
Definition new_client (o : ApiOverrides) : TwitterClient :=
  let api :=
    match o_base_url o with
    | None =>
        {| base_url := "http://localhost:3000"; timeout_seconds := 30;
           max_retries := 3; backoff_base := 2 |}
    | Some u =>
        {| base_url := u;
           timeout_seconds := or_default (o_timeout_seconds o) 30;
           max_retries := or_default (o_max_retries o) 3;
           backoff_base := or_default (o_backoff_base o) 2 |}
    end in
  {| config := api; has_session := true; cookie_data := VNone |}.

Record Response := {
  status_code : Z;
  json_body : option value;      (* [None]: [response.json()] raises JSONDecodeError *)
  response_text : string;
  reason : option string         (* [None]: the attribute is absent *)
}.

(** What one call of [session.post] / [session.get] does. *)
Inductive transport : Type :=
| Timeout
| ConnectionError
| OtherFailure
| Delivered (r : Response).

Inductive http_method := POST | GET.

Record Request := {
  req_method : http_method;
  req_url : string;
  req_cookie : value;
  req_json : option value;
  req_timeout : Z
}.

(** What the outside world can observe of a request sequence. *)
Inductive event : Type :=
| EvRequest (attempt : nat) (r : Request)
| EvSleep (seconds : Z).

Definition trace := list event.

Definition is_request (e : event) : bool :=
  match e with EvRequest _ _ => true | EvSleep _ => false end.

Fixpoint sleeps (tr : trace) : list Z :=
  match tr with
  | [] => []
  | EvSleep d :: rest => d :: sleeps rest
  | EvRequest _ _ :: rest => sleeps rest
  end.

Definition attempts_made (tr : trace) : nat := List.length (filter is_request tr).

Definition required_cookies : list string :=
  ["auth_token"; "ct0"; "twid"; "guest_id"; "att"].

Definition auth_missing : exn :=
  TwitterClientError
    "Authentication cookies missing: expected 'cookieHeader' and 'essentials'".

Definition auth_invalid : exn :=
  TwitterClientError
    "Authentication cookies invalid or incomplete; see is_authenticated() docstring for required set".

Definition timeout_error : exn :=
  TwitterClientError "Request timeout - bridge may be unavailable".

Definition connection_error : exn :=
  TwitterClientError "Connection error - unable to reach bridge".

Definition retries_exhausted : exn :=
  TwitterClientError "Max retries exceeded".

Definition transient_markers : list string :=
  ["HTTP 502:"; "HTTP 503:"; "HTTP 504:"].

(** The longest delay, in seconds, that fits 2^63 - 1 nanoseconds. *)
Definition max_sleep : Z := 9223372036.

(** [any(status in error_msg for status in [...])]. *)
Definition is_transient_message (error_msg : string) : bool :=
  existsb (fun status => contains status error_msg) transient_markers.

(** ** twitter_client.py and open_x_cdp.py: the methods

    Three library routines are kept abstract: [dateutil]'s parser, which
    returns a date or raises ([ParserError], a [ValueError], on text that is
    no date; [TypeError] on what is no text; [OverflowError] on digits too
    many for a date, such as a timestamp in milliseconds), the clock, and
    [str()] of a list or dict (the scalars are formatted below).  The cookie
    harvester's [_format_cookie_string], which renders an expiry date, is
    abstract as well, and so is the longest delay, a second or more, that
    the platform's clock takes from [time.sleep]. *)

Section Client.

Set Default Proof Using "Type".

Variable date_parse : value -> result datetime.
Variable now : datetime.
Variable str_compound : value -> string.
Variable format_cookie_string : list (string * value) -> string.
Variable sleep_limit : positive.

(** [str(v)], as an f-string renders a value. *)
Definition str (v : value) : string :=
  match v with
  | VStr s => s
  | VNone => "None"
  | VBool true => "True"
  | VBool false => "False"
  | VInt z => str_of_Z z
  | _ => str_compound v
  end.

(** *** Credential store *)

Definition close (c : TwitterClient) : TwitterClient * result unit :=
  if has_session c
  then ({| config := config c; has_session := false;
           cookie_data := cookie_data c |}, Ok tt)
  else (c, Ok tt).

(** [__exit__] closes the session. *)
Definition exit_context (c : TwitterClient) : TwitterClient * result unit :=
  close c.

Definition load_cookies (c : TwitterClient) (data : value) : TwitterClient :=
  {| config := config c; has_session := has_session c; cookie_data := data |}.

Definition get_essential_cookies (c : TwitterClient) : result value :=
  if negb (truthy (cookie_data c)) then Ok (VDict [])
  else get (cookie_data c) "essentials" (VDict []).

Definition get_cookie_header (c : TwitterClient) : result value :=
  if negb (truthy (cookie_data c)) then Ok (VStr EmptyString)
  else get (cookie_data c) "cookieHeader" (VStr EmptyString).

(** [cookie in essentials and essentials[cookie]], as [all] tests it. *)
Definition cookie_present (essentials : value) (cookie : string) : result bool :=
  present <- py_in cookie essentials ;;
  if present then v <- index essentials cookie ;; Ok (truthy v)
  else Ok false.

Definition is_authenticated (c : TwitterClient) : result bool :=
  if negb (truthy (cookie_data c)) then Ok false
  else
    essentials <- get_essential_cookies c ;;
    all_m (cookie_present essentials) required_cookies.

Definition check_authentication (c : TwitterClient) : result unit :=
  if negb (truthy (cookie_data c)) then Raise auth_missing
  else
    has_header <- py_in "cookieHeader" (cookie_data c) ;;
    if negb has_header then Raise auth_missing
    else
      has_essentials <- py_in "essentials" (cookie_data c) ;;
      if negb has_essentials then Raise auth_missing
      else
        cookie_header <- get (cookie_data c) "cookieHeader" (VStr EmptyString) ;;
        essentials <- get (cookie_data c) "essentials" (VDict []) ;;
        if negb (truthy cookie_header) || negb (truthy essentials)
        then Raise auth_missing
        else
          authenticated <- is_authenticated c ;;
          if negb authenticated then Raise auth_invalid else Ok tt.

(** *** Response classification *)

Definition is_str (v : value) (s : string) : bool :=
  match v with VStr s' => String.eqb s' s | _ => false end.

Definition handle_response (response : Response) : result value :=
  if 400 <=? status_code response then
    match json_body response with
    | Some data =>
        error <- get data "error" (VDict []) ;;
        error_code <- get error "code" (VStr "UNKNOWN") ;;
        error_message <- get error "message" (VStr "Unknown error") ;;
        Raise (TwitterClientError
                 ("HTTP " ++ str_of_Z (status_code response) ++ ": "
                  ++ str error_code ++ " - " ++ str error_message))
    | None =>
        Raise (TwitterClientError
                 ("HTTP " ++ str_of_Z (status_code response) ++ ": "
                  ++ or_default (reason response) "Unknown Error"))
    end
  else
    match json_body response with
    | None =>
        Raise (TwitterClientError
                 ("Invalid response format: " ++ response_text response))
    | Some data =>
        success <- get data "success" (VBool false) ;;
        if negb (truthy success) then
          error <- get data "error" (VDict []) ;;
          error_code <- get error "code" (VStr "UNKNOWN") ;;
          error_message <- get error "message" (VStr "Unknown error") ;;
          is_auth <- py_in "AUTHENTICATION" error_code ;;
          if is_auth then
            Raise (TwitterClientError ("Authentication error: " ++ str error_message))
          else if is_str error_code "NOT_FOUND" then
            Raise (TwitterClientError ("Resource not found: " ++ str error_message))
          else if is_str error_code "RATE_LIMITED" then
            Raise (TwitterClientError ("Rate limit exceeded: " ++ str error_message))
          else
            Raise (TwitterClientError
                     ("API error (" ++ str error_code ++ "): " ++ str error_message))
        else Ok data
    end.

(** *** The request primitive *)

(** What [time.sleep(seconds)] raises, if anything.  CPython keeps the delay as
    a signed 64-bit count of nanoseconds and raises [OverflowError] on what
    does not fit; the platform's clock then refuses, with [OSError], a delay
    that ends after its last instant. *)
Definition sleep_error (seconds : Z) : option exn :=
  if seconds <? 0 then Some (ValueError "sleep length must be non-negative")
  else if max_sleep <? seconds then Some OverflowError
  else if Z.pos sleep_limit <? seconds then Some OSError
  else None.

(** [time.sleep(backoff_base ** attempt)], then the rest of the loop. *)
Definition backoff (c : TwitterClient) (attempt : nat)
    (continue : result value * trace) : result value * trace :=
  let seconds := backoff_base (config c) ^ Z.of_nat attempt in
  match sleep_error seconds with
  | Some e => (Raise e, [])
  | None => (fst continue, EvSleep seconds :: snd continue)
  end.

Definition build_request (c : TwitterClient) (method endpoint : string)
    (data : option (list (string * value))) : result Request :=
  cookie <- get_cookie_header c ;;
  let target := base_url (config c) ++ endpoint in
  if String.eqb (upper method) "POST" then
    essentials <- get_essential_cookies c ;;
    let request_data :=
      match data with Some (b :: d) => b :: d | _ => [] end in
    Ok {| req_method := POST; req_url := target; req_cookie := cookie;
          req_json := Some (VDict (dict_set "cookies" essentials request_data));
          req_timeout := timeout_seconds (config c) |}
  else
    Ok {| req_method := GET; req_url := target; req_cookie := cookie;
          req_json := None; req_timeout := timeout_seconds (config c) |}.

(** The [for attempt in range(max_retries)] loop: [remaining] iterations are
    left and the next one has index [attempt]; [env k] is what the transport
    does at the call of attempt [k]. *)
Fixpoint request_loop (c : TwitterClient) (env : nat -> transport)
    (retries : Z) (req : Request) (remaining attempt : nat)
  : result value * trace :=
  match remaining with
  | O => (Raise retries_exhausted, [])
  | S remaining' =>
      if negb (has_session c) then (Raise AttributeError, [])
      else
        let sent := EvRequest attempt req in
        let final := Z.of_nat attempt =? retries - 1 in
        let retry (e : exn) :=
          if final then (Raise e, [sent])
          else
            let rest :=
              backoff c attempt
                (request_loop c env retries req remaining' (S attempt)) in
            (fst rest, sent :: snd rest) in
        match env attempt with
        | Timeout => retry timeout_error
        | ConnectionError => retry connection_error
        | OtherFailure => (Raise RequestException, [sent])
        | Delivered response =>
            match handle_response response with
            | Ok payload => (Ok payload, [sent])
            | Raise (TwitterClientError error_msg) =>
                if is_transient_message error_msg
                then retry (TwitterClientError error_msg)
                else (Raise (TwitterClientError error_msg), [sent])
            | Raise e => (Raise e, [sent])
            end
        end
  end.

Definition make_request (c : TwitterClient) (env : nat -> transport)
    (method endpoint : string) (data : option (list (string * value)))
    (retries_override : option Z) : result value * trace :=
  match check_authentication c with
  | Raise e => (Raise e, [])
  | Ok _ =>
      let retries := or_default retries_override (max_retries (config c)) in
      match build_request c method endpoint data with
      | Raise e => (Raise e, [])
      | Ok req => request_loop c env retries req (Z.to_nat retries) O
      end
  end.

(** *** Response normalizer *)

(** [except (ValueError, TypeError)]: the two exceptions the normalizers
    catch around the parser. *)
Definition caught (e : exn) : bool :=
  match e with
  | ValueError _ | TypeError => true
  | _ => false
  end.

(** The [try: ... date_parser.parse(x) except (ValueError, TypeError)] idiom:
    [fallback] when evaluating or parsing the argument raises one of the two;
    any other exception goes on to the caller. *)
Definition parse_or {A} (some : datetime -> A) (fallback : A) (arg : result value)
  : result A :=
  match bind arg date_parse with
  | Ok t => Ok (some t)
  | Raise e => if caught e then Ok fallback else Raise e
  end.

Definition normalize_user (user_data : value) : result Profile :=
  has_join_date <- py_in "joinDate" user_data ;;
  joined <- (if has_join_date
             then parse_or Some None (index user_data "joinDate")
             else Ok None) ;;
  i <- get user_data "id" (VStr EmptyString) ;;
  name <- get user_data "username" (VStr EmptyString) ;;
  display <- get user_data "displayName" (VStr EmptyString) ;;
  b <- get user_data "bio" (VStr EmptyString) ;;
  av <- get user_data "avatar" VNone ;;
  ver <- get user_data "verified" (VBool false) ;;
  fers <- get user_data "followers" (VInt 0) ;;
  fing <- get user_data "following" (VInt 0) ;;
  loc <- get user_data "location" VNone ;;
  u <- get user_data "url" VNone ;;
  count <- get user_data "tweetCount" (VInt 0) ;;
  pinned <- get user_data "pinnedTweet" VNone ;;
  Ok {| p_id := i; username := name; display_name := display; bio := b;
        avatar := av; verified := ver; followers := fers; following := fing;
        location := loc; url := u; join_date := joined;
        tweet_count := count; pinned_tweet := pinned |}.

Definition normalize_engagement (engagement_data : value)
  : result EngagementMetrics :=
  l <- get engagement_data "likes" (VInt 0) ;;
  rt <- get engagement_data "retweets" (VInt 0) ;;
  rp <- get engagement_data "replies" (VInt 0) ;;
  v <- get engagement_data "views" (VInt 0) ;;
  new_EngagementMetrics l rt rp v.

(** The features computed from [text]: [len(text)] accepts any sized value,
    [text.split()] only a string. *)
Definition lexical_features (txt media_field : value) : result ContentFeatures :=
  match txt with
  | VStr s =>
      new_ContentFeatures
        {| has_question := contains "?" s;
           has_media := truthy media_field;
           has_links := contains "http" (lower s);
           has_hashtags := contains "#" s;
           has_mentions := contains "@" s;
           length := String.length s;
           word_count := count_words false s;
           sentiment := "neutral"; topics := []; language := "en" |}
  | VList _ | VDict _ => Raise AttributeError
  | _ => Raise TypeError
  end.

Definition text_of (txt : value) : string :=
  match txt with VStr s => s | _ => EmptyString end.

Definition normalize_tweet (tweet_data : value) : result Tweet :=
  user_data <- get tweet_data "user" (VDict []) ;;
  u <- normalize_user user_data ;;
  engagement_data <- get tweet_data "engagement" (VDict []) ;;
  e <- normalize_engagement engagement_data ;;
  created_at_str <- get tweet_data "createdAt" VNone ;;
  t <- (if truthy created_at_str
        then parse_or (fun t => t) now (Ok created_at_str)
        else Ok now) ;;
  txt <- get tweet_data "text" (VStr EmptyString) ;;
  media_field <- get tweet_data "media" (VList []) ;;
  f <- lexical_features txt media_field ;;
  i <- get tweet_data "id" (VStr EmptyString) ;;
  us <- get tweet_data "urls" (VList []) ;;
  hs <- get tweet_data "hashtags" (VList []) ;;
  ms <- get tweet_data "mentions" (VList []) ;;
  md <- get tweet_data "media" (VList []) ;;
  rt <- get tweet_data "isRetweet" (VBool false) ;;
  rp <- get tweet_data "isReply" (VBool false) ;;
  th <- get tweet_data "isThread" (VBool false) ;;
  pos <- get tweet_data "threadPosition" VNone ;;
  q <- get tweet_data "quotedTweet" VNone ;;
  r <- get tweet_data "retweetedTweet" VNone ;;
  Ok (new_Tweet i (text_of txt) u t (Some e) (Some f)
        us hs ms md rt rp th pos q r).

(** *** Public operations *)

(** What a [for] loop or a comprehension iterates over. *)
Definition iterate (v : value) : result (list value) :=
  match v with
  | VList l => Ok l
  | VDict d => Ok (map (fun kv => VStr (fst kv)) d)
  | VStr s => Ok (map (fun ch => VStr (String ch EmptyString)) (list_ascii_of_string s))
  | _ => Raise TypeError
  end.

Definition normalize_all (payload : value) : result (list Tweet) :=
  tweet_list <- get payload "data" (VList []) ;;
  items <- iterate tweet_list ;;
  map_m normalize_tweet items.

Definition after_request {A} (k : value -> result A)
    (r : result value * trace) : result A * trace :=
  (bind (fst r) k, snd r).

Definition get_timeline (c : TwitterClient) (env : nat -> transport)
    (count : value) : result (list Tweet) * trace :=
  after_request normalize_all
    (make_request c env "POST" "/api/timeline" (Some [("count", count)]) None).

Definition get_latest_tweet (c : TwitterClient) (env : nat -> transport)
  : result Tweet * trace :=
  let r := get_timeline c env (VInt 1) in
  (tweets <- fst r ;;
   match tweets with
   | [] => Raise (TwitterClientError "No tweets found")
   | t :: _ => Ok t
   end, snd r).

Definition get_tweets_and_replies (c : TwitterClient) (env : nat -> transport)
    (count : value) : result (list Tweet) * trace :=
  after_request normalize_all
    (make_request c env "POST" "/api/timeline"
       (Some [("count", count); ("includeReplies", VBool true)]) None).

Definition get_tweet (c : TwitterClient) (env : nat -> transport)
    (tweet_id : string) : result Tweet * trace :=
  after_request
    (fun data => tweet_data <- get data "data" (VDict []) ;;
                 normalize_tweet tweet_data)
    (make_request c env "GET" ("/api/tweet/" ++ tweet_id) None None).

Definition search_tweets : result (list Tweet) :=
  Raise (TwitterClientError
    "Search functionality is not yet implemented due to library limitations").

Definition get_profile : result Profile :=
  Raise (TwitterClientError
    "Profile retrieval is not yet implemented due to library limitations").

Definition get_trends : result (list value) :=
  Raise (TwitterClientError
    "Trends functionality is not yet implemented due to library limitations").

Definition get_mentions : result (list Tweet) :=
  Raise (TwitterClientError
    "Mentions functionality is not yet implemented due to library limitations").

(** *** The cookie harvester: the loop of [_collect_twitter_tokens] *)

Record harvest := {
  formatted_cookies : list value;
  header_parts : list string;
  cookie_lookup : list (string * string)
}.

Fixpoint lookup_str (k : string) (d : list (string * string)) : option string :=
  match d with
  | [] => None
  | (k', v) :: rest => if String.eqb k k' then Some v else lookup_str k rest
  end.

Definition field (cookie : list (string * value)) (k : string) : value :=
  or_default (lookup k cookie) VNone.

Definition format_cookie (cookie : list (string * value)) (name val : string)
  : value :=
  VDict [("name", VStr name); ("value", VStr val);
         ("domain", field cookie "domain"); ("path", field cookie "path");
         ("expires", field cookie "expires");
         ("httpOnly", VBool (truthy (field cookie "httpOnly")));
         ("secure", VBool (truthy (field cookie "secure")));
         ("sameSite", field cookie "sameSite");
         ("priority", field cookie "priority");
         ("sourcePort", field cookie "sourcePort");
         ("sourceScheme", field cookie "sourceScheme");
         ("cookieString", VStr (format_cookie_string cookie))].

(** One iteration of [for cookie in cookies]. *)
Definition collect_step (h : harvest) (cookie : value) : harvest :=
  match cookie with
  | VDict d =>
      match field d "name", field d "value" with
      | VStr name, VStr val =>
          let formatted := (formatted_cookies h ++ [format_cookie d name val])%list in
          match lookup_str name (cookie_lookup h) with
          | Some _ =>
              {| formatted_cookies := formatted;
                 header_parts := header_parts h;
                 cookie_lookup := cookie_lookup h |}
          | None =>
              {| formatted_cookies := formatted;
                 header_parts := List.app (header_parts h) [name ++ "=" ++ val];
                 cookie_lookup := (cookie_lookup h ++ [(name, val)])%list |}
          end
      | _, _ => h
      end
  | _ => h
  end.

(** The dict comprehension that selects the essentials. *)
Fixpoint select_essentials (keys : list string) (table : list (string * string))
  : list (string * value) :=
  match keys with
  | [] => []
  | key :: rest =>
      match lookup_str key table with
      | Some v => (key, VStr v) :: select_essentials rest table
      | None => select_essentials rest table
      end
  end.

Definition collect_twitter_tokens (cookies : list value) : value :=
  let h := fold_left collect_step cookies
             {| formatted_cookies := []; header_parts := []; cookie_lookup := [] |} in
  VDict [("cookies", VList (formatted_cookies h));
         ("cookieHeader", VStr (join "; " (header_parts h)));
         ("essentials", VDict (select_essentials required_cookies (cookie_lookup h)))].

(** *** The shapes the specification's data model gives to raw data *)

Definition absent_or (p : value -> bool) (d : list (string * value)) (k : string)
  : bool :=
  match lookup k d with None => true | Some v => p v end.

Definition is_dict (v : value) : bool :=
  match v with VDict _ => true | _ => false end.

Definition is_string (v : value) : bool :=
  match v with VStr _ => true | _ => false end.

Definition is_integer (v : value) : bool :=
  match v with VInt _ => true | _ => false end.

Definition is_count (v : value) : bool :=
  match v with VInt z => 0 <=? z | _ => false end.

Definition metric_names : list string := ["likes"; "retweets"; "replies"; "views"].

(** A CookieBundle, or nothing loaded: [essentials], when there, is a mapping. *)
Definition bundle_shaped (data : value) : bool :=
  match data with
  | VNone => true
  | VDict d => absent_or is_dict d "essentials"
  | _ => false
  end.

(** The value [essentials] binds to a cookie name, if any. *)
Definition essential (data : value) (k : string) : option value :=
  match data with
  | VDict d =>
      match lookup "essentials" d with
      | Some (VDict e) => lookup k e
      | _ => None
      end
  | _ => None
  end.

(** Some required cookie is absent from [essentials] or bound to an empty value. *)
Definition lacks_required_cookie (data : value) : Prop :=
  exists k, In k required_cookies /\
            match essential data k with
            | None => True
            | Some v => truthy v = false
            end.

(** A loaded bundle with a non-empty [cookieHeader], non-empty [essentials] and
    a non-empty value for every required cookie. *)
Definition complete_bundle (data : value) : Prop :=
  exists d h e,
    data = VDict d /\
    lookup "cookieHeader" d = Some h /\ truthy h = true /\
    lookup "essentials" d = Some (VDict e) /\ e <> [] /\
    forall k, In k required_cookies ->
              exists v, lookup k e = Some v /\ truthy v = true.

(** The two errors of the authentication gate. *)
Definition authentication_missing (e : exn) : Prop :=
  e = auth_missing \/ e = auth_invalid.

(** *** Vocabulary for request sequences *)

(** What attempt [k] yields on its own: the client's error for a transport
    failure, or the classification of the response delivered. *)
Definition attempt_outcome (env : nat -> transport) (k : nat) : result value :=
  match env k with
  | Timeout => Raise timeout_error
  | ConnectionError => Raise connection_error
  | OtherFailure => Raise RequestException
  | Delivered response => handle_response response
  end.

(** The events of [len] retried attempts from index [start] on: each request
    is followed by its backoff sleep. *)
Fixpoint retried (base : Z) (req : Request) (start len : nat) : trace :=
  match len with
  | O => []
  | S len' =>
      EvRequest start req :: EvSleep (base ^ Z.of_nat start)
        :: retried base req (S start) len'
  end.

Definition transport_failure (t : transport) : Prop :=
  t = Timeout \/ t = ConnectionError.

Definition transport_unavailable (e : exn) : Prop :=
  e = timeout_error \/ e = connection_error.

(** The delay slept after attempt [i], for [i] below [count]. *)
Definition backoff_delays (base : Z) (count : nat) : list Z :=
  map (fun i => base ^ Z.of_nat i) (seq 0 count).

(** Whether the loop goes on after attempt [k] when attempts remain: a timeout,
    a connection error, or a classified error whose text has a transient
    marker. *)
Definition retryable (env : nat -> transport) (k : nat) : bool :=
  match env k with
  | Timeout | ConnectionError => true
  | OtherFailure => false
  | Delivered response =>
      match handle_response response with
      | Raise (TwitterClientError error_msg) => is_transient_message error_msg
      | _ => false
      end
  end.

(** *** The error taxonomy, as the client words it *)

Definition HttpError (status : Z) (detail : string) : exn :=
  TwitterClientError ("HTTP " ++ str_of_Z status ++ ": " ++ detail).

Definition MalformedResponse (body : string) : exn :=
  TwitterClientError ("Invalid response format: " ++ body).

Definition AuthenticationRejected (message : string) : exn :=
  TwitterClientError ("Authentication error: " ++ message).

Definition ResourceNotFound (message : string) : exn :=
  TwitterClientError ("Resource not found: " ++ message).

Definition RateLimited (message : string) : exn :=
  TwitterClientError ("Rate limit exceeded: " ++ message).

Definition ApiError (code message : string) : exn :=
  TwitterClientError ("API error (" ++ code ++ "): " ++ message).

(** The members of an envelope [{success, data, error: {code, message}}], with
    the defaults the classification gives to absent ones; the [error] member
    is usable when it is absent or an object. *)
Definition success_flag (d : list (string * value)) : value :=
  or_default (lookup "success" d) (VBool false).

Definition error_member (d : list (string * value))
  : option (list (string * value)) :=
  match lookup "error" d with
  | None => Some []
  | Some (VDict e) => Some e
  | Some _ => None
  end.

Definition error_code (e : list (string * value)) : value :=
  or_default (lookup "code" e) (VStr "UNKNOWN").

Definition error_message (e : list (string * value)) : value :=
  or_default (lookup "message" e) (VStr "Unknown error").

(** "Valid JSON whose success flag is false", read to the letter. *)
Definition flag_is_false (body : value) : bool :=
  match body with
  | VDict d =>
      match lookup "success" d with
      | Some (VBool false) => true
      | _ => false
      end
  | _ => false
  end.

(** The application-level error that a string [code] selects. *)
Definition application_error (code message : string) : exn :=
  if contains "AUTHENTICATION" code then AuthenticationRejected message
  else if String.eqb code "NOT_FOUND" then ResourceNotFound message
  else if String.eqb code "RATE_LIMITED" then RateLimited message
  else ApiError code message.

(** What the harvesting loop maintains: every cookie in the lookup table has
    its [name=value] among the header parts. *)
Definition header_covers (h : harvest) : Prop :=
  forall k v, lookup_str k (cookie_lookup h) = Some v ->
              In (k ++ "=" ++ v) (header_parts h).

(** *** Vocabulary for normalization *)

(** An engagement mapping whose metrics, where present, satisfy [p]. *)
Definition metrics_are (p : value -> bool) (e : value) : bool :=
  match e with
  | VDict m => forallb (absent_or p m) metric_names
  | _ => false
  end.

(** A post-shaped raw mapping: the members read with a type in mind have that
    type when they are present (a mapping for [user], non-negative integer
    metrics in [engagement], a string for [text]); any member may be absent. *)
Definition post_shaped (d : list (string * value)) : bool :=
  absent_or is_dict d "user"
  && absent_or (metrics_are is_count) d "engagement"
  && absent_or is_string d "text".

(** The parser takes [v]: it returns a date, or raises what the normalizers
    catch. *)
Definition handled (v : value) : bool :=
  match date_parse v with
  | Ok _ => true
  | Raise e => caught e
  end.

(** The parser rejects [v] with an exception the normalizers catch. *)
Definition unparsable (v : value) : Prop :=
  exists e, date_parse v = Raise e /\ caught e = true.

Definition missing_or_unparsable (d : list (string * value)) (k : string) : Prop :=
  lookup k d = None \/ exists v, lookup k d = Some v /\ unparsable v.

(** The timestamp a raw mapping yields. *)
Definition created_at_of (d : list (string * value)) : result datetime :=
  let v := or_default (lookup "createdAt" d) VNone in
  if truthy v then parse_or (fun t => t) now (Ok v) else Ok now.

(** The join date a raw user mapping yields. *)
Definition join_date_of (u : list (string * value)) : result (option datetime) :=
  match lookup "joinDate" u with
  | Some v => parse_or Some None (Ok v)
  | None => Ok None
  end.

Definition negative_engagement : exn :=
  ValueError "Engagement metrics cannot be negative".

Definition default_profile : Profile :=
  {| p_id := VStr EmptyString; username := VStr EmptyString;
     display_name := VStr EmptyString; bio := VStr EmptyString;
     avatar := VNone; verified := VBool false;
     followers := VInt 0; following := VInt 0; location := VNone; url := VNone;
     join_date := None; tweet_count := VInt 0; pinned_tweet := VNone |}.

(** The Tweet that the empty mapping normalizes to. *)
Definition default_tweet : Tweet :=
  {| id := VStr EmptyString; text := EmptyString; user := default_profile;
     created_at := now; engagement := zero_engagement;
     features := default_features EmptyString;
     urls := VList []; hashtags := VList []; mentions := VList [];
     media := VList []; is_retweet := VBool false; is_reply := VBool false;
     is_thread := VBool false; thread_position := VNone;
     quoted_tweet := VNone; retweeted_tweet := VNone |}.

(** *** models.py: the methods of the dataclasses *)

(** The integer a value counts as in arithmetic ([bool] is an [int]). *)
Definition as_int (v : value) : option Z :=
  match v with
  | VInt z => Some z
  | VBool b => Some (Z.b2z b)
  | _ => None
  end.

(** [a + b]: integers add, strings and lists concatenate. *)
Definition py_add (a b : value) : result value :=
  match as_int a, as_int b with
  | Some x, Some y => Ok (VInt (x + y))
  | _, _ =>
      match a, b with
      | VStr s, VStr s' => Ok (VStr (s ++ s'))
      | VList l, VList l' => Ok (VList (l ++ l'))
      | _, _ => Raise TypeError
      end
  end.

(** [EngagementMetrics.total_engagements]. *)
Definition total_engagements (m : EngagementMetrics) : result value :=
  partial <- py_add (likes m) (retweets m) ;;
  py_add partial (replies m).

(** [ContentFeatures.is_engaging]. *)
Definition is_engaging (f : ContentFeatures) : bool :=
  has_question f || has_media f || String.eqb (sentiment f) "positive"
  || (0 <? List.length (topics f))%nat.

(** [data.get(k1, data.get(k2, dflt))]: the inner call is evaluated first. *)
Definition get2 (data : value) (k1 k2 : string) (dflt : value) : result value :=
  inner <- get data k2 dflt ;;
  get data k1 inner.

(** [Profile.from_dict]. *)
Definition Profile_from_dict (data : value) : result Profile :=
  camel <- py_in "joinDate" data ;;
  has_date <- (if camel then Ok true else py_in "join_date" data) ;;
  joined <- (if has_date then
               date_str <- get2 data "joinDate" "join_date" VNone ;;
               if truthy date_str && is_string date_str
               then parse_or Some None (Ok date_str)
               else Ok None
             else Ok None) ;;
  i <- get data "id" (VStr EmptyString) ;;
  name <- get data "username" (VStr EmptyString) ;;
  display <- get2 data "displayName" "display_name" (VStr EmptyString) ;;
  b <- get data "bio" (VStr EmptyString) ;;
  av <- get data "avatar" VNone ;;
  ver <- get data "verified" (VBool false) ;;
  fers <- get data "followers" (VInt 0) ;;
  fing <- get data "following" (VInt 0) ;;
  loc <- get data "location" VNone ;;
  u <- get data "url" VNone ;;
  count <- get2 data "tweetCount" "tweet_count" (VInt 0) ;;
  pinned <- get2 data "pinnedTweet" "pinned_tweet" VNone ;;
  Ok {| p_id := i; username := name; display_name := display; bio := b;
        avatar := av; verified := ver; followers := fers; following := fing;
        location := loc; url := u; join_date := joined;
        tweet_count := count; pinned_tweet := pinned |}.

(** [Profile.to_dict]; [isoformat] stands for [datetime.isoformat], a library
    routine kept abstract like the parser. *)
Definition Profile_to_dict (isoformat : datetime -> string) (p : Profile)
  : list (string * value) :=
  [("id", p_id p); ("username", username p); ("displayName", display_name p);
   ("bio", bio p); ("avatar", avatar p); ("verified", verified p);
   ("followers", followers p); ("following", following p);
   ("location", location p); ("url", url p);
   ("joinDate", match join_date p with
                | Some t => VStr (isoformat t)
                | None => VNone
                end);
   ("tweetCount", tweet_count p); ("pinnedTweet", pinned_tweet p)].

(** [Tweet.to_dict]. *)
Definition Tweet_to_dict (isoformat : datetime -> string) (t : Tweet)
  : list (string * value) :=
  [("id", id t); ("text", VStr (text t));
   ("user", VDict (Profile_to_dict isoformat (user t)));
   ("createdAt", VStr (isoformat (created_at t)));
   ("engagement",
    VDict [("likes", likes (engagement t)); ("retweets", retweets (engagement t));
           ("replies", replies (engagement t)); ("views", views (engagement t))]);
   ("features",
    VDict [("hasQuestion", VBool (has_question (features t)));
           ("hasMedia", VBool (has_media (features t)));
           ("hasLinks", VBool (has_links (features t)));
           ("hasHashtags", VBool (has_hashtags (features t)));
           ("hasMentions", VBool (has_mentions (features t)));
           ("length", VInt (Z.of_nat (length (features t))));
           ("wordCount", VInt (Z.of_nat (word_count (features t))));
           ("sentiment", VStr (sentiment (features t)));
           ("topics", VList (map VStr (topics (features t))));
           ("language", VStr (language (features t)))]);
   ("urls", urls t); ("hashtags", hashtags t); ("mentions", mentions t);
   ("media", media t); ("isRetweet", is_retweet t); ("isReply", is_reply t);
   ("isThread", is_thread t); ("threadPosition", thread_position t);
   ("quotedTweet", quoted_tweet t); ("retweetedTweet", retweeted_tweet t)].

(** The members [_normalize_tweet] copies from the raw mapping as they are. *)
Definition copied_members : list string :=
  ["id"; "urls"; "hashtags"; "mentions"; "media"; "isRetweet"; "isReply";
   "isThread"; "threadPosition"; "quotedTweet"; "retweetedTweet"].

(** The snake_case spellings [Profile.from_dict] falls back to. *)
Definition snake_case_members : list string :=
  ["join_date"; "display_name"; "tweet_count"; "pinned_tweet"].

(** *** Vocabulary for the gate and the request *)

(** The bundle has a non-empty [cookieHeader]. *)
Definition header_ok (data : value) : bool :=
  match data with
  | VDict d =>
      match lookup "cookieHeader" d with
      | Some h => truthy h
      | None => false
      end
  | _ => false
  end.

(** *** Vocabulary for the harvester *)




(** *** open_x_cdp.py: the frames of [_SimpleWebSocket]

    Bytes are integers from 0 to 255.  The socket is the list of the chunks
    that [recv] will return, in order; an empty chunk, or the end of the list,
    is the peer closing the connection. *)

Inductive frame_error : Type :=
| MaskedFrame            (* ConnectionError: received masked frame from server *)
| ConnectionClosed       (* ConnectionError: connection closed unexpectedly *)
| StructError            (* struct.error: the number does not fit the format *)
| ByteOutOfRange.        (* ValueError: byte must be in range(0, 256) *)

Inductive outcome (A : Type) : Type :=
| Done (a : A)
| Failed (e : frame_error).

#[global] Arguments Done {A} a.
#[global] Arguments Failed {A} e.

(** [struct.pack] of an unsigned integer on [width] bytes, big-endian, and
    [struct.unpack] of such bytes. *)
Fixpoint pack_be (width : nat) (n : Z) : list Z :=
  match width with
  | O => []
  | S w => (pack_be w (n / 256) ++ [n mod 256])%list
  end.

Definition unpack_be (bytes : list Z) : Z :=
  fold_left (fun acc b => acc * 256 + b) bytes 0.

(** [bytes(b ^ mask_key[i % 4] for i, b in enumerate(payload))]. *)
Definition mask_payload (mask_key payload : list Z) : list Z :=
  map (fun ib => Z.lxor (snd ib) (nth (fst ib mod 4) mask_key 0))
      (combine (seq 0 (List.length payload)) payload).

(** The bytes that announce a payload length, under the mask bit [mask_bit]
    (0x80 in the frames the client sends): the three branches of [_send_text]. *)
Definition length_field (mask_bit : Z) (payload_len : Z) : outcome (list Z) :=
  if payload_len <=? 125 then Done [Z.lor mask_bit payload_len]
  else if payload_len <=? 65535
       then Done (Z.lor mask_bit 126 :: pack_be 2 payload_len)
       else if payload_len <? 2 ^ 64
            then Done (Z.lor mask_bit 127 :: pack_be 8 payload_len)
            else Failed StructError.

(** [_send_text], on the encoded message and the four random bytes of the key:
    the frame handed to [sendall]. *)
Definition send_text (mask_key payload : list Z) : outcome (list Z) :=
  match length_field 128 (Z.of_nat (List.length payload)) with
  | Done announced =>
      Done (129 :: announced ++ mask_key ++ mask_payload mask_key payload)%list
  | Failed e => Failed e
  end.

(** [_send_control_frame]: the length goes into one byte whatever it is. *)
Definition send_control_frame (opcode : Z) (mask_key payload : list Z)
  : outcome (list Z) :=
  let first := Z.lor 128 opcode in
  let second := Z.lor 128 (Z.of_nat (List.length payload)) in
  if (first <? 256) && (second <? 256)
  then Done (first :: second :: mask_key ++ mask_payload mask_key payload)%list
  else Failed ByteOutOfRange.

(** [_require_bytes]: receive until the buffer holds [size] bytes. *)
Fixpoint require_bytes (size : nat) (buffer : list Z) (incoming : list (list Z))
  : option (list Z * list (list Z)) :=
  if (size <=? List.length buffer)%nat then Some (buffer, incoming)
  else
    match incoming with
    | [] => None
    | [] :: _ => None
    | chunk :: rest => require_bytes size (buffer ++ chunk) rest
    end.

(** [buffer[start : start + count]]. *)
Definition slice (buffer : list Z) (start count : nat) : list Z :=
  firstn count (skipn start buffer).

(** [_read_frame]: the opcode and payload of the next frame, with the buffer
    and socket it leaves. *)
Definition read_frame (buffer : list Z) (incoming : list (list Z))
  : outcome ((Z * list Z) * (list Z * list (list Z))) :=
  match require_bytes 2 buffer incoming with
  | None => Failed ConnectionClosed
  | Some (buffer, incoming) =>
      let first_byte := nth 0 buffer 0 in
      let second_byte := nth 1 buffer 0 in
      let masked := Z.land second_byte 128 in
      let payload_len := Z.land second_byte 127 in
      let extended :=
        if payload_len =? 126 then
          match require_bytes 4 buffer incoming with
          | None => None
          | Some (buffer, incoming) =>
              Some (unpack_be (slice buffer 2 2), 4%nat, buffer, incoming)
          end
        else if payload_len =? 127 then
          match require_bytes 10 buffer incoming with
          | None => None
          | Some (buffer, incoming) =>
              Some (unpack_be (slice buffer 2 8), 10%nat, buffer, incoming)
          end
        else Some (payload_len, 2%nat, buffer, incoming) in
      match extended with
      | None => Failed ConnectionClosed
      | Some (payload_len, index, buffer, incoming) =>
          if negb (masked =? 0) then Failed MaskedFrame
          else
            match require_bytes (index + Z.to_nat payload_len) buffer incoming with
            | None => Failed ConnectionClosed
            | Some (buffer, incoming) =>
                Done ((Z.land first_byte 15,
                       slice buffer index (Z.to_nat payload_len)),
                      (skipn (index + Z.to_nat payload_len) buffer, incoming))
            end
      end
  end.

(** All the bytes a reader can still get: the buffer, then the chunks up to
    the first empty one. *)
Fixpoint pending (incoming : list (list Z)) : list Z :=
  match incoming with
  | [] => []
  | [] :: _ => []
  | chunk :: rest => (chunk ++ pending rest)%list
  end.

Definition is_bytes (l : list Z) : Prop := Forall (fun b => 0 <= b < 256) l.

(** *** What normalization yields, written out *)

(** The Profile read off a raw user mapping, each absent member at its
    default, for a join date [joined]. *)
Definition profile_of (u : list (string * value)) (joined : option datetime)
  : Profile :=
  {| p_id := or_default (lookup "id" u) (VStr EmptyString);
     username := or_default (lookup "username" u) (VStr EmptyString);
     display_name := or_default (lookup "displayName" u) (VStr EmptyString);
     bio := or_default (lookup "bio" u) (VStr EmptyString);
     avatar := or_default (lookup "avatar" u) VNone;
     verified := or_default (lookup "verified" u) (VBool false);
     followers := or_default (lookup "followers" u) (VInt 0);
     following := or_default (lookup "following" u) (VInt 0);
     location := or_default (lookup "location" u) VNone;
     url := or_default (lookup "url" u) VNone;
     join_date := joined;
     tweet_count := or_default (lookup "tweetCount" u) (VInt 0);
     pinned_tweet := or_default (lookup "pinnedTweet" u) VNone |}.

(** The metrics read off a raw engagement mapping. *)
Definition metrics_of (m : list (string * value)) : EngagementMetrics :=
  {| likes := or_default (lookup "likes" m) (VInt 0);
     retweets := or_default (lookup "retweets" m) (VInt 0);
     replies := or_default (lookup "replies" m) (VInt 0);
     views := or_default (lookup "views" m) (VInt 0) |}.

(** The features of a text and a media member. *)
Definition features_of (s : string) (media_field : value) : ContentFeatures :=
  {| has_question := contains "?" s;
     has_media := truthy media_field;
     has_links := contains "http" (lower s);
     has_hashtags := contains "#" s;
     has_mentions := contains "@" s;
     length := String.length s;
     word_count := count_words false s;
     sentiment := "neutral"; topics := []; language := "en" |}.

(** The dates as the specification words them: the parsed date, and nothing
    (for a post, the current time) when the member is missing, empty, or not
    parsed. *)
Definition join_date_or_unset (u : list (string * value)) : option datetime :=
  match lookup "joinDate" u with
  | Some v => match date_parse v with Ok t => Some t | Raise _ => None end
  | None => None
  end.

Definition created_at_or_now (d : list (string * value)) : datetime :=
  let v := or_default (lookup "createdAt" d) VNone in
  if truthy v then match date_parse v with Ok t => t | Raise _ => now end
  else now.

Definition user_of (d : list (string * value)) : list (string * value) :=
  match lookup "user" d with Some (VDict u) => u | _ => [] end.

Definition engagement_of (d : list (string * value)) : list (string * value) :=
  match lookup "engagement" d with Some (VDict m) => m | _ => [] end.

(** The Tweet read off a raw post mapping, each absent member at its default. *)
Definition tweet_of (d : list (string * value)) : Tweet :=
  let s := text_of (or_default (lookup "text" d) (VStr EmptyString)) in
  {| id := or_default (lookup "id" d) (VStr EmptyString);
     text := s;
     user := profile_of (user_of d) (join_date_or_unset (user_of d));
     created_at := created_at_or_now d;
     engagement := metrics_of (engagement_of d);
     features := features_of s (or_default (lookup "media" d) (VList []));
     urls := or_default (lookup "urls" d) (VList []);
     hashtags := or_default (lookup "hashtags" d) (VList []);
     mentions := or_default (lookup "mentions" d) (VList []);
     media := or_default (lookup "media" d) (VList []);
     is_retweet := or_default (lookup "isRetweet" d) (VBool false);
     is_reply := or_default (lookup "isReply" d) (VBool false);
     is_thread := or_default (lookup "isThread" d) (VBool false);
     thread_position := or_default (lookup "threadPosition" d) VNone;
     quoted_tweet := or_default (lookup "quotedTweet" d) VNone;
     retweeted_tweet := or_default (lookup "retweetedTweet" d) VNone |}.

(** The parser takes the join date of the user member, when there is one. *)
Definition join_date_handled (d : list (string * value)) : bool :=
  absent_or handled (user_of d) "joinDate".

(** The parser takes the createdAt member, when it is there and not empty. *)
Definition created_at_handled (d : list (string * value)) : bool :=
  let v := or_default (lookup "createdAt" d) VNone in
  negb (truthy v) || handled v.

(** *** Vocabulary for closing *)

(** What a request on a closed client raises: the error of the gate when the
    bundle does not pass it, "Max retries exceeded" when the loop is empty,
    and otherwise the AttributeError of the deleted session. *)
Definition failure_after_close (c : TwitterClient) (retries : Z) : exn :=
  match check_authentication c with
  | Raise e => e
  | Ok _ => if retries <=? 0 then retries_exhausted else AttributeError
  end.

(** *** Vocabulary for frames and for the harvester's table *)

(** How the second byte of an unmasked frame and the bytes after it announce a
    payload of [n] bytes: below 126 the byte is the length; 126 is followed by
    two bytes and 127 by eight, which hold the length whatever it is. *)
Definition announces (second_byte : Z) (extended : list Z) (n : Z) : Prop :=
  (0 <= second_byte < 126 /\ extended = [] /\ n = second_byte)
  \/ (second_byte = 126 /\ List.length extended = 2%nat /\ n = unpack_be extended)
  \/ (second_byte = 127 /\ List.length extended = 8%nat /\ n = unpack_be extended).




(** *** Sample data *)

Definition sample_essentials : list (string * value) :=
  [("auth_token", VStr "a1"); ("ct0", VStr "c2"); ("twid", VStr "u=3");
   ("guest_id", VStr "g4"); ("att", VStr "t5")].

Definition sample_bundle : value :=
  VDict [("cookies", VList []); ("cookieHeader", VStr "lang=en");
         ("essentials", VDict sample_essentials)].

Definition partial_bundle : value :=
  VDict [("essentials", VDict [("auth_token", VStr "token")]);
         ("cookieHeader", VStr "auth_token=token"); ("cookies", VList [])].

Definition default_client : TwitterClient :=
  new_client {| o_base_url := None; o_timeout_seconds := None;
                o_max_retries := None; o_backoff_base := None |}.

Definition sample_client : TwitterClient := load_cookies default_client sample_bundle.

Definition client_without_retries : TwitterClient :=
  load_cookies
    (new_client {| o_base_url := Some "http://localhost:3000";
                   o_timeout_seconds := None; o_max_retries := Some 0;
                   o_backoff_base := None |})
    sample_bundle.

Definition sample_str_compound (v : value) : string := EmptyString.

(** The parser on the texts of the samples: a date, a timestamp in
    milliseconds, any other text, and what is no text. *)
Definition sample_date_parse (v : value) : result datetime :=
  match v with
  | VStr "2024-01-15T10:30:00.000Z" => Ok 1705314600
  | VStr "1705314600000" => Raise OverflowError
  | VStr _ => Raise (ValueError "Unknown string format")
  | _ => Raise TypeError
  end.

Definition sample_now : datetime := 1762214400.

(** The clock of a machine that has been up for a day. *)
Definition sample_sleep_limit : positive := 9223285636.

Definition sample_format_cookie_string (cookie : list (string * value)) : string :=
  text_of (field cookie "name") ++ "=" ++ text_of (field cookie "value").

Definition success_response : Response :=
  {| status_code := 200;
     json_body := Some (VDict [("success", VBool true); ("data", VList [])]);
     response_text := "{'success': true, 'data': []}";
     reason := Some "OK" |}.

(** A 200 whose envelope carries no [success] member, and a 200 whose body is
    a JSON array. *)
Definition unflagged_response : Response :=
  {| status_code := 200;
     json_body := Some (VDict [("data", VList [])]);
     response_text := "{'data': []}";
     reason := Some "OK" |}.

Definition array_response : Response :=
  {| status_code := 200;
     json_body := Some (VList []);
     response_text := "[]";
     reason := Some "OK" |}.

(** A 404 whose message quotes an upstream status line. *)
Definition not_found_response : Response :=
  {| status_code := 404;
     json_body :=
       Some (VDict [("error",
                     VDict [("code", VStr "NOT_FOUND");
                            ("message", VStr "upstream replied HTTP 503: unavailable")])]);
     response_text := "{'error': ...}";
     reason := Some "Not Found" |}.

Definition not_found_then_success (k : nat) : transport :=
  match k with
  | O => Delivered not_found_response
  | S _ => Delivered success_response
  end.

Definition always_timeout (k : nat) : transport := Timeout.

Definition tweet_request : Request :=
  {| req_method := GET; req_url := "http://localhost:3000/api/tweet/1";
     req_cookie := VStr "lang=en"; req_json := None; req_timeout := 30 |}.

(** Raw posts: the minimal one of the client's tests, one with a stale
    [features] member, and one with a negative metric. *)
Definition minimal_tweet_data : list (string * value) :=
  [("id", VStr "123"); ("text", VStr "Minimal tweet");
   ("user", VDict [("id", VStr "456"); ("username", VStr "user");
                   ("displayName", VStr "User")]);
   ("createdAt", VStr "2024-01-15T10:30:00.000Z")].

Definition question_tweet_data : list (string * value) :=
  [("text", VStr "Why? see HTTP://t.co/x #tag");
   ("features", VDict [("hasQuestion", VBool false); ("hasLinks", VBool false)])].

Definition negative_metrics : list (string * value) :=
  [("likes", VInt 3); ("retweets", VInt (-1))].

Definition negative_post : list (string * value) :=
  [("id", VStr "9"); ("text", VStr "hello"); ("engagement", VDict negative_metrics)].

(** Cookies as the debugging protocol reports them. *)
Definition sample_cookies : list value :=
  [VDict [("name", VStr "ct0"); ("value", VStr "c2")];
   VStr "noise";
   VDict [("name", VStr "lang"); ("value", VStr "en")];
   VDict [("name", VStr "auth_token"); ("value", VStr "a1")];
   VDict [("name", VStr "ct0"); ("value", VStr "later")]].

(** A bundle with every essential cookie but no header. *)
Definition headless_bundle : value :=
  VDict [("cookies", VList []); ("essentials", VDict sample_essentials)].

(** A 503 from a proxy, whose body is not JSON. *)
Definition unavailable_response : Response :=
  {| status_code := 503;
     json_body := None;
     response_text := "<html>Service Unavailable</html>";
     reason := Some "Service Unavailable" |}.

Definition unavailable_then_success (k : nat) : transport :=
  match k with
  | O => Delivered unavailable_response
  | S _ => Delivered success_response
  end.

Definition timeline_response : Response :=
  {| status_code := 200;
     json_body :=
       Some (VDict [("success", VBool true);
                    ("data", VList [VDict minimal_tweet_data;
                                    VDict question_tweet_data])]);
     response_text := "{'success': true, 'data': [...]}";
     reason := Some "OK" |}.

Definition dataless_response : Response :=
  {| status_code := 200;
     json_body := Some (VDict [("success", VBool true)]);
     response_text := "{'success': true}";
     reason := Some "OK" |}.

Definition timeline_request (count : value) : Request :=
  {| req_method := POST; req_url := "http://localhost:3000/api/timeline";
     req_cookie := VStr "lang=en";
     req_json := Some (VDict [("count", count);
                              ("cookies", VDict sample_essentials)]);
     req_timeout := 30 |}.

Definition sample_isoformat (t : datetime) : string := "2024-01-15T10:30:00.000Z".

Definition sample_profile : Profile :=
  {| p_id := VStr "456"; username := VStr "user"; display_name := VStr "User";
     bio := VStr EmptyString; avatar := VNone; verified := VBool false;
     followers := VInt 10; following := VInt 2; location := VNone; url := VNone;
     join_date := Some 1705314600; tweet_count := VInt 7; pinned_tweet := VNone |}.

Definition sample_user : list (string * value) :=
  [("id", VStr "456"); ("username", VStr "user"); ("displayName", VStr "User");
   ("joinDate", VStr "2024-01-15T10:30:00.000Z")].

(** Bytes on the wire: a key, the message "hi", and a server text frame that
    arrives in three chunks and is followed by the start of another frame. *)
Definition sample_key : list Z := [17; 34; 51; 68].

Definition sample_message : list Z := [104; 105].

Definition sample_chunks : list (list Z) := [[2]; [104]; [105; 137]].

(** A post stamped in milliseconds since the epoch, a user who joined at such
    a stamp, and a post of that user with a negative metric. *)
Definition millisecond_post : list (string * value) :=
  [("id", VStr "1"); ("text", VStr "hello");
   ("createdAt", VStr "1705314600000")].

Definition millisecond_user : list (string * value) :=
  [("id", VStr "456"); ("username", VStr "user");
   ("joinDate", VStr "1705314600000")].

Definition negative_post_of_millisecond_user : list (string * value) :=
  [("id", VStr "9"); ("text", VStr "hello"); ("user", VDict millisecond_user);
   ("engagement", VDict negative_metrics)].

(** A text frame that announces its two bytes in the 16-bit form, cut into
    chunks and followed by the start of another frame. *)
Definition long_form_chunks : list (list Z) := [[126; 0]; [2; 104]; [105; 137]].

(** ** Facts about the builtins *)

Lemma prefix_of_app (p s : string) : prefix_of p (p ++ s) = true.
Proof.
  induction p as [|a p IH]; simpl; [reflexivity|].
  now rewrite Ascii.eqb_refl.
Qed.

Lemma prefix_of_split (p s : string) :
  prefix_of p s = true -> exists rest, s = p ++ rest.
Proof.
  revert s; induction p as [|a p IH]; intros s H; simpl in *.
  - now exists s.
  - destruct s as [|b s]; [discriminate|].
    destruct (Ascii.eqb a b) eqn:E; [|discriminate].
    apply Ascii.eqb_eq in E; subst b.
    destruct (IH _ H) as [rest ->]. now exists rest.
Qed.

Lemma contains_here (needle rest : string) : contains needle (needle ++ rest) = true.
Proof.
  destruct needle, rest; simpl; rewrite ?Ascii.eqb_refl, ?prefix_of_app; reflexivity.
Qed.

Lemma contains_later (needle : string) (a : ascii) (hay : string) :
  contains needle hay = true -> contains needle (String a hay) = true.
Proof.
  intros H. simpl. now destruct (prefix_of needle (String a hay)).
Qed.

Lemma contains_app (needle before after : string) :
  contains needle (before ++ needle ++ after) = true.
Proof.
  induction before as [|a before IH]; simpl.
  - apply contains_here.
  - apply contains_later, IH.
Qed.

(** [contains] is the substring test. *)
Lemma contains_iff (needle hay : string) :
  contains needle hay = true <-> exists before after, hay = before ++ needle ++ after.
Proof.
  split.
  - induction hay as [|a hay IH]; simpl.
    + destruct (prefix_of needle EmptyString) eqn:P; [|discriminate].
      intros _. apply prefix_of_split in P as [rest P].
      now exists EmptyString, rest.
    + destruct (prefix_of needle (String a hay)) eqn:P.
      * intros _. apply prefix_of_split in P as [rest P].
        now exists EmptyString, rest.
      * intros H. destruct (IH H) as (before & after & ->).
        now exists (String a before), after.
  - intros (before & after & ->). apply contains_app.
Qed.

Lemma append_assoc (a b c : string) : (a ++ b) ++ c = a ++ b ++ c.
Proof. induction a as [|x a IH]; simpl; [reflexivity|now rewrite IH]. Qed.

Lemma contains_join (sep part : string) (parts : list string) :
  In part parts -> contains part (join sep parts) = true.
Proof.
  induction parts as [|p rest IH]; intros H; [contradiction|].
  destruct H as [->|H].
  - destruct rest as [|q rest]; simpl.
    + apply contains_iff. exists EmptyString, EmptyString. simpl.
      clear. induction part as [|a part IH]; simpl; [reflexivity|now rewrite <- IH].
    + apply contains_here.
  - specialize (IH H). destruct rest as [|q rest]; [contradiction|].
    change (join sep (p :: q :: rest)) with (p ++ sep ++ join sep (q :: rest)).
    apply contains_iff in IH as (before & after & ->).
    apply contains_iff. exists (p ++ sep ++ before), after.
    now rewrite !append_assoc.
Qed.

Lemma lookup_dict_set_other (k k' : string) (v : value) (d : list (string * value)) :
  k <> k' -> lookup k (dict_set k' v d) = lookup k d.
Proof.
  intros N. induction d as [|[k0 v0] d IH]; simpl.
  - destruct (String.eqb k k') eqn:E; [apply String.eqb_eq in E; contradiction|reflexivity].
  - destruct (String.eqb k' k0) eqn:E; simpl.
    + apply String.eqb_eq in E; subst k0.
      destruct (String.eqb k k') eqn:E'; [apply String.eqb_eq in E'; contradiction|reflexivity].
    + now rewrite IH.
Qed.

Lemma all_m_total {A} (f : A -> result bool) (g : A -> bool) (l : list A) :
  (forall x, f x = Ok (g x)) -> all_m f l = Ok (forallb g l).
Proof.
  intros H. induction l as [|x l IH]; simpl; [reflexivity|].
  rewrite H. simpl. destruct (g x); [exact IH|reflexivity].
Qed.


(** ** The authentication gate *)

Lemma cookie_present_dict (e : list (string * value)) (k : string) :
  cookie_present (VDict e) k
  = Ok (match lookup k e with Some v => truthy v | None => false end).
Proof.
  unfold cookie_present; simpl. now destruct (lookup k e).
Qed.

Lemma is_authenticated_total (c : TwitterClient) :
  bundle_shaped (cookie_data c) = true ->
  is_authenticated c
  = Ok (truthy (cookie_data c)
        && forallb (fun k => match essential (cookie_data c) k with
                             | Some v => truthy v
                             | None => false
                             end) required_cookies).
Proof.
  unfold is_authenticated, get_essential_cookies, essential, bundle_shaped, absent_or.
  destruct (cookie_data c) as [| | | | |d]; try discriminate; [reflexivity|].
  destruct d as [|b d]; [reflexivity|].
  cbn [truthy negb andb get bind].
  destruct (lookup "essentials" (b :: d)) as [[| | | | |e]|]; try discriminate; intros _.
  - apply all_m_total, cookie_present_dict.
  - apply all_m_total, cookie_present_dict.
Qed.

Lemma check_authentication_cases (c : TwitterClient) :
  bundle_shaped (cookie_data c) = true ->
  (check_authentication c = Ok tt /\ is_authenticated c = Ok true)
  \/ (exists e, check_authentication c = Raise e /\ authentication_missing e).
Proof.
  intros S. pose proof (is_authenticated_total c S) as A.
  unfold check_authentication. rewrite A. clear A.
  unfold bundle_shaped in S.
  destruct (cookie_data c) as [| | | | |d]; try discriminate.
  - right. exists auth_missing. split; [reflexivity|now left].
  - destruct d as [|b d]; [right; exists auth_missing; split; [reflexivity|now left]|].
    cbn [truthy negb andb py_in get bind].
    destruct (lookup "cookieHeader" (b :: d)) as [h|]; cbn [negb];
      [|right; exists auth_missing; split; [reflexivity|now left]].
    destruct (lookup "essentials" (b :: d)) as [e|]; cbn [negb];
      [|right; exists auth_missing; split; [reflexivity|now left]].
    destruct (negb (truthy h) || negb (truthy e));
      [right; exists auth_missing; split; [reflexivity|now left]|].
    match goal with |- context [forallb ?f ?l] => destruct (forallb f l) end; cbn.
    + now left.
    + right. exists auth_invalid. split; [reflexivity|now right].
Qed.

Lemma make_request_gate (c : TwitterClient) (e : exn) env method endpoint data retries :
  check_authentication c = Raise e ->
  make_request c env method endpoint data retries = (Raise e, []).
Proof. intros H. unfold make_request. now rewrite H. Qed.

(** C2. A bundle that lacks one of the five required cookies, or binds one to an
    empty value, is not authenticated, and every request then fails with an
    authentication-missing error before any network event; a loaded bundle
    with non-empty cookieHeader and essentials and five non-empty required
    values passes the gate. *)
Theorem authentication_gate (c : TwitterClient) :
  bundle_shaped (cookie_data c) = true ->
  (lacks_required_cookie (cookie_data c) ->
   is_authenticated c = Ok false /\
   forall env method endpoint data retries,
   exists e, make_request c env method endpoint data retries = (Raise e, [])
             /\ authentication_missing e)
  /\ (complete_bundle (cookie_data c) ->
      is_authenticated c = Ok true /\ check_authentication c = Ok tt).
Proof.
  intros S. split.
  - intros (k & Hk & Hv).
    assert (A : is_authenticated c = Ok false).
    { rewrite (is_authenticated_total c S).
      replace (forallb _ required_cookies) with false; [now rewrite andb_false_r|].
      symmetry. apply not_true_is_false. intros F.
      rewrite forallb_forall in F. specialize (F k Hk).
      destruct (essential (cookie_data c) k); congruence. }
    split; [exact A|]. intros env method endpoint data retries.
    destruct (check_authentication_cases c S) as [[_ B]|(e & B & M)]; [congruence|].
    exists e. split; [now apply make_request_gate|exact M].
  - intros (d & h & e & D & H & Th & E & Ne & All).
    assert (A : is_authenticated c = Ok true).
    { rewrite (is_authenticated_total c S). rewrite D.
      destruct d as [|b d]; [discriminate|]. cbn [truthy andb].
      f_equal. apply forallb_forall. intros k Hk.
      unfold essential. rewrite E. destruct (All k Hk) as (v & -> & T). exact T. }
    split; [exact A|].
    unfold check_authentication. rewrite A, D.
    destruct d as [|b d]; [discriminate|].
    cbn [truthy negb py_in get bind]. rewrite H, E. cbn [negb bind].
    rewrite Th. destruct e; [congruence|]. reflexivity.
Qed.


(** ** The retry loop *)

Lemma get_raises (x : value) (k : string) (dflt : value) (e : exn) :
  get x k dflt = Raise e -> e = AttributeError.
Proof. destruct x; simpl; congruence. Qed.

Lemma py_in_raises (k : string) (x : value) (e : exn) :
  py_in k x = Raise e -> e = TypeError.
Proof. destruct x; simpl; congruence. Qed.

Ltac get_or_raise G :=
  match goal with
  | |- context [bind (get ?x ?k ?d) _] =>
      destruct (get x k d) eqn:G;
      [cbn [bind]|apply get_raises in G; subst; cbn [bind]; discriminate]
  end.

Lemma handle_response_not_exhausted (r : Response) :
  handle_response r <> Raise retries_exhausted.
Proof.
  unfold handle_response, retries_exhausted.
  destruct (400 <=? status_code r); destruct (json_body r) as [data|];
    try (simpl; discriminate).
  - get_or_raise G1. get_or_raise G2. get_or_raise G3. simpl; discriminate.
  - get_or_raise G0. destruct (negb (truthy _)); [|discriminate].
    get_or_raise G1. get_or_raise G2. get_or_raise G3.
    destruct (py_in "AUTHENTICATION" _) as [[|]|] eqn:P; cbn [bind];
      [simpl; discriminate| |apply py_in_raises in P; subst; discriminate].
    destruct (is_str _ "NOT_FOUND"); [simpl; discriminate|].
    destruct (is_str _ "RATE_LIMITED"); simpl; discriminate.
Qed.

Lemma attempt_outcome_not_exhausted env (k : nat) :
  attempt_outcome env k <> Raise retries_exhausted.
Proof.
  unfold attempt_outcome.
  destruct (env k); try discriminate. apply handle_response_not_exhausted.
Qed.

Lemma request_loop_step c env retries req remaining attempt :
  has_session c = true ->
  request_loop c env retries req (S remaining) attempt
  = if retryable env attempt && negb (Z.of_nat attempt =? retries - 1)
    then
      let rest := backoff c attempt
                    (request_loop c env retries req remaining (S attempt)) in
      (fst rest, EvRequest attempt req :: snd rest)
    else (attempt_outcome env attempt, [EvRequest attempt req]).
Proof.
  intros Hs. cbn [request_loop]. rewrite Hs. cbn [negb].
  unfold attempt_outcome, retryable.
  destruct (env attempt) as [| | |r]; cbn zeta;
    try (destruct (Z.of_nat attempt =? retries - 1); reflexivity).
  destruct (handle_response r) as [v|[msg| | | | | | |]]; try reflexivity.
  destruct (is_transient_message msg); [|reflexivity].
  destruct (Z.of_nat attempt =? retries - 1); reflexivity.
Qed.

Lemma request_loop_closed c env retries req remaining attempt :
  has_session c = false ->
  request_loop c env retries req remaining attempt
  = (match remaining with
     | O => Raise retries_exhausted
     | S _ => Raise AttributeError
     end, []).
Proof. intros Hs. destruct remaining; cbn [request_loop]; now rewrite ?Hs. Qed.

(** The three refusals of [time.sleep]. *)
Lemma sleep_error_cases (seconds : Z) (e : exn) :
  sleep_error seconds = Some e ->
  e = ValueError "sleep length must be non-negative"
  \/ e = OverflowError \/ e = OSError.
Proof.
  unfold sleep_error.
  destruct (seconds <? 0); [intros [= <-]; auto|].
  destruct (max_sleep <? seconds); [intros [= <-]; auto|].
  destruct (Z.pos sleep_limit <? seconds); [intros [= <-]; auto|discriminate].
Qed.

Lemma sleep_error_none (seconds : Z) :
  sleep_error seconds = None
  <-> 0 <= seconds /\ seconds <= max_sleep /\ seconds <= Z.pos sleep_limit.
Proof.
  unfold sleep_error.
  destruct (Z.ltb_spec seconds 0); [split; [discriminate|lia]|].
  destruct (Z.ltb_spec max_sleep seconds); [split; [discriminate|lia]|].
  destruct (Z.ltb_spec (Z.pos sleep_limit) seconds); [split; [discriminate|lia]|].
  split; [lia|reflexivity].
Qed.

(** The first delay of every sequence, one second, is slept. *)
Lemma sleep_error_one : sleep_error 1 = None.
Proof. apply sleep_error_none. unfold max_sleep. lia. Qed.

Lemma backoff_sleeps c attempt (rest : result value * trace) :
  sleep_error (backoff_base (config c) ^ Z.of_nat attempt) = None ->
  backoff c attempt rest
  = (fst rest, EvSleep (backoff_base (config c) ^ Z.of_nat attempt) :: snd rest).
Proof. intros Hb. unfold backoff. now rewrite Hb. Qed.

Lemma backoff_refused c attempt (rest : result value * trace) (e : exn) :
  sleep_error (backoff_base (config c) ^ Z.of_nat attempt) = Some e ->
  backoff c attempt rest = (Raise e, []).
Proof. intros Hb. unfold backoff. now rewrite Hb. Qed.

(** With a session, the loop performs some number [j] of retried attempts,
    each followed by its sleep, then one last attempt: its outcome is the
    result, unless it is to be retried and the sleep after it is refused. *)
Lemma request_loop_shape c env retries req :
  has_session c = true ->
  forall remaining attempt,
  Z.of_nat attempt + Z.of_nat remaining = retries ->
  remaining <> O ->
  exists j, (j < remaining)%nat /\
    (forall i, (i < j)%nat -> retryable env (attempt + i) = true) /\
    snd (request_loop c env retries req remaining attempt)
    = (retried (backoff_base (config c)) req attempt j
       ++ [EvRequest (attempt + j) req])%list /\
    (fst (request_loop c env retries req remaining attempt)
     = attempt_outcome env (attempt + j)
     \/ Z.of_nat (attempt + j) <> retries - 1 /\
        exists e,
          sleep_error (backoff_base (config c) ^ Z.of_nat (attempt + j)) = Some e
          /\ fst (request_loop c env retries req remaining attempt) = Raise e).
Proof.
  intros Hs. induction remaining as [|remaining IH]; intros attempt Inv Ne;
    [contradiction|].
  rewrite request_loop_step by exact Hs.
  destruct (retryable env attempt && negb (Z.of_nat attempt =? retries - 1)) eqn:E.
  - apply andb_prop in E as [R F]. apply negb_true_iff, Z.eqb_neq in F.
    cbn zeta.
    destruct (sleep_error (backoff_base (config c) ^ Z.of_nat attempt))
      as [e|] eqn:Sl.
    + rewrite (backoff_refused _ _ _ e Sl). exists O.
      split; [lia|]. split; [intros i Hi; lia|].
      rewrite Nat.add_0_r. cbn [fst snd retried app].
      split; [reflexivity|]. right. split; [exact F|]. now exists e.
    + rewrite backoff_sleeps by exact Sl. cbn [fst snd].
      destruct (IH (S attempt)) as (j & Lt & Re & Tr & Out); [lia|lia|].
      exists (S j). split; [lia|]. split.
      * intros [|i] Hi; [now rewrite Nat.add_0_r|].
        replace (attempt + S i)%nat with (S attempt + i)%nat by lia. apply Re. lia.
      * replace (attempt + S j)%nat with (S attempt + j)%nat by lia.
        rewrite Tr. cbn [retried app]. split; [reflexivity|exact Out].
  - exists O. split; [lia|]. split; [intros i Hi; lia|].
    rewrite Nat.add_0_r. cbn [fst snd retried app]. split; [reflexivity|now left].
Qed.

(** Whatever the base, a loop that runs at least once does not fall through. *)
Lemma request_loop_not_exhausted c env retries req :
  forall remaining attempt,
  Z.of_nat attempt + Z.of_nat remaining = retries ->
  remaining <> O ->
  fst (request_loop c env retries req remaining attempt) <> Raise retries_exhausted.
Proof.
  destruct (has_session c) eqn:Hs.
  - induction remaining as [|remaining IH]; intros attempt Inv Ne; [contradiction|].
    rewrite request_loop_step by exact Hs.
    destruct (retryable env attempt && negb (Z.of_nat attempt =? retries - 1)) eqn:E.
    + apply andb_prop in E as [_ F]. apply negb_true_iff, Z.eqb_neq in F.
      cbn zeta. cbn [fst]. unfold backoff.
      destruct (sleep_error _) as [e|] eqn:Sl.
      * apply sleep_error_cases in Sl as [->|[->| ->]]; discriminate.
      * cbn [fst]. apply IH; lia.
    + apply attempt_outcome_not_exhausted.
  - intros remaining attempt _ Ne. rewrite request_loop_closed by exact Hs.
    destruct remaining; [contradiction|discriminate].
Qed.


Lemma all_m_raises {A} (f : A -> result bool) (l : list A) (e : exn) :
  all_m f l = Raise e -> exists x, In x l /\ f x = Raise e.
Proof.
  induction l as [|x l IH]; simpl; [discriminate|].
  destruct (f x) as [[|]|e'] eqn:F; cbn [bind]; intros H.
  - destruct (IH H) as (y & Hy & Fy). exists y. auto.
  - discriminate.
  - exists x. split; [now left|congruence].
Qed.

Lemma index_raises (x : value) (k : string) (e : exn) :
  index x k = Raise e -> e = TypeError \/ e = KeyError.
Proof.
  destruct x; simpl; try (intros [= <-]; now left).
  destruct (lookup k d); [discriminate|]. intros [= <-]. now right.
Qed.

(** The exceptions of builtins, as opposed to the client's own error. *)
Lemma is_authenticated_raises (c : TwitterClient) (e : exn) :
  is_authenticated c = Raise e ->
  e = AttributeError \/ e = TypeError \/ e = KeyError.
Proof.
  unfold is_authenticated, get_essential_cookies.
  destruct (negb (truthy (cookie_data c))); [discriminate|].
  destruct (get _ "essentials" _) as [ess|e'] eqn:G; cbn [bind].
  - intros H. apply all_m_raises in H as (k & _ & H).
    unfold cookie_present in H.
    destruct (py_in k ess) as [[|]|e'] eqn:P; cbn [bind] in H.
    + destruct (index ess k) eqn:I; cbn [bind] in H; [discriminate|].
      injection H as <-. apply index_raises in I as [-> | ->]; auto.
    + discriminate.
    + injection H as <-. apply py_in_raises in P as ->. auto.
  - intros [= <-]. apply get_raises in G as ->. auto.
Qed.

Lemma check_authentication_not_exhausted (c : TwitterClient) :
  check_authentication c <> Raise retries_exhausted.
Proof.
  unfold check_authentication, retries_exhausted.
  destruct (negb (truthy (cookie_data c))); [discriminate|].
  destruct (py_in "cookieHeader" _) as [[|]|] eqn:P1; cbn [bind negb];
    [|discriminate|apply py_in_raises in P1; subst; discriminate].
  destruct (py_in "essentials" _) as [[|]|] eqn:P2; cbn [bind negb];
    [|discriminate|apply py_in_raises in P2; subst; discriminate].
  get_or_raise G1. get_or_raise G2.
  destruct (_ || _); [discriminate|].
  destruct (is_authenticated c) as [[|]|e] eqn:A; cbn [bind negb]; try discriminate.
  apply is_authenticated_raises in A as [->|[->| ->]]; discriminate.
Qed.

(** Past the gate the bundle is a non-empty dict, so the request is built. *)
Lemma check_authentication_dict (c : TwitterClient) :
  check_authentication c = Ok tt -> exists b d, cookie_data c = VDict (b :: d).
Proof.
  unfold check_authentication.
  destruct (cookie_data c) as [|b|z|s|l|d] eqn:D; cbn [truthy negb];
    try discriminate.
  - destruct b; discriminate.
  - destruct (negb (z =? 0)); discriminate.
  - destruct (negb (negb _)); [discriminate|].
    cbn [py_in bind]. destruct (negb (contains "cookieHeader" s)); [discriminate|].
    destruct (negb (contains "essentials" s)); discriminate.
  - destruct l; cbn [negb py_in bind]; [discriminate|].
    destruct (negb (existsb _ _)); [discriminate|].
    destruct (negb (existsb _ _)); discriminate.
  - destruct d as [|b d]; [discriminate|]. intros _. now exists b, d.
Qed.

Lemma build_request_total (c : TwitterClient) method endpoint data :
  check_authentication c = Ok tt ->
  exists req, build_request c method endpoint data = Ok req.
Proof.
  intros H. apply check_authentication_dict in H as (b & d & D).
  unfold build_request, get_cookie_header, get_essential_cookies. rewrite D.
  cbn [truthy negb get bind].
  destruct (String.eqb (upper method) "POST"); eauto.
Qed.

Lemma build_request_not_exhausted (c : TwitterClient) method endpoint data :
  build_request c method endpoint data <> Raise retries_exhausted.
Proof.
  unfold build_request, get_cookie_header, get_essential_cookies, retries_exhausted.
  destruct (negb (truthy (cookie_data c))); cbn [bind].
  - destruct (String.eqb _ _); discriminate.
  - get_or_raise G1. destruct (String.eqb _ _); [|discriminate].
    get_or_raise G2. discriminate.
Qed.


Lemma sleeps_retried base req tail :
  forall len start,
  sleeps (retried base req start len ++ tail)%list
  = (map (fun i => base ^ Z.of_nat i) (seq start len) ++ sleeps tail)%list.
Proof.
  induction len as [|len IH]; intros start; cbn [retried seq map sleeps app];
    [reflexivity|].
  now rewrite IH.
Qed.

Lemma attempts_made_retried base req tail :
  forall len start,
  attempts_made (retried base req start len ++ tail)%list
  = (len + attempts_made tail)%nat.
Proof.
  unfold attempts_made.
  induction len as [|len IH]; intros start; cbn [retried app filter is_request];
    [reflexivity|].
  cbn [List.length]. now rewrite IH.
Qed.

Lemma request_in_retried base req k r :
  forall len start,
  In (EvRequest k r)
     (retried base req start len ++ [EvRequest (start + len) req])%list ->
  (k <= start + len)%nat /\ r = req.
Proof.
  induction len as [|len IH]; intros start; cbn [retried app In].
  - intros [[= <- <-]|[]]. split; [lia|reflexivity].
  - intros [[= <- <-]|[H|H]]; [split; [lia|reflexivity]|discriminate|].
    replace (start + S len)%nat with (S start + len)%nat in H by lia.
    apply IH in H. split; [lia|tauto].
Qed.

Lemma powers_increase (base : Z) :
  1 < base ->
  forall len start,
  StronglySorted Z.lt (map (fun i => base ^ Z.of_nat i) (seq start len)).
Proof.
  intros Hb. induction len as [|len IH]; intros start; cbn [seq map];
    constructor; [apply IH|].
  apply Forall_forall. intros d Hd.
  apply in_map_iff in Hd as (i & <- & Hi). apply in_seq in Hi.
  apply Z.pow_lt_mono_r; lia.
Qed.

Lemma make_request_shape c env method endpoint data retries_override :
  let retries := or_default retries_override (max_retries (config c)) in
  let out := make_request c env method endpoint data retries_override in
  check_authentication c = Ok tt ->
  has_session c = true ->
  0 < retries ->
  exists req j,
    Z.of_nat j < retries /\
    (forall i, (i < j)%nat -> retryable env i = true) /\
    snd out = (retried (backoff_base (config c)) req O j ++ [EvRequest j req])%list
    /\ (fst out = attempt_outcome env j \/ Z.of_nat j <> retries - 1).
Proof.
  intros retries out Ha Hs Hn. subst out. unfold make_request. rewrite Ha.
  destruct (build_request_total c method endpoint data Ha) as [req ->].
  fold retries.
  destruct (request_loop_shape c env retries req Hs (Z.to_nat retries) O)
    as (j & Lt & Re & Tr & Out); [lia|lia|].
  exists req, j. split; [lia|]. split; [exact Re|]. split; [exact Tr|].
  destruct Out as [Out|[Nf _]]; [now left|now right].
Qed.

(** ** Properties of the request primitive *)

(** C9. An authenticated client with maxRetries = 0 gets "Max retries
    exceeded" straight after the gate, with no event at all; and that error
    arises on no other path: when it is raised the gate has passed, the range
    of the loop is empty (maxRetries <= 0, that is 0 on a configuration) and no
    attempt was made. *)
Theorem retries_exhausted_only_without_attempts
    c env method endpoint data retries_override :
  let retries := or_default retries_override (max_retries (config c)) in
  let out := make_request c env method endpoint data retries_override in
  (check_authentication c = Ok tt -> retries = 0 ->
   out = (Raise retries_exhausted, []))
  /\ (fst out = Raise retries_exhausted ->
      check_authentication c = Ok tt /\ retries <= 0 /\ snd out = []
      /\ (0 <= retries -> retries = 0)).
Proof.
  intros retries out. subst out. unfold make_request. fold retries. split.
  - intros Ha Hn. rewrite Ha.
    destruct (build_request_total c method endpoint data Ha) as [req ->].
    now rewrite Hn.
  - destruct (check_authentication c) as [[]|e] eqn:Ha.
    + destruct (build_request c method endpoint data) as [req|e] eqn:B.
      * destruct (Z.to_nat retries) as [|m] eqn:N.
        { intros _. repeat split; try reflexivity; lia. }
        { intros H. exfalso. revert H. rewrite <- N.
          apply request_loop_not_exhausted; lia. }
      * cbn [fst]. intros [= ->]. now apply build_request_not_exhausted in B.
    + cbn [fst]. intros [= ->]. now apply check_authentication_not_exhausted in Ha.
Qed.

(** C3. With backoffBase > 1 and maxRetries = n, a request sequence makes at
    most n attempts; its events are retried attempts 0, 1, ..., each followed
    by a sleep of backoffBase^i, then one last attempt, so that the delays are
    backoffBase^0, backoffBase^1, ... and strictly increase; and when attempt
    n - 1 is made and the transport times out or fails to connect, the result
    is the transport-unavailable error and that request is the last event. *)
Theorem bounded_retries_with_exponential_backoff c env method endpoint data :
  1 < backoff_base (config c) ->
  let n := max_retries (config c) in
  let base := backoff_base (config c) in
  let out := make_request c env method endpoint data None in
  (attempts_made (snd out) <= Z.to_nat n)%nat
  /\ (snd out = [] \/
      exists j req, snd out = (retried base req O j ++ [EvRequest j req])%list)
  /\ sleeps (snd out) = backoff_delays base (List.length (sleeps (snd out)))
  /\ StronglySorted Z.lt (sleeps (snd out))
  /\ (forall k req,
        Z.of_nat k = n - 1 -> In (EvRequest k req) (snd out) ->
        transport_failure (env k) ->
        exists e earlier,
          fst out = Raise e /\ transport_unavailable e /\
          snd out = (earlier ++ [EvRequest k req])%list).
Proof.
  intros Hb n base out.
  assert (Empty : snd out = [] ->
    (attempts_made (snd out) <= Z.to_nat n)%nat
    /\ (snd out = [] \/
        exists j req, snd out = (retried base req O j ++ [EvRequest j req])%list)
    /\ sleeps (snd out) = backoff_delays base (List.length (sleeps (snd out)))
    /\ StronglySorted Z.lt (sleeps (snd out))
    /\ (forall k req,
          Z.of_nat k = n - 1 -> In (EvRequest k req) (snd out) ->
          transport_failure (env k) ->
          exists e earlier,
            fst out = Raise e /\ transport_unavailable e /\
            snd out = (earlier ++ [EvRequest k req])%list)).
  { intros ->. repeat split; try (now left); try constructor.
    - cbn. lia.
    - intros k req _ []. }
  destruct (check_authentication c) as [[]|e] eqn:Ha;
    [|apply Empty; subst out; now rewrite (make_request_gate c e)].
  destruct (has_session c) eqn:Hs.
  2:{ apply Empty. subst out. unfold make_request. rewrite Ha.
      destruct (build_request c method endpoint data); [|reflexivity].
      now rewrite request_loop_closed. }
  destruct (Z.leb_spec n 0) as [Le|Lt].
  { apply Empty. subst out. unfold make_request. rewrite Ha.
    destruct (build_request c method endpoint data); [|reflexivity].
    cbn [or_default]. fold n. now replace (Z.to_nat n) with O by lia. }
  clear Empty.
  destruct (make_request_shape c env method endpoint data None Ha Hs)
    as (req & j & Lj & _ & Eq & Out); [exact Lt|].
  cbn [or_default] in Lj, Out. fold n in Lj, Out. fold base in Eq.
  fold out in Eq, Out.
  rewrite Eq.
  rewrite sleeps_retried, attempts_made_retried. cbn [sleeps]. rewrite app_nil_r.
  repeat split.
  - unfold attempts_made. cbn. lia.
  - right. now exists j, req.
  - unfold backoff_delays. now rewrite length_map, length_seq.
  - now apply powers_increase.
  - intros k req' Hk Hin Hf.
    apply (request_in_retried base req k req' j O) in Hin as [Le ->].
    assert (k = j) by lia. subst k.
    destruct Out as [Out|Nf]; [|lia].
    rewrite Out. unfold attempt_outcome.
    destruct Hf as [-> | ->].
    + exists timeout_error, (retried base req O j).
      repeat split. now left.
    + exists connection_error, (retried base req O j).
      repeat split. now right.
Qed.


(** ** Closing the session *)

Lemma make_request_closed c env method endpoint data retries :
  has_session c = false ->
  make_request c env method endpoint data retries
  = (Raise (failure_after_close c (or_default retries (max_retries (config c)))),
     []).
Proof.
  intros Hs. unfold make_request, failure_after_close.
  destruct (check_authentication c) as [[]|e] eqn:Ha; [|reflexivity].
  destruct (build_request_total c method endpoint data Ha) as [req ->].
  rewrite request_loop_closed by exact Hs.
  destruct (Z.leb_spec (or_default retries (max_retries (config c))) 0) as [L|L].
  - now replace (Z.to_nat _) with O by lia.
  - destruct (Z.to_nat _) eqn:N; [lia|reflexivity].
Qed.

Lemma after_request_raises {A} (k : value -> result A) (e : exn) (tr : trace) :
  after_request k (Raise e, tr) = (Raise e, tr).
Proof. reflexivity. Qed.

(** C6, as the code has it. [close] deletes the session only when there is
    one, so closing a closed client is a silent no-op that leaves it unchanged;
    every request issued on a closed client does fail, before any network
    event: with the error of the authentication gate when the bundle does not
    pass it (on a bundle, one of the two authentication errors), with "Max
    retries exceeded" when the bundle passes and maxRetries is 0 or less, and
    otherwise with the AttributeError of the deleted session.  The four fetch
    operations fail likewise, on the configured maxRetries. *)
Theorem close_is_idempotent_and_requests_fail_after_close (c : TwitterClient) :
  let closed := fst (close c) in
  let n := max_retries (config c) in
  (close closed = (closed, Ok tt)
   /\ exit_context closed = (closed, Ok tt)
   /\ has_session closed = false /\ cookie_data closed = cookie_data c
   /\ config closed = config c)
  /\ (forall env method endpoint data retries,
        let out := make_request closed env method endpoint data retries in
        let r := or_default retries n in
        (forall e, check_authentication c = Raise e -> out = (Raise e, []))
        /\ (check_authentication c = Ok tt -> r <= 0 ->
            out = (Raise retries_exhausted, []))
        /\ (check_authentication c = Ok tt -> 0 < r ->
            out = (Raise AttributeError, [])))
  /\ (bundle_shaped (cookie_data c) = true ->
      forall e, check_authentication c = Raise e -> authentication_missing e)
  /\ (forall env count,
        get_timeline closed env count = (Raise (failure_after_close c n), []))
  /\ (forall env count,
        get_tweets_and_replies closed env count
        = (Raise (failure_after_close c n), []))
  /\ (forall env, get_latest_tweet closed env = (Raise (failure_after_close c n), []))
  /\ (forall env tweet_id,
        get_tweet closed env tweet_id = (Raise (failure_after_close c n), [])).
Proof.
  intros closed n.
  assert (Hs : has_session closed = false).
  { subst closed. unfold close. destruct (has_session c) eqn:E; [reflexivity|exact E]. }
  assert (Hd : cookie_data closed = cookie_data c).
  { subst closed. unfold close. now destruct (has_session c). }
  assert (Hf : config closed = config c).
  { subst closed. unfold close. now destruct (has_session c). }
  assert (Hc : close closed = (closed, Ok tt)).
  { unfold close at 1. now rewrite Hs. }
  assert (Ha : check_authentication closed = check_authentication c).
  { unfold check_authentication, is_authenticated, get_essential_cookies.
    now rewrite Hd. }
  assert (F : forall retries,
            failure_after_close closed retries = failure_after_close c retries).
  { intros retries. unfold failure_after_close. now rewrite Ha. }
  assert (R : forall env method endpoint data retries,
            make_request closed env method endpoint data retries
            = (Raise (failure_after_close c (or_default retries n)), [])).
  { intros. rewrite make_request_closed by exact Hs. now rewrite Hf, F. }
  split; [now repeat split|].
  split; [|split; [|repeat split]].
  - intros env method endpoint data retries out r. subst out r.
    rewrite R. unfold failure_after_close. repeat split.
    + now intros e ->.
    + intros -> L. apply Z.leb_le in L. now rewrite L.
    + intros -> L. apply Z.leb_gt in L. now rewrite L.
  - intros S e E.
    destruct (check_authentication_cases c S) as [[E' _]|(e' & E' & M)];
      congruence.
  - intros env count. unfold get_timeline. now rewrite R.
  - intros env count. unfold get_tweets_and_replies. now rewrite R.
  - intros env. unfold get_latest_tweet, get_timeline. now rewrite R.
  - intros env tweet_id. unfold get_tweet. now rewrite R.
Qed.


(** ** Response classification *)

Lemma is_str_eqb (code s : string) : is_str (VStr code) s = String.eqb code s.
Proof. reflexivity. Qed.

(** C4, as the code has it.  A body that is not JSON gives HttpError(status,
    reason) from 400 on and MalformedResponse below.  A body that is a JSON
    object gives, from 400 on, HttpError(status, code - message) when its
    error member is absent or an object (code and message defaulting to
    UNKNOWN and Unknown error); below 400 it is returned as the payload when
    its success member is truthy, and when that member is absent or falsy a
    string error code selects AuthenticationRejected (the code contains
    AUTHENTICATION), ResourceNotFound (NOT_FOUND), RateLimited (RATE_LIMITED)
    or ApiError(code, message). *)
Theorem classification_of_responses (r : Response) :
  (json_body r = None ->
   handle_response r
   = Raise (if 400 <=? status_code r
            then HttpError (status_code r) (or_default (reason r) "Unknown Error")
            else MalformedResponse (response_text r)))
  /\ (forall d e,
        json_body r = Some (VDict d) -> 400 <= status_code r ->
        error_member d = Some e ->
        handle_response r
        = Raise (HttpError (status_code r)
                   (str (error_code e) ++ " - " ++ str (error_message e))))
  /\ (forall d,
        json_body r = Some (VDict d) -> status_code r < 400 ->
        truthy (success_flag d) = true ->
        handle_response r = Ok (VDict d))
  /\ (forall d e code,
        json_body r = Some (VDict d) -> status_code r < 400 ->
        truthy (success_flag d) = false ->
        error_member d = Some e -> error_code e = VStr code ->
        handle_response r
        = Raise (application_error code (str (error_message e)))).
Proof.
  unfold handle_response. repeat split.
  - intros ->. now destruct (400 <=? status_code r).
  - intros d e -> Hs He.
    apply Z.leb_le in Hs. rewrite Hs. unfold error_member in He.
    cbn [get bind]. unfold HttpError, error_code, error_message, or_default.
    destruct (lookup "error" d) as [[| | | | |e']|]; try discriminate;
      injection He as <-; reflexivity.
  - intros d -> Hs Ht.
    assert ((400 <=? status_code r) = false) as -> by (apply Z.leb_gt; lia).
    cbn [get bind]. unfold success_flag, or_default in Ht. now rewrite Ht.
  - intros d e code -> Hs Ht He Hc.
    assert ((400 <=? status_code r) = false) as -> by (apply Z.leb_gt; lia).
    cbn [get bind]. unfold success_flag, or_default in Ht. rewrite Ht. cbn [negb].
    assert (G : get (match lookup "error" d with Some v => v | None => VDict [] end)
                  "code" (VStr "UNKNOWN") = Ok (VStr code)
                /\ get (match lookup "error" d with Some v => v | None => VDict [] end)
                     "message" (VStr "Unknown error") = Ok (error_message e)).
    { unfold error_member in He. unfold error_code, or_default in Hc.
      destruct (lookup "error" d) as [[| | | | |e']|]; try discriminate;
        injection He as <-; cbn [get]; now rewrite Hc. }
    destruct G as [-> ->]. cbn [bind py_in]. rewrite !is_str_eqb.
    unfold application_error.
    destruct (contains "AUTHENTICATION" code); [reflexivity|].
    destruct (String.eqb code "NOT_FOUND"); [reflexivity|].
    destruct (String.eqb code "RATE_LIMITED"); reflexivity.
Qed.

(** Every classified error of a 502, 503 or 504 carries its marker. *)
Lemma transient_status_is_retried (r : Response) (msg : string) :
  In (status_code r) [502; 503; 504] ->
  handle_response r = Raise (TwitterClientError msg) ->
  is_transient_message msg = true.
Proof.
  intros Hs. unfold handle_response.
  assert ((400 <=? status_code r) = true) as ->
      by (apply Z.leb_le; cbn in Hs; lia).
  assert (P : forall rest,
             is_transient_message ("HTTP " ++ str_of_Z (status_code r) ++ ": " ++ rest)
             = true).
  { intros rest. unfold is_transient_message. apply existsb_exists.
    exists ("HTTP " ++ str_of_Z (status_code r) ++ ":").
    split; [|destruct Hs as [<-|[<-|[<-|[]]]]; reflexivity].
    destruct Hs as [<-|[<-|[<-|[]]]]; cbn; tauto. }
  destruct (json_body r) as [data|].
  - get_or_raise G1. get_or_raise G2. get_or_raise G3.
    intros [= <-]. apply P.
  - intros [= <-]. apply P.
Qed.


(** C1 at a failing input.  The loop decides on the text of the error, not on
    the status: a 404 whose message quotes "HTTP 503:" is classified as an
    HttpError of status 404, which is none of 502, 503, 504, yet with attempts
    remaining the client sleeps and sends the request again instead of
    propagating the error. *)
Theorem non_transient_error_retried_on_message_text :
  handle_response not_found_response
  = Raise (HttpError 404 "NOT_FOUND - upstream replied HTTP 503: unavailable")
  /\ ~ In (status_code not_found_response) [502; 503; 504]
  /\ make_request sample_client not_found_then_success "GET" "/api/tweet/1" None None
     = (Ok (VDict [("success", VBool true); ("data", VList [])]),
        [EvRequest 0 tweet_request; EvSleep 1; EvRequest 1 tweet_request]).
Proof.
  split; [reflexivity|]. split; [cbn; intros [H|[H|[H|[]]]]; discriminate|].
  cbv -[sleep_error]. now rewrite sleep_error_one.
Qed.

(** ** The cookie header *)

Lemma lookup_str_app (k : string) (l1 l2 : list (string * string)) :
  lookup_str k (l1 ++ l2)
  = match lookup_str k l1 with Some v => Some v | None => lookup_str k l2 end.
Proof.
  induction l1 as [|[k' v] l1 IH]; cbn [lookup_str app]; [reflexivity|].
  now destruct (String.eqb k k').
Qed.

Lemma collect_step_covers (h : harvest) (cookie : value) :
  header_covers h -> header_covers (collect_step h cookie).
Proof.
  intros Inv. unfold collect_step.
  destruct cookie as [| | | | |d]; try exact Inv.
  destruct (field d "name") as [| | |name| |]; try exact Inv.
  destruct (field d "value") as [| | |val| |]; try exact Inv.
  destruct (lookup_str name (cookie_lookup h)) eqn:L; [exact Inv|].
  intros k v. cbn [cookie_lookup header_parts]. rewrite lookup_str_app.
  destruct (lookup_str k (cookie_lookup h)) eqn:Lk.
  - intros [= <-]. apply in_or_app. left. now apply Inv.
  - cbn [lookup_str]. destruct (String.eqb k name) eqn:E; [|discriminate].
    apply String.eqb_eq in E. subst k. intros [= <-].
    apply in_or_app. right. now left.
Qed.

Lemma collect_covers (cookies : list value) :
  forall h, header_covers h -> header_covers (fold_left collect_step cookies h).
Proof.
  induction cookies as [|cookie cookies IH]; intros h Inv; cbn [fold_left];
    [exact Inv|].
  apply IH, collect_step_covers, Inv.
Qed.

Lemma select_essentials_sound (table : list (string * string)) k v :
  forall keys,
  In (k, v) (select_essentials keys table) ->
  exists s, v = VStr s /\ lookup_str k table = Some s.
Proof.
  induction keys as [|key keys IH]; cbn [select_essentials]; [intros []|].
  destruct (lookup_str key table) as [s|] eqn:L; [|exact IH].
  intros [[= <- <-]|H]; [now exists s|now apply IH].
Qed.

(** C5, as the code has it.  [get_cookie_header] hands back the cookieHeader
    member of the loaded bundle as it is (the empty string when nothing is
    loaded, or the bundle is empty or has no such member).  For the bundle the
    harvester builds, that member is the header parts joined by "; ", and
    every name=value pair of essentials is one of the parts, hence occurs in
    the header. *)
Theorem cookie_header_is_the_stored_header (c : TwitterClient) :
  (forall bundle,
     get_cookie_header (load_cookies c (VDict bundle))
     = Ok (match bundle with
           | [] => VStr EmptyString
           | _ => or_default (lookup "cookieHeader" bundle) (VStr EmptyString)
           end))
  /\ (cookie_data c = VNone -> get_cookie_header c = Ok (VStr EmptyString))
  /\ (forall cookies,
      exists parts essentials,
        get_cookie_header (load_cookies c (collect_twitter_tokens cookies))
        = Ok (VStr (join "; " parts))
        /\ get_essential_cookies (load_cookies c (collect_twitter_tokens cookies))
           = Ok (VDict essentials)
        /\ forall name v, In (name, v) essentials ->
             exists val, v = VStr val
                         /\ In (name ++ "=" ++ val) parts
                         /\ contains (name ++ "=" ++ val) (join "; " parts) = true).
Proof.
  split; [|split].
  - intros [|b bundle]; reflexivity.
  - unfold get_cookie_header. now intros ->.
  - intros cookies. unfold collect_twitter_tokens.
    set (h := fold_left collect_step cookies _).
    exists (header_parts h), (select_essentials required_cookies (cookie_lookup h)).
    split; [reflexivity|]. split; [reflexivity|].
    intros name v Hin.
    apply select_essentials_sound in Hin as (val & -> & L).
    assert (Inv : header_covers h).
    { apply collect_covers. intros k v'. discriminate. }
    exists val. split; [reflexivity|].
    split; [now apply Inv|]. apply contains_join. now apply Inv.
Qed.


(** ** Normalization *)

Lemma normalize_user_dict (u : list (string * value)) :
  normalize_user (VDict u)
  = (joined <- join_date_of u ;; Ok (profile_of u joined)).
Proof.
  unfold normalize_user, join_date_of, profile_of, or_default.
  cbn [py_in index get bind].
  destruct (lookup "joinDate" u) as [v|]; cbn [bind]; [|reflexivity].
  destruct (parse_or Some None (Ok v)); reflexivity.
Qed.

Lemma parse_or_handled {A} (some : datetime -> A) (fallback : A) (v : value) :
  handled v = true ->
  parse_or some fallback (Ok v)
  = Ok (match date_parse v with Ok t => some t | Raise _ => fallback end).
Proof.
  unfold handled, parse_or. cbn [bind].
  destruct (date_parse v) as [t|e]; [reflexivity|]. now intros ->.
Qed.

Lemma parse_or_escapes {A} (some : datetime -> A) (fallback : A) (v : value)
    (e : exn) :
  date_parse v = Raise e -> caught e = false ->
  parse_or some fallback (Ok v) = Raise e.
Proof. unfold parse_or. cbn [bind]. now intros -> ->. Qed.

Lemma join_date_of_handled (u : list (string * value)) :
  absent_or handled u "joinDate" = true ->
  join_date_of u = Ok (join_date_or_unset u).
Proof.
  unfold absent_or, join_date_of, join_date_or_unset.
  destruct (lookup "joinDate" u) as [v|]; [|reflexivity].
  apply parse_or_handled.
Qed.

Lemma created_at_of_handled (d : list (string * value)) :
  created_at_handled d = true ->
  created_at_of d = Ok (created_at_or_now d).
Proof.
  unfold created_at_handled, created_at_of, created_at_or_now. cbn zeta.
  destruct (truthy _); cbn [negb orb]; [|reflexivity].
  apply parse_or_handled.
Qed.

Lemma normalize_user_handled (u : list (string * value)) :
  absent_or handled u "joinDate" = true ->
  normalize_user (VDict u) = Ok (profile_of u (join_date_or_unset u)).
Proof.
  intros H. now rewrite normalize_user_dict, join_date_of_handled.
Qed.

Lemma normalize_engagement_dict (m : list (string * value)) :
  normalize_engagement (VDict m)
  = new_EngagementMetrics (or_default (lookup "likes" m) (VInt 0))
      (or_default (lookup "retweets" m) (VInt 0))
      (or_default (lookup "replies" m) (VInt 0))
      (or_default (lookup "views" m) (VInt 0)).
Proof. reflexivity. Qed.

Lemma count_not_negative (m : list (string * value)) (k : string) :
  absent_or is_count m k = true ->
  lt_zero (or_default (lookup k m) (VInt 0)) = Ok false.
Proof.
  unfold absent_or, or_default. destruct (lookup k m) as [[| |z| | |]|];
    try discriminate; [|reflexivity].
  cbn. intros H. apply Z.leb_le in H. f_equal. apply Z.ltb_ge. exact H.
Qed.


Lemma lexical_features_string (s : string) (media_field : value) :
  lexical_features (VStr s) media_field
  = Ok {| has_question := contains "?" s;
          has_media := truthy media_field;
          has_links := contains "http" (lower s);
          has_hashtags := contains "#" s;
          has_mentions := contains "@" s;
          length := String.length s;
          word_count := count_words false s;
          sentiment := "neutral"; topics := []; language := "en" |}.
Proof. reflexivity. Qed.

Lemma lexical_features_inv (txt media_field : value) (f : ContentFeatures) :
  lexical_features txt media_field = Ok f ->
  exists s, txt = VStr s /\ lexical_features (VStr s) media_field = Ok f.
Proof. destruct txt; try discriminate. intros H. eauto. Qed.

(** [normalize_tweet] on a mapping, with the lookups made explicit. *)
Lemma normalize_tweet_dict (d : list (string * value)) :
  normalize_tweet (VDict d)
  = (u <- normalize_user (or_default (lookup "user" d) (VDict [])) ;;
     e <- normalize_engagement (or_default (lookup "engagement" d) (VDict [])) ;;
     t <- created_at_of d ;;
     f <- lexical_features (or_default (lookup "text" d) (VStr EmptyString))
            (or_default (lookup "media" d) (VList [])) ;;
     Ok (new_Tweet (or_default (lookup "id" d) (VStr EmptyString))
           (text_of (or_default (lookup "text" d) (VStr EmptyString)))
           u t (Some e) (Some f)
           (or_default (lookup "urls" d) (VList []))
           (or_default (lookup "hashtags" d) (VList []))
           (or_default (lookup "mentions" d) (VList []))
           (or_default (lookup "media" d) (VList []))
           (or_default (lookup "isRetweet" d) (VBool false))
           (or_default (lookup "isReply" d) (VBool false))
           (or_default (lookup "isThread" d) (VBool false))
           (or_default (lookup "threadPosition" d) VNone)
           (or_default (lookup "quotedTweet" d) VNone)
           (or_default (lookup "retweetedTweet" d) VNone))).
Proof.
  unfold normalize_tweet, created_at_of. cbn [get bind].
  fold (or_default (lookup "user" d) (VDict [])).
  unfold or_default.
  destruct (normalize_user _) as [u|]; [|reflexivity]. cbn [bind].
  destruct (normalize_engagement _) as [e|]; [|reflexivity]. cbn [bind].
  destruct (truthy _); cbn [bind]; [|reflexivity].
  destruct (parse_or _ _ _); reflexivity.
Qed.

(** The user member of a post whose user is absent or a mapping. *)
Lemma user_member (d : list (string * value)) :
  absent_or is_dict d "user" = true ->
  or_default (lookup "user" d) (VDict []) = VDict (user_of d).
Proof.
  unfold absent_or, or_default, user_of.
  destruct (lookup "user" d) as [[| | | | |u]|]; try discriminate; reflexivity.
Qed.

Lemma normalize_user_shaped (d : list (string * value)) :
  absent_or is_dict d "user" = true ->
  join_date_handled d = true ->
  normalize_user (or_default (lookup "user" d) (VDict []))
  = Ok (profile_of (user_of d) (join_date_or_unset (user_of d))).
Proof.
  intros Hu Hj. rewrite (user_member d Hu). now apply normalize_user_handled.
Qed.

Lemma normalize_engagement_shaped (d : list (string * value)) :
  absent_or (metrics_are is_count) d "engagement" = true ->
  normalize_engagement (or_default (lookup "engagement" d) (VDict []))
  = Ok (metrics_of (engagement_of d)).
Proof.
  unfold absent_or, or_default, engagement_of.
  destruct (lookup "engagement" d) as [[| | | | |m]|]; try discriminate;
    [|reflexivity].
  cbn [metrics_are metric_names forallb]. intros H.
  repeat (apply andb_prop in H as [?H H]).
  rewrite normalize_engagement_dict. unfold new_EngagementMetrics. cbn [any_m].
  rewrite !count_not_negative by assumption. reflexivity.
Qed.

Lemma text_member (d : list (string * value)) :
  absent_or is_string d "text" = true ->
  or_default (lookup "text" d) (VStr EmptyString)
  = VStr (text_of (or_default (lookup "text" d) (VStr EmptyString))).
Proof.
  unfold absent_or, or_default.
  destruct (lookup "text" d) as [[| | |s| |]|]; try discriminate; reflexivity.
Qed.

(** X21. Post-shaped mappings whose dates the parser takes (it returns a date,
    or raises ValueError or TypeError) normalize to the Tweet read off them
    member by member: what is present is copied, what is absent
    is at its default; a createdAt that is missing, empty or rejected by the
    parser gives the current time, a parsed one its date; a missing engagement
    gives the all-zero metrics, a missing id the empty string, and the empty
    mapping the all-default Tweet; a user mapping normalizes to the Profile
    read off it, whose join_date is unset when joinDate is missing or rejected
    by the parser. *)
Theorem normalization_defaults_missing_fields (d : list (string * value)) :
  post_shaped d = true ->
  join_date_handled d = true ->
  created_at_handled d = true ->
  normalize_tweet (VDict d) = Ok (tweet_of d)
  /\ (missing_or_unparsable d "createdAt" -> created_at (tweet_of d) = now)
  /\ (forall v t, lookup "createdAt" d = Some v -> truthy v = true ->
                  date_parse v = Ok t -> created_at (tweet_of d) = t)
  /\ (lookup "engagement" d = None -> engagement (tweet_of d) = zero_engagement)
  /\ (lookup "id" d = None -> id (tweet_of d) = VStr EmptyString)
  /\ normalize_tweet (VDict []) = Ok default_tweet
  /\ (forall u,
        absent_or handled u "joinDate" = true ->
        normalize_user (VDict u) = Ok (profile_of u (join_date_or_unset u))
        /\ (missing_or_unparsable u "joinDate" -> join_date_or_unset u = None)
        /\ (forall v t, lookup "joinDate" u = Some v -> date_parse v = Ok t ->
                        join_date_or_unset u = Some t)).
Proof.
  intros Shape Hj Hc. unfold post_shaped in Shape.
  apply andb_prop in Shape as [Shape Ht]. apply andb_prop in Shape as [Hu He].
  split; [|split; [|split; [|split; [|split; [|split; [reflexivity|]]]]]].
  - rewrite normalize_tweet_dict.
    rewrite (normalize_user_shaped d Hu Hj). cbn [bind].
    rewrite (normalize_engagement_shaped d He). cbn [bind].
    rewrite (created_at_of_handled d Hc). cbn [bind].
    rewrite (text_member d Ht) at 1. rewrite lexical_features_string.
    reflexivity.
  - cbn [tweet_of created_at]. unfold created_at_or_now, or_default.
    intros [-> | (v & -> & e & -> & _)]; [reflexivity|now destruct (truthy v)].
  - intros v t Hv Tv Pv. cbn [tweet_of created_at].
    unfold created_at_or_now. now rewrite Hv; cbn [or_default]; rewrite Tv, Pv.
  - intros Hz. cbn [tweet_of engagement]. unfold engagement_of. now rewrite Hz.
  - intros Hz. cbn [tweet_of id]. now rewrite Hz.
  - intros u Hh. split; [now apply normalize_user_handled|].
    unfold join_date_or_unset. split.
    + intros [-> | (v & -> & e & -> & _)]; reflexivity.
    + intros v t -> ->. reflexivity.
Qed.

(** C7 at the inputs where it fails.  The normalizers catch ValueError and
    TypeError around the parser and nothing else: when the parser raises
    another exception on the joinDate of a user mapping, on the createdAt of a
    post, or on the joinDate of the user of a post (OverflowError, on a
    timestamp in milliseconds), that exception leaves the normalization
    instead of the date being left unset or set to the current time. *)
Theorem uncaught_parser_error_fails_normalization (e : exn) :
  caught e = false ->
  (forall u v,
     lookup "joinDate" u = Some v -> date_parse v = Raise e ->
     normalize_user (VDict u) = Raise e)
  /\ (forall d v,
        post_shaped d = true -> join_date_handled d = true ->
        lookup "createdAt" d = Some v -> truthy v = true ->
        date_parse v = Raise e ->
        normalize_tweet (VDict d) = Raise e)
  /\ (forall d u v,
        lookup "user" d = Some (VDict u) ->
        lookup "joinDate" u = Some v -> date_parse v = Raise e ->
        normalize_tweet (VDict d) = Raise e).
Proof.
  intros Hc.
  assert (U : forall u v,
             lookup "joinDate" u = Some v -> date_parse v = Raise e ->
             normalize_user (VDict u) = Raise e).
  { intros u v Hv Pv. rewrite normalize_user_dict. unfold join_date_of.
    now rewrite Hv, (parse_or_escapes _ _ v e Pv Hc). }
  split; [exact U|]. split.
  - intros d v Shape Hj Hv Tv Pv. unfold post_shaped in Shape.
    apply andb_prop in Shape as [Shape _]. apply andb_prop in Shape as [Hu He].
    rewrite normalize_tweet_dict.
    rewrite (normalize_user_shaped d Hu Hj). cbn [bind].
    rewrite (normalize_engagement_shaped d He). cbn [bind].
    unfold created_at_of. rewrite Hv. cbn [or_default]. rewrite Tv.
    now rewrite (parse_or_escapes _ _ v e Pv Hc).
  - intros d u v Hu Hv Pv. rewrite normalize_tweet_dict, Hu. cbn [or_default].
    now rewrite (U u v Hv Pv).
Qed.

(** C8. The features of a normalized Tweet are read off its raw text and
    media: has_question iff "?" occurs in the text, has_media iff the media
    member is non-empty, has_hashtags iff "#" occurs, has_mentions iff "@"
    occurs, has_links iff "http" occurs in the lower-cased text; and whatever
    "features" member the raw mapping carries, the result is the same. *)
Theorem content_features_are_lexical (tweet_data : value) (t : Tweet) :
  normalize_tweet tweet_data = Ok t ->
  get tweet_data "text" (VStr EmptyString) = Ok (VStr (text t))
  /\ get tweet_data "media" (VList []) = Ok (media t)
  /\ (has_question (features t) = true <-> exists a b, text t = a ++ "?" ++ b)
  /\ has_media (features t) = truthy (media t)
  /\ (forall l, media t = VList l -> (has_media (features t) = true <-> l <> []))
  /\ (has_hashtags (features t) = true <-> exists a b, text t = a ++ "#" ++ b)
  /\ (has_mentions (features t) = true <-> exists a b, text t = a ++ "@" ++ b)
  /\ (has_links (features t) = true
      <-> exists a b, lower (text t) = a ++ "http" ++ b)
  /\ (forall d upstream,
        tweet_data = VDict d ->
        normalize_tweet (VDict (dict_set "features" upstream d)) = Ok t).
Proof.
  intros H.
  assert (D : exists d, tweet_data = VDict d).
  { destruct tweet_data; try discriminate. eauto. }
  destruct D as [d ->].
  assert (Same : forall upstream,
            normalize_tweet (VDict (dict_set "features" upstream d))
            = normalize_tweet (VDict d)).
  { intros upstream. rewrite !normalize_tweet_dict. unfold created_at_of.
    now rewrite !lookup_dict_set_other by discriminate. }
  pose proof H as Whole. rewrite normalize_tweet_dict in H.
  destruct (normalize_user _) as [u|]; [|discriminate]. cbn [bind] in H.
  destruct (normalize_engagement _) as [e|]; [|discriminate]. cbn [bind] in H.
  destruct (created_at_of d) as [stamp|]; [|discriminate]. cbn [bind] in H.
  destruct (lexical_features _ _) as [f|] eqn:F; [|discriminate]. cbn [bind] in H.
  apply lexical_features_inv in F as (s & Txt & F).
  rewrite lexical_features_string in F. injection F as <-.
  rewrite Txt in H. injection H as <-.
  cbn [get new_Tweet text media features has_question has_media has_hashtags
       has_mentions has_links text_of].
  fold (or_default (lookup "text" d) (VStr EmptyString)). rewrite Txt.
  repeat split; try apply contains_iff; try (intros I; apply contains_iff in I; exact I).
  - intros T N. subst l. rewrite H in T. discriminate.
  - intros N. rewrite H. destruct l; [contradiction|reflexivity].
  - intros d' upstream [= <-]. rewrite Same. exact Whole.
Qed.


Lemma integer_metric (m : list (string * value)) (k : string) :
  absent_or is_integer m k = true ->
  exists z, or_default (lookup k m) (VInt 0) = VInt z
            /\ forall z', lookup k m = Some (VInt z') -> z' = z.
Proof.
  unfold absent_or, or_default.
  destruct (lookup k m) as [[| |z| | |]|]; try discriminate; intros _.
  - exists z. split; [reflexivity|]. now intros z' [= ->].
  - exists 0. split; [reflexivity|discriminate].
Qed.

Lemma negative_metric_rejected (m : list (string * value)) :
  forallb (absent_or is_integer m) metric_names = true ->
  (exists k z, In k metric_names /\ lookup k m = Some (VInt z) /\ z < 0) ->
  normalize_engagement (VDict m) = Raise negative_engagement.
Proof.
  cbn [metric_names forallb]. intros H (k & z & Hk & Hz & Neg).
  repeat (apply andb_prop in H as [?H H]).
  destruct (integer_metric m "likes" H0) as (z1 & E1 & U1).
  destruct (integer_metric m "retweets" H1) as (z2 & E2 & U2).
  destruct (integer_metric m "replies" H2) as (z3 & E3 & U3).
  destruct (integer_metric m "views" H3) as (z4 & E4 & U4).
  rewrite normalize_engagement_dict, E1, E2, E3, E4.
  unfold new_EngagementMetrics. cbn [any_m lt_zero bind].
  assert (N : (z1 <? 0) || (z2 <? 0) || (z3 <? 0) || (z4 <? 0) = true).
  { cbn [In] in Hk.
    destruct Hk as [<-|[<-|[<-|[<-|[]]]]];
      [apply U1 in Hz|apply U2 in Hz|apply U3 in Hz|apply U4 in Hz]; subst z;
      apply Z.ltb_lt in Neg; rewrite Neg; rewrite ?orb_true_r; reflexivity. }
  destruct (z1 <? 0); [reflexivity|]. cbn [bind].
  destruct (z2 <? 0); [reflexivity|]. cbn [bind].
  destruct (z3 <? 0); [reflexivity|]. cbn [bind].
  destruct (z4 <? 0); [reflexivity|discriminate].
Qed.

Lemma map_m_raises_at {A B} (f : A -> result B) (x : A) (e : exn)
    (before after : list A) :
  is_ok (map_m f before) = true -> f x = Raise e ->
  map_m f (before ++ x :: after) = Raise e.
Proof.
  intros Hb Hx. induction before as [|y before IH]; cbn [map_m app].
  - now rewrite Hx.
  - cbn [map_m] in Hb. destruct (f y); [|discriminate]. cbn [bind] in *.
    destruct (map_m f before); [|discriminate]. now rewrite IH.
Qed.

(** X22. A raw post whose user member normalizes (it is absent or a mapping,
    and the parser takes its joinDate) and whose engagement mapping holds
    integers, one of them negative, is rejected by the validation of
    EngagementMetrics: normalization raises its ValueError, and so does every
    fetch operation whose request succeeds with such a post in the payload. *)
Theorem negative_engagement_raises_value_error (d m : list (string * value)) :
  absent_or is_dict d "user" = true ->
  join_date_handled d = true ->
  lookup "engagement" d = Some (VDict m) ->
  forallb (absent_or is_integer m) metric_names = true ->
  (exists k z, In k metric_names /\ lookup k m = Some (VInt z) /\ z < 0) ->
  normalize_tweet (VDict d) = Raise negative_engagement
  /\ (forall c env tweet_id payload tr,
        make_request c env "GET" ("/api/tweet/" ++ tweet_id) None None
        = (Ok payload, tr) ->
        get payload "data" (VDict []) = Ok (VDict d) ->
        get_tweet c env tweet_id = (Raise negative_engagement, tr))
  /\ (forall c env count payload tr before after,
        make_request c env "POST" "/api/timeline" (Some [("count", count)]) None
        = (Ok payload, tr) ->
        get payload "data" (VList []) = Ok (VList (before ++ VDict d :: after)) ->
        is_ok (map_m normalize_tweet before) = true ->
        get_timeline c env count = (Raise negative_engagement, tr))
  /\ (forall c env count payload tr before after,
        make_request c env "POST" "/api/timeline"
          (Some [("count", count); ("includeReplies", VBool true)]) None
        = (Ok payload, tr) ->
        get payload "data" (VList []) = Ok (VList (before ++ VDict d :: after)) ->
        is_ok (map_m normalize_tweet before) = true ->
        get_tweets_and_replies c env count = (Raise negative_engagement, tr))
  /\ (forall c env payload tr before after,
        make_request c env "POST" "/api/timeline" (Some [("count", VInt 1)]) None
        = (Ok payload, tr) ->
        get payload "data" (VList []) = Ok (VList (before ++ VDict d :: after)) ->
        is_ok (map_m normalize_tweet before) = true ->
        get_latest_tweet c env = (Raise negative_engagement, tr)).
Proof.
  intros Hu Hj He Hm Hneg.
  assert (N : normalize_tweet (VDict d) = Raise negative_engagement).
  { rewrite normalize_tweet_dict.
    rewrite (normalize_user_shaped d Hu Hj). cbn [bind].
    rewrite He. cbn [or_default].
    now rewrite (negative_metric_rejected m Hm Hneg). }
  assert (L : forall payload before after,
             get payload "data" (VList []) = Ok (VList (before ++ VDict d :: after)) ->
             is_ok (map_m normalize_tweet before) = true ->
             normalize_all payload = Raise negative_engagement).
  { intros payload before after G B. unfold normalize_all. rewrite G.
    cbn [bind iterate]. now apply map_m_raises_at. }
  split; [exact N|]. repeat split.
  - intros c env tweet_id payload tr R G. unfold get_tweet, after_request.
    rewrite R. cbn [fst snd bind]. rewrite G. cbn [bind]. now rewrite N.
  - intros c env count payload tr before after R G B.
    unfold get_timeline, after_request. rewrite R. cbn [fst snd bind].
    now rewrite (L payload before after G B).
  - intros c env count payload tr before after R G B.
    unfold get_tweets_and_replies, after_request. rewrite R. cbn [fst snd bind].
    now rewrite (L payload before after G B).
  - intros c env payload tr before after R G B.
    unfold get_latest_tweet, get_timeline, after_request. rewrite R.
    cbn [fst snd bind]. now rewrite (L payload before after G B).
Qed.


(** C10 at a failing input.  The user member is normalized before the
    engagement, and the normalizer of users lets through what the parser
    raises other than ValueError and TypeError: for a post whose user carries
    such a joinDate (a timestamp in milliseconds, on which the parser raises
    OverflowError) a negative metric is never validated; normalization, and the
    fetch of such a post, raise the parser's exception, not the ValueError. *)
Theorem negative_engagement_behind_uncaught_parser_error
    (d u m : list (string * value)) (v : value) (e : exn) :
  lookup "user" d = Some (VDict u) ->
  lookup "joinDate" u = Some v ->
  date_parse v = Raise e -> caught e = false ->
  lookup "engagement" d = Some (VDict m) ->
  forallb (absent_or is_integer m) metric_names = true ->
  (exists k z, In k metric_names /\ lookup k m = Some (VInt z) /\ z < 0) ->
  normalize_engagement (VDict m) = Raise negative_engagement
  /\ normalize_tweet (VDict d) = Raise e
  /\ e <> negative_engagement
  /\ (forall c env tweet_id payload tr,
        make_request c env "GET" ("/api/tweet/" ++ tweet_id) None None
        = (Ok payload, tr) ->
        get payload "data" (VDict []) = Ok (VDict d) ->
        get_tweet c env tweet_id = (Raise e, tr)).
Proof.
  intros Hu Hv Pv Hc He Hm Hneg.
  assert (N : normalize_tweet (VDict d) = Raise e).
  { rewrite normalize_tweet_dict, Hu. cbn [or_default].
    rewrite normalize_user_dict. unfold join_date_of.
    now rewrite Hv, (parse_or_escapes _ _ v e Pv Hc). }
  split; [now apply negative_metric_rejected|]. split; [exact N|]. split.
  - intros ->. discriminate.
  - intros c env tweet_id payload tr R G. unfold get_tweet, after_request.
    rewrite R. cbn [fst snd bind]. rewrite G. cbn [bind]. now rewrite N.
Qed.


(** ** The dataclasses *)


Lemma as_int_lt_zero (v : value) (z : Z) :
  as_int v = Some z -> lt_zero v = Ok (z <? 0).
Proof.
  destruct v as [|b|z'| | |]; try discriminate; intros [= <-]; [|reflexivity].
  now destruct b.
Qed.

(** X10. On integer metrics (a bool counting as an integer) the constructor of
    [EngagementMetrics] raises its ValueError exactly when one of the four is
    negative, and otherwise builds the object holding them; the total of an
    object so built is likes + retweets + replies, views left out, and is not
    negative. *)
Theorem validated_engagement_total (l rt rp v : value) (a b c k : Z) :
  as_int l = Some a -> as_int rt = Some b ->
  as_int rp = Some c -> as_int v = Some k ->
  new_EngagementMetrics l rt rp v
  = (if (a <? 0) || (b <? 0) || (c <? 0) || (k <? 0)
     then Raise negative_engagement
     else Ok {| likes := l; retweets := rt; replies := rp; views := v |})
  /\ (forall m,
        new_EngagementMetrics l rt rp v = Ok m ->
        0 <= a /\ 0 <= b /\ 0 <= c /\ 0 <= k
        /\ total_engagements m = Ok (VInt (a + b + c))
        /\ 0 <= a + b + c).
Proof.
  intros Ha Hb Hc Hk.
  assert (E : new_EngagementMetrics l rt rp v
              = (if (a <? 0) || (b <? 0) || (c <? 0) || (k <? 0)
                 then Raise negative_engagement
                 else Ok {| likes := l; retweets := rt; replies := rp;
                            views := v |})).
  { unfold new_EngagementMetrics, negative_engagement. cbn [any_m].
    rewrite (as_int_lt_zero l a Ha), (as_int_lt_zero rt b Hb),
      (as_int_lt_zero rp c Hc), (as_int_lt_zero v k Hk). cbn [bind].
    destruct (a <? 0); [reflexivity|]. cbn [bind orb].
    destruct (b <? 0); [reflexivity|]. cbn [bind orb].
    destruct (c <? 0); [reflexivity|]. cbn [bind orb].
    destruct (k <? 0); reflexivity. }
  split; [exact E|]. intros m. rewrite E.
  destruct (Z.ltb_spec a 0); [discriminate|].
  destruct (Z.ltb_spec b 0); [discriminate|].
  destruct (Z.ltb_spec c 0); [discriminate|].
  destruct (Z.ltb_spec k 0); [discriminate|]. cbn [orb].
  intros [= <-]. repeat split; try lia.
  unfold total_engagements, py_add. cbn [likes retweets replies].
  rewrite Ha, Hb. cbn [bind as_int]. now rewrite Hc.
Qed.

(** X11. A Tweet normalized by the client is engaging exactly when its text has a
    question mark or it carries media: the client never sets a sentiment other
    than neutral, nor topics. *)
Theorem normalized_tweet_engaging (tweet_data : value) (t : Tweet) :
  normalize_tweet tweet_data = Ok t ->
  is_engaging (features t) = contains "?" (text t) || truthy (media t).
Proof.
  intros H.
  assert (D : exists d, tweet_data = VDict d)
    by (destruct tweet_data; try discriminate; eauto).
  destruct D as [d ->]. rewrite normalize_tweet_dict in H.
  destruct (normalize_user _) as [u|]; [|discriminate]. cbn [bind] in H.
  destruct (normalize_engagement _) as [e|]; [|discriminate]. cbn [bind] in H.
  destruct (created_at_of d) as [stamp|]; [|discriminate]. cbn [bind] in H.
  destruct (lexical_features _ _) as [f|] eqn:F; [|discriminate]. cbn [bind] in H.
  apply lexical_features_inv in F as (s & Txt & F).
  rewrite lexical_features_string in F. injection F as <-.
  rewrite Txt in H. injection H as <-.
  unfold is_engaging.
  cbn [new_Tweet features text media has_question has_media sentiment topics
       text_of List.length].
  now rewrite !orb_false_r.
Qed.

(** X12. Serializing a Profile and reading it back gives the same Profile, provided
    the date library reads back what it prints. *)
Theorem profile_round_trip (isoformat : datetime -> string) (p : Profile) :
  (forall t, join_date p = Some t ->
             isoformat t <> EmptyString
             /\ date_parse (VStr (isoformat t)) = Ok t) ->
  Profile_from_dict (VDict (Profile_to_dict isoformat p)) = Ok p.
Proof.
  intros H. destruct p as [i n dn b a v fs fg l u j tc pt].
  unfold Profile_from_dict, Profile_to_dict, get2.
  cbn [p_id username display_name bio avatar verified followers following
       location url join_date tweet_count pinned_tweet].
  cbn [py_in get lookup String.eqb Ascii.eqb Bool.eqb bind].
  destruct j as [t|]; [|reflexivity].
  destruct (H t eq_refl) as [Ne P]. cbn [truthy is_string andb].
  apply String.eqb_neq in Ne. rewrite Ne. cbn [negb andb].
  unfold parse_or. cbn [bind]. now rewrite P.
Qed.

(** X13. On a mapping spelled in camelCase only, whose joinDate is absent or a
    non-empty string, the client's normalizer builds the Profile that
    [Profile.from_dict] builds. *)
Theorem normalize_user_agrees_with_from_dict (u : list (string * value)) :
  forallb (fun k => match lookup k u with None => true | Some _ => false end)
    snake_case_members = true ->
  (lookup "joinDate" u = None
   \/ exists s, lookup "joinDate" u = Some (VStr s) /\ s <> EmptyString) ->
  Profile_from_dict (VDict u) = normalize_user (VDict u).
Proof.
  cbn [forallb snake_case_members]. intros S J.
  repeat (apply andb_prop in S as [?S S]).
  rewrite normalize_user_dict.
  unfold Profile_from_dict, join_date_of, profile_of, get2, or_default.
  cbn [py_in get bind].
  destruct (lookup "join_date" u); [discriminate|].
  destruct (lookup "display_name" u); [discriminate|].
  destruct (lookup "tweet_count" u); [discriminate|].
  destruct (lookup "pinned_tweet" u); [discriminate|].
  destruct J as [-> | (s & -> & Ne)]; cbn [bind]; [reflexivity|].
  cbn [truthy is_string]. apply String.eqb_neq in Ne. rewrite Ne. reflexivity.
Qed.

Lemma normalize_tweet_inv (d : list (string * value)) (t : Tweet) :
  normalize_tweet (VDict d) = Ok t ->
  exists u e stamp f,
    normalize_user (or_default (lookup "user" d) (VDict [])) = Ok u
    /\ normalize_engagement (or_default (lookup "engagement" d) (VDict [])) = Ok e
    /\ created_at_of d = Ok stamp
    /\ lexical_features (or_default (lookup "text" d) (VStr EmptyString))
         (or_default (lookup "media" d) (VList [])) = Ok f
    /\ t = new_Tweet (or_default (lookup "id" d) (VStr EmptyString))
             (text_of (or_default (lookup "text" d) (VStr EmptyString)))
             u stamp (Some e) (Some f)
             (or_default (lookup "urls" d) (VList []))
             (or_default (lookup "hashtags" d) (VList []))
             (or_default (lookup "mentions" d) (VList []))
             (or_default (lookup "media" d) (VList []))
             (or_default (lookup "isRetweet" d) (VBool false))
             (or_default (lookup "isReply" d) (VBool false))
             (or_default (lookup "isThread" d) (VBool false))
             (or_default (lookup "threadPosition" d) VNone)
             (or_default (lookup "quotedTweet" d) VNone)
             (or_default (lookup "retweetedTweet" d) VNone).
Proof.
  rewrite normalize_tweet_dict.
  destruct (normalize_user _) as [u|]; [|discriminate]. cbn [bind].
  destruct (normalize_engagement _) as [e|]; [|discriminate]. cbn [bind].
  destruct (created_at_of d) as [stamp|]; [|discriminate]. cbn [bind].
  destruct (lexical_features _ _) as [f|]; [|discriminate]. cbn [bind].
  intros [= <-]. now exists u, e, stamp, f.
Qed.

(** X14. Normalizing a raw post and serializing the Tweet gives back every member
    the raw post supplied among those the normalizer copies, its text, the
    camelCase members of its user other than the date, and its metrics. *)
Theorem normalize_then_serialize_preserves (isoformat : datetime -> string)
    (d : list (string * value)) (t : Tweet) :
  normalize_tweet (VDict d) = Ok t ->
  (forall k v, In k copied_members -> lookup k d = Some v ->
               lookup k (Tweet_to_dict isoformat t) = Some v)
  /\ (forall v, lookup "text" d = Some v ->
                lookup "text" (Tweet_to_dict isoformat t) = Some v)
  /\ (forall u k v,
        lookup "user" d = Some (VDict u) ->
        In k ["id"; "username"; "displayName"; "bio"; "avatar"; "verified";
              "followers"; "following"; "location"; "url"; "tweetCount";
              "pinnedTweet"] ->
        lookup k u = Some v ->
        exists u', lookup "user" (Tweet_to_dict isoformat t) = Some (VDict u')
                   /\ lookup k u' = Some v)
  /\ (forall m k v,
        lookup "engagement" d = Some (VDict m) ->
        In k metric_names -> lookup k m = Some v ->
        exists m', lookup "engagement" (Tweet_to_dict isoformat t) = Some (VDict m')
                   /\ lookup k m' = Some v).
Proof.
  intros H.
  apply normalize_tweet_inv in H as (u & e & stamp & f & Hu & He & _ & Hf & ->).
  repeat split.
  - intros k v Hk Hv. unfold or_default. cbn [In copied_members] in Hk.
    repeat (destruct Hk as [<-|Hk]; [now rewrite Hv|]). contradiction.
  - intros v Hv. rewrite Hv in Hf. cbn [or_default] in Hf.
    apply lexical_features_inv in Hf as (s & -> & _).
    unfold or_default. rewrite Hv. reflexivity.
  - intros u0 k v Hu0 Hk Hv. rewrite Hu0 in Hu. cbn [or_default] in Hu.
    rewrite normalize_user_dict in Hu.
    destruct (join_date_of u0) as [joined|]; [|discriminate].
    cbn [bind] in Hu. injection Hu as <-.
    eexists. split; [reflexivity|]. unfold profile_of, or_default.
    cbn [In] in Hk.
    repeat (destruct Hk as [<-|Hk]; [now rewrite Hv|]). contradiction.
  - intros m k v Hm Hk Hv. rewrite Hm in He. cbn [or_default] in He.
    rewrite normalize_engagement_dict in He. unfold new_EngagementMetrics in He.
    destruct (any_m _ _) as [[|]|]; cbn [bind] in He; try discriminate.
    injection He as <-. eexists. split; [reflexivity|].
    unfold or_default. cbn [In metric_names] in Hk.
    repeat (destruct Hk as [<-|Hk]; [now rewrite Hv|]). contradiction.
Qed.


(** ** More on the gate and the request primitive *)

Lemma authenticated_bundle (c : TwitterClient) :
  bundle_shaped (cookie_data c) = true ->
  is_authenticated c = Ok true ->
  exists b d x rest,
    cookie_data c = VDict (b :: d)
    /\ lookup "essentials" (b :: d) = Some (VDict (x :: rest)).
Proof.
  intros S. rewrite (is_authenticated_total c S). intros [= T].
  apply andb_prop in T as [T F].
  unfold bundle_shaped, absent_or in S. unfold essential in F.
  destruct (cookie_data c) as [| | | | |d]; try discriminate.
  destruct d as [|b d]; [discriminate|].
  cbn [forallb required_cookies] in F. apply andb_prop in F as [F _].
  destruct (lookup "essentials" (b :: d)) as [[| | | | |e]|] eqn:L;
    try discriminate.
  destruct e as [|x rest]; [discriminate|].
  exists b, d, x, rest. split; [reflexivity|exact L].
Qed.

Lemma gate_core (c : TwitterClient) :
  bundle_shaped (cookie_data c) = true ->
  (check_authentication c = Ok tt
   <-> header_ok (cookie_data c) = true /\ is_authenticated c = Ok true).
Proof.
  intros S. split.
  - intros C. destruct (check_authentication_cases c S) as [[_ I]|(e & R & _)];
      [|congruence].
    split; [|exact I].
    destruct (authenticated_bundle c S I) as (b & d & x & rest & D & L).
    unfold check_authentication in C. unfold header_ok. rewrite D in *.
    cbn [truthy negb py_in get bind] in C.
    destruct (lookup "cookieHeader" (b :: d)) as [h|]; [|discriminate].
    rewrite L in C. cbn [negb bind truthy orb] in C.
    destruct (truthy h); [reflexivity|discriminate].
  - intros [H I]. destruct (authenticated_bundle c S I) as (b & d & x & rest & D & L).
    unfold check_authentication. rewrite I. unfold header_ok in H. rewrite D in *.
    cbn [truthy negb py_in get bind].
    destruct (lookup "cookieHeader" (b :: d)) as [h|]; [|discriminate].
    rewrite L, H. reflexivity.
Qed.

(** X1. The gate asks for more than [is_authenticated]: on a bundle it passes
    exactly when the cookieHeader is non-empty as well; with complete
    essentials but no header, [is_authenticated] holds and every request is
    still refused before any network event. *)
Theorem gate_passes_iff (c : TwitterClient) :
  bundle_shaped (cookie_data c) = true ->
  (check_authentication c = Ok tt
   <-> header_ok (cookie_data c) = true /\ is_authenticated c = Ok true)
  /\ (is_authenticated c = Ok true -> header_ok (cookie_data c) = false ->
      forall env method endpoint data retries,
        make_request c env method endpoint data retries = (Raise auth_missing, [])).
Proof.
  intros S. split; [exact (gate_core c S)|].
  intros I H env method endpoint data retries.
  unfold make_request.
  destruct (authenticated_bundle c S I) as (b & d & x & rest & D & L).
  assert (C : check_authentication c = Raise auth_missing).
  { unfold check_authentication. unfold header_ok in H. rewrite D in *.
    cbn [truthy negb py_in get bind].
    destruct (lookup "cookieHeader" (b :: d)) as [h|]; [|reflexivity].
    rewrite L, H. reflexivity. }
  now rewrite C.
Qed.




Lemma handle_response_ok (r : Response) (v : value) :
  handle_response r = Ok v ->
  status_code r < 400
  /\ exists d, json_body r = Some (VDict d) /\ v = VDict d
               /\ truthy (success_flag d) = true.
Proof.
  unfold handle_response.
  destruct (400 <=? status_code r) eqn:S.
  - destruct (json_body r) as [data|]; [|discriminate].
    get_or_raise G1. get_or_raise G2. get_or_raise G3. discriminate.
  - apply Z.leb_gt in S. destruct (json_body r) as [data|]; [|discriminate].
    destruct data as [| | | | |d]; try discriminate.
    cbn [get bind].
    change (match lookup "success" d with Some x => x | None => VBool false end)
      with (success_flag d).
    destruct (truthy (success_flag d)) eqn:T; cbn [negb].
    + intros [= <-]. split; [exact S|]. now exists d.
    + get_or_raise G1. get_or_raise G2.
      destruct (py_in _ _) as [[|]|]; cbn [bind]; try discriminate.
      destruct (is_str _ _); [discriminate|]. destruct (is_str _ _); discriminate.
Qed.

Lemma request_loop_events c env retries req :
  forall remaining attempt k r,
  In (EvRequest k r) (snd (request_loop c env retries req remaining attempt)) ->
  r = req /\ (attempt <= k < attempt + remaining)%nat.
Proof.
  destruct (has_session c) eqn:Hs.
  2:{ intros remaining attempt k r. rewrite request_loop_closed by exact Hs.
      intros []. }
  induction remaining as [|remaining IH]; intros attempt k r; [intros []|].
  rewrite request_loop_step by exact Hs.
  destruct (retryable env attempt && negb (Z.of_nat attempt =? retries - 1)).
  - cbn zeta. cbn [snd]. intros [[= <- <-]|H]; [split; [reflexivity|lia]|].
    unfold backoff in H. destruct (sleep_error _); [destruct H|].
    cbn [snd] in H. destruct H as [H|H]; [discriminate|].
    apply IH in H as [-> H]. split; [reflexivity|lia].
  - cbn [snd]. intros [[= <- <-]|[]]. split; [reflexivity|lia].
Qed.

Lemma request_loop_ok c env retries req (v : value) :
  forall remaining attempt,
  fst (request_loop c env retries req remaining attempt) = Ok v ->
  exists k, attempt_outcome env k = Ok v
            /\ In (EvRequest k req)
                 (snd (request_loop c env retries req remaining attempt)).
Proof.
  destruct (has_session c) eqn:Hs.
  2:{ intros remaining attempt. rewrite request_loop_closed by exact Hs.
      destruct remaining; discriminate. }
  induction remaining as [|remaining IH]; intros attempt; [discriminate|].
  rewrite request_loop_step by exact Hs.
  destruct (retryable env attempt && negb (Z.of_nat attempt =? retries - 1)).
  - cbn zeta. cbn [fst snd]. unfold backoff.
    destruct (sleep_error _); [discriminate|]. cbn [fst snd]. intros H.
    destruct (IH _ H) as (k & O & I). exists k. split; [exact O|].
    right. right. exact I.
  - cbn [fst snd]. intros H. exists attempt. split; [exact H|now left].
Qed.

(** X4. A payload is only ever returned for a response that was delivered at one
    of the attempts made, with a status below 400 and a JSON object whose
    success member is truthy; the payload is that object. *)
Theorem payload_comes_from_a_successful_response
    c env method endpoint data retries_override (v : value) :
  fst (make_request c env method endpoint data retries_override) = Ok v ->
  check_authentication c = Ok tt
  /\ exists k req r d,
       In (EvRequest k req)
          (snd (make_request c env method endpoint data retries_override))
       /\ Z.of_nat k < or_default retries_override (max_retries (config c))
       /\ env k = Delivered r
       /\ status_code r < 400
       /\ json_body r = Some (VDict d)
       /\ truthy (success_flag d) = true
       /\ v = VDict d.
Proof.
  unfold make_request.
  destruct (check_authentication c) as [[]|]; [|discriminate].
  destruct (build_request c method endpoint data) as [req|]; [|discriminate].
  intros H. split; [reflexivity|].
  destruct (request_loop_ok _ _ _ _ _ _ _ H) as (k & O & I).
  pose proof (request_loop_events _ _ _ _ _ _ _ _ I) as [_ Bound].
  unfold attempt_outcome in O.
  destruct (env k) as [| | |r] eqn:E; try discriminate.
  apply handle_response_ok in O as (S & d & J & -> & T).
  exists k, req, r, d. repeat split; try assumption. lia.
Qed.

Lemma lookup_dict_set_same (k : string) (v : value) (d : list (string * value)) :
  lookup k (dict_set k v d) = Some v.
Proof.
  induction d as [|[k0 v0] d IH]; cbn [dict_set lookup].
  - now rewrite String.eqb_refl.
  - destruct (String.eqb k k0) eqn:E; cbn [lookup]; rewrite ?String.eqb_refl, ?E;
      [reflexivity|exact IH].
Qed.

(** X5. Every attempt of a request sequence sends the same request: the URL is the
    base URL followed by the endpoint, the Cookie header is the stored header,
    the timeout is the configured one; a method spelled POST in any case is
    posted with the caller's members and a cookies member holding the
    essentials, and every other method is sent as a GET without a body. *)
Theorem every_attempt_sends_the_same_request
    c env method endpoint data retries_override (k : nat) (r : Request) :
  In (EvRequest k r)
     (snd (make_request c env method endpoint data retries_override)) ->
  build_request c method endpoint data = Ok r
  /\ req_url r = base_url (config c) ++ endpoint
  /\ req_timeout r = timeout_seconds (config c)
  /\ get_cookie_header c = Ok (req_cookie r)
  /\ (String.eqb (upper method) "POST" = true ->
      req_method r = POST
      /\ exists body essentials,
           req_json r = Some (VDict body)
           /\ get_essential_cookies c = Ok essentials
           /\ lookup "cookies" body = Some essentials
           /\ forall key, key <> "cookies" ->
                lookup key body = lookup key (or_default data []))
  /\ (String.eqb (upper method) "POST" = false ->
      req_method r = GET /\ req_json r = None).
Proof.
  unfold make_request.
  destruct (check_authentication c) as [[]|]; [|intros []].
  destruct (build_request c method endpoint data) as [req|] eqn:B; [|intros []].
  intros H. apply request_loop_events in H as [-> _].
  split; [reflexivity|]. revert B. unfold build_request.
  destruct (get_cookie_header c) as [cookie|]; [|discriminate]. cbn [bind].
  destruct (String.eqb (upper method) "POST").
  - destruct (get_essential_cookies c) as [essentials|]; [|discriminate].
    cbn [bind]. intros [= <-]. cbn [req_url req_timeout req_cookie req_method req_json].
    repeat split; try discriminate.
    eexists. exists essentials. repeat split.
    + apply lookup_dict_set_same.
    + intros key Ne. rewrite lookup_dict_set_other by exact Ne.
      now destruct data as [[|b d]|].
  - intros [= <-]. cbn [req_url req_timeout req_cookie req_method req_json].
    repeat split; discriminate.
Qed.


(** The two facts about statuses from 400 on that later proofs share. *)
Lemma classification_shape (r : Response) :
  (json_body r = None ->
   handle_response r
   = Raise (if 400 <=? status_code r
            then HttpError (status_code r) (or_default (reason r) "Unknown Error")
            else MalformedResponse (response_text r)))
  /\ (forall d e,
        json_body r = Some (VDict d) -> 400 <= status_code r ->
        error_member d = Some e ->
        handle_response r
        = Raise (HttpError (status_code r)
                   (str (error_code e) ++ " - " ++ str (error_message e)))).
Proof.
  unfold handle_response. split.
  - intros ->. now destruct (400 <=? status_code r).
  - intros d e -> Hs He.
    apply Z.leb_le in Hs. rewrite Hs. unfold error_member in He.
    cbn [get bind]. unfold HttpError, error_code, error_message, or_default.
    destruct (lookup "error" d) as [[| | | | |e']|]; try discriminate;
      injection He as <-; reflexivity.
Qed.

(** X3. A response with status 502, 503 or 504 that classification turns into
    the client's error is retryable whatever its body says: the loop goes on
    after it whenever attempts remain. *)
Theorem transient_statuses_are_retryable (env : nat -> transport) (k : nat)
    (r : Response) :
  env k = Delivered r ->
  In (status_code r) [502; 503; 504] ->
  (json_body r = None
   \/ exists d e, json_body r = Some (VDict d) /\ error_member d = Some e) ->
  retryable env k = true.
Proof.
  intros E S B. unfold retryable. rewrite E.
  assert (H : exists msg, handle_response r = Raise (TwitterClientError msg)).
  { assert (400 <= status_code r) by (cbn in S; lia).
    destruct (classification_shape r) as (N & J).
    destruct B as [B|(d & e & B & M)].
    - rewrite (N B). apply Z.leb_le in H. rewrite H. unfold HttpError. eauto.
    - rewrite (J d e B H M). unfold HttpError. eauto. }
  destruct H as [msg H]. rewrite H.
  now apply (transient_status_is_retried r msg S).
Qed.

(** ** The public operations *)

Lemma map_m_ok {A B} (f : A -> result B) (l : list A) (ys : list B) :
  map_m f l = Ok ys -> Forall2 (fun x y => f x = Ok y) l ys.
Proof.
  revert ys. induction l as [|x l IH]; cbn [map_m]; intros ys.
  - intros [= <-]. constructor.
  - destruct (f x) as [y|] eqn:F; [|discriminate]. cbn [bind].
    destruct (map_m f l) as [ys'|]; [|discriminate]. cbn [bind].
    intros [= <-]. constructor; [exact F|now apply IH].
Qed.

Lemma normalize_all_ok (payload : value) (tweets : list Tweet) :
  normalize_all payload = Ok tweets ->
  exists p items,
    payload = VDict p
    /\ iterate (or_default (lookup "data" p) (VList [])) = Ok items
    /\ Forall2 (fun raw t => normalize_tweet raw = Ok t) items tweets.
Proof.
  unfold normalize_all. destruct payload as [| | | | |p]; try discriminate.
  cbn [get bind]. fold (or_default (lookup "data" p) (VList [])).
  destruct (iterate _) as [items|] eqn:I; [|discriminate]. cbn [bind].
  intros H. exists p, items. repeat split; [exact I|now apply map_m_ok].
Qed.

(** X6. A timeline that is returned holds one Tweet per element of the payload's
    data member, in order, each the normalization of its element; without a
    data member it is empty. *)
Theorem timeline_is_normalized_elementwise c env count (tweets : list Tweet) tr :
  (get_timeline c env count = (Ok tweets, tr) ->
   exists p items,
     make_request c env "POST" "/api/timeline" (Some [("count", count)]) None
     = (Ok (VDict p), tr)
     /\ iterate (or_default (lookup "data" p) (VList [])) = Ok items
     /\ Forall2 (fun raw t => normalize_tweet raw = Ok t) items tweets
     /\ List.length tweets = List.length items
     /\ (lookup "data" p = None -> tweets = []))
  /\ (get_tweets_and_replies c env count = (Ok tweets, tr) ->
      exists p items,
        make_request c env "POST" "/api/timeline"
          (Some [("count", count); ("includeReplies", VBool true)]) None
        = (Ok (VDict p), tr)
        /\ iterate (or_default (lookup "data" p) (VList [])) = Ok items
        /\ Forall2 (fun raw t => normalize_tweet raw = Ok t) items tweets
        /\ List.length tweets = List.length items
        /\ (lookup "data" p = None -> tweets = [])).
Proof.
  assert (K : forall out : result value * trace,
             after_request normalize_all out = (Ok tweets, tr) ->
             exists p items,
               out = (Ok (VDict p), tr)
               /\ iterate (or_default (lookup "data" p) (VList [])) = Ok items
               /\ Forall2 (fun raw t => normalize_tweet raw = Ok t) items tweets
               /\ List.length tweets = List.length items
               /\ (lookup "data" p = None -> tweets = [])).
  { intros [[payload|e] tr0]; unfold after_request; cbn [fst snd bind];
      [|discriminate].
    intros [= H <-]. apply normalize_all_ok in H as (p & items & -> & I & F).
    exists p, items. repeat split; try assumption.
    - symmetry. eapply Forall2_length, F.
    - intros N. rewrite N in I. cbn in I. injection I as <-. now inversion F. }
  split; intros H; apply K in H; exact H.
Qed.

(** X7. [get_latest_tweet] normalizes the whole timeline before it takes the first
    Tweet: on an empty timeline it raises "No tweets found", otherwise it
    returns the first Tweet only if the later elements normalize too. *)
Theorem latest_tweet_needs_the_whole_timeline c env (payload data : value)
    (items : list value) tr :
  make_request c env "POST" "/api/timeline" (Some [("count", VInt 1)]) None
  = (Ok payload, tr) ->
  get payload "data" (VList []) = Ok data ->
  iterate data = Ok items ->
  get_latest_tweet c env
  = (match items with
     | [] => Raise (TwitterClientError "No tweets found")
     | raw :: rest =>
         t <- normalize_tweet raw ;; map_m normalize_tweet rest ;;; Ok t
     end, tr).
Proof.
  intros R G I. unfold get_latest_tweet, get_timeline, after_request, normalize_all.
  rewrite R. cbn [fst snd bind]. rewrite G. cbn [bind]. rewrite I. cbn [bind].
  destruct items as [|raw rest]; [reflexivity|]. cbn [map_m].
  destruct (normalize_tweet raw); [|reflexivity]. cbn [bind].
  destruct (map_m normalize_tweet rest); reflexivity.
Qed.

(** X8. What [get_tweet] makes of the data member of a successful payload:
    absent, the result is the all-default Tweet, whose id is empty, rather
    than a failure; present but not a mapping (a list, a string, null), the
    normalizer's first lookup raises AttributeError; a mapping, the result is
    its normalization.  The events are those of the request. *)
Theorem get_tweet_data_member c env tweet_id (p : list (string * value)) tr :
  make_request c env "GET" ("/api/tweet/" ++ tweet_id) None None
  = (Ok (VDict p), tr) ->
  (lookup "data" p = None -> get_tweet c env tweet_id = (Ok default_tweet, tr))
  /\ (forall v, lookup "data" p = Some v -> is_dict v = false ->
        get_tweet c env tweet_id = (Raise AttributeError, tr))
  /\ (forall d, lookup "data" p = Some (VDict d) ->
        get_tweet c env tweet_id = (normalize_tweet (VDict d), tr)).
Proof.
  intros R. unfold get_tweet, after_request. rewrite R.
  cbn [fst snd bind get]. repeat split.
  - intros N. now rewrite N.
  - intros v Hv Nd. rewrite Hv. now destruct v.
  - intros d Hd. now rewrite Hd.
Qed.

Lemma normalize_user_not_dict (v : value) :
  is_dict v = false ->
  exists e, normalize_user v = Raise e /\ (e = TypeError \/ e = AttributeError).
Proof.
  destruct v as [| | |s|l|]; try discriminate; intros _; unfold normalize_user;
    cbn [py_in bind]; eauto.
  - destruct (contains "joinDate" s); cbn [index parse_or bind get caught]; eauto.
  - destruct (existsb _ l); cbn [index parse_or bind get caught]; eauto.
Qed.

(** X9. The leniency of the normalizer is about absent members: a member that is
    present with the wrong type makes it raise the TypeError or AttributeError
    of the builtin that met it, once the members read before it have
    normalized.  A user that is not a mapping does so; an engagement that is
    not a mapping does so when the user is absent or a mapping whose joinDate
    the parser takes; a text that is not a string does so when, moreover, the
    engagement is absent or a mapping of non-negative integers and the parser
    takes createdAt. *)
Theorem ill_typed_members_raise (d : list (string * value)) :
  (forall v, lookup "user" d = Some v -> is_dict v = false ->
     exists e, normalize_tweet (VDict d) = Raise e
               /\ (e = TypeError \/ e = AttributeError))
  /\ (absent_or is_dict d "user" = true ->
      join_date_handled d = true ->
      forall v, lookup "engagement" d = Some v -> is_dict v = false ->
        normalize_tweet (VDict d) = Raise AttributeError)
  /\ (absent_or is_dict d "user" = true ->
      join_date_handled d = true ->
      absent_or (metrics_are is_count) d "engagement" = true ->
      created_at_handled d = true ->
      forall v, lookup "text" d = Some v -> is_string v = false ->
        exists e, normalize_tweet (VDict d) = Raise e
                  /\ (e = TypeError \/ e = AttributeError)).
Proof.
  repeat split.
  - intros v Hv Nd. rewrite normalize_tweet_dict, Hv. cbn [or_default].
    destruct (normalize_user_not_dict v Nd) as (e & -> & He). now exists e.
  - intros Hu Hj v Hv Nd. rewrite normalize_tweet_dict.
    rewrite (normalize_user_shaped d Hu Hj). cbn [bind].
    rewrite Hv. cbn [or_default]. now destruct v.
  - intros Hu Hj He Hc v Hv Ns. rewrite normalize_tweet_dict.
    rewrite (normalize_user_shaped d Hu Hj). cbn [bind].
    rewrite (normalize_engagement_shaped d He). cbn [bind].
    rewrite (created_at_of_handled d Hc). cbn [bind].
    rewrite Hv. cbn [or_default].
    destruct v; try discriminate; cbn [lexical_features bind]; eauto.
Qed.


(** ** The cookie harvester *)











(** ** WebSocket frames *)

Lemma unpack_be_snoc (bytes : list Z) (b : Z) :
  unpack_be (bytes ++ [b]) = unpack_be bytes * 256 + b.
Proof. unfold unpack_be. now rewrite fold_left_app. Qed.

Lemma length_pack_be (width : nat) :
  forall n, List.length (pack_be width n) = width.
Proof.
  induction width as [|w IH]; intros n; cbn [pack_be]; [reflexivity|].
  rewrite length_app, IH. cbn. lia.
Qed.

Lemma unpack_pack_be (width : nat) :
  forall n, 0 <= n < 256 ^ Z.of_nat width -> unpack_be (pack_be width n) = n.
Proof.
  induction width as [|w IH]; intros n Hn.
  - cbn in *. lia.
  - cbn [pack_be]. rewrite unpack_be_snoc, IH.
    + pose proof (Z.div_mod n 256). lia.
    + rewrite Nat2Z.inj_succ, Z.pow_succ_r in Hn by lia. split.
      * apply Z.div_pos; lia.
      * apply Z.div_lt_upper_bound; lia.
Qed.

Lemma require_bytes_enough (size : nat) (buffer : list Z) incoming :
  (size <= List.length buffer)%nat ->
  require_bytes size buffer incoming = Some (buffer, incoming).
Proof.
  intros H. apply Nat.leb_le in H.
  destruct incoming as [|[|b chunk] rest]; cbn [require_bytes]; now rewrite H.
Qed.

(** Receiving loses no byte and changes no order. *)
Lemma require_bytes_stream (size : nat) :
  forall incoming buffer buffer' incoming',
  require_bytes size buffer incoming = Some (buffer', incoming') ->
  (buffer' ++ pending incoming' = buffer ++ pending incoming)%list
  /\ (size <= List.length buffer')%nat.
Proof.
  induction incoming as [|chunk rest IH]; intros buffer buffer' incoming';
    cbn [require_bytes].
  - destruct (size <=? List.length buffer)%nat eqn:E; [|discriminate].
    intros [= <- <-]. apply Nat.leb_le in E. now split.
  - destruct (size <=? List.length buffer)%nat eqn:E.
    + destruct chunk; intros [= <- <-]; apply Nat.leb_le in E; now split.
    + destruct chunk as [|b chunk]; [discriminate|].
      intros H. apply IH in H as [H L]. split; [|exact L].
      rewrite H. cbn [pending]. now rewrite app_assoc.
Qed.

Lemma require_bytes_total (size : nat) :
  forall incoming buffer,
  (size <= List.length (buffer ++ pending incoming))%nat ->
  exists buffer' incoming',
    require_bytes size buffer incoming = Some (buffer', incoming').
Proof.
  induction incoming as [|chunk rest IH]; intros buffer H; cbn [require_bytes].
  - cbn [pending] in H. rewrite app_nil_r in H. apply Nat.leb_le in H.
    rewrite H. eauto.
  - destruct (size <=? List.length buffer)%nat eqn:E; [destruct chunk; eauto|].
    destruct chunk as [|b chunk].
    + cbn [pending] in H. rewrite app_nil_r in H. apply Nat.leb_gt in E. lia.
    + apply IH. cbn [pending] in H. now rewrite <- app_assoc.
Qed.

Lemma require_bytes_short (size : nat) :
  forall incoming buffer,
  (List.length (buffer ++ pending incoming) < size)%nat ->
  require_bytes size buffer incoming = None.
Proof.
  intros incoming buffer H.
  destruct (require_bytes size buffer incoming) as [[buffer' incoming']|] eqn:R;
    [|reflexivity].
  apply require_bytes_stream in R as [S L]. rewrite <- S, length_app in H. lia.
Qed.

(** What a buffer that begins a known stream holds. *)
Lemma slice_of_stream (buffer rest before middle after : list Z) :
  (buffer ++ rest = before ++ middle ++ after)%list ->
  (List.length before + List.length middle <= List.length buffer)%nat ->
  slice buffer (List.length before) (List.length middle) = middle
  /\ (skipn (List.length before + List.length middle) buffer ++ rest = after)%list.
Proof.
  intros S L.
  assert (B : buffer = (before ++ middle
                        ++ skipn (List.length before + List.length middle) buffer)%list).
  { rewrite <- (firstn_skipn (List.length before + List.length middle) buffer) at 1.
    rewrite app_assoc. f_equal.
    assert (F : firstn (List.length before + List.length middle) (buffer ++ rest)
                = (before ++ middle)%list).
    { rewrite S, app_assoc.
      replace (List.length before + List.length middle)%nat
        with (List.length (before ++ middle) + 0)%nat by (rewrite length_app; lia).
      rewrite firstn_app_2. cbn [firstn]. now rewrite app_nil_r. }
    rewrite firstn_app in F.
    replace (List.length before + List.length middle - List.length buffer)%nat
      with O in F by lia.
    cbn [firstn] in F. now rewrite app_nil_r in F. }
  split.
  - unfold slice. rewrite B at 1. rewrite skipn_app, skipn_all, Nat.sub_diag.
    cbn [skipn app]. rewrite firstn_app, firstn_all, Nat.sub_diag. cbn [firstn].
    now rewrite app_nil_r.
  - rewrite B in S at 1. rewrite <- !app_assoc in S.
    apply app_inv_head in S. apply app_inv_head in S. exact S.
Qed.

Lemma nth_of_stream (buffer rest stream : list Z) (i : nat) :
  (buffer ++ rest)%list = stream -> (i < List.length buffer)%nat ->
  nth i buffer 0 = nth i stream 0.
Proof. intros <- H. now rewrite app_nth1. Qed.

Lemma land_small_127 (x : Z) : 0 <= x < 128 -> Z.land x 127 = x.
Proof.
  intros H. change 127 with (Z.ones 7). rewrite Z.land_ones by lia.
  apply Z.mod_small. change (2 ^ 7) with 128. lia.
Qed.

Lemma land_small_128 (x : Z) : 0 <= x < 128 -> Z.land x 128 = 0.
Proof.
  intros H. apply Z.bits_inj'. intros n Hn.
  rewrite Z.land_spec, Z.bits_0. change 128 with (2 ^ 7).
  rewrite Z.pow2_bits_eqb by lia.
  destruct (Z.eqb_spec 7 n) as [<-|Ne]; [|apply andb_false_r].
  rewrite andb_true_r. apply Z.bits_above_log2; [lia|].
  destruct (Z.eq_dec x 0) as [->|Nz]; [cbn; lia|].
  apply Z.log2_lt_pow2; [lia|]. change (2 ^ 7) with 128. lia.
Qed.


(** One stage of the reader: enough bytes are pending, so they are received,
    and the buffer still begins the same stream. *)
Lemma require_bytes_of_stream (size : nat) (buffer stream : list Z) incoming :
  (buffer ++ pending incoming)%list = stream ->
  (size <= List.length stream)%nat ->
  exists buffer' incoming',
    require_bytes size buffer incoming = Some (buffer', incoming')
    /\ (buffer' ++ pending incoming')%list = stream
    /\ (size <= List.length buffer')%nat.
Proof.
  intros S L. subst stream.
  destruct (require_bytes_total size incoming buffer L) as (b' & i' & R).
  exists b', i'. split; [exact R|]. now apply require_bytes_stream in R.
Qed.

(** The three forms in which the client itself would announce a length. *)
Lemma length_field_announces (n : Z) (announced : list Z) :
  0 <= n ->
  length_field 0 n = Done announced ->
  exists second_byte extended,
    announced = second_byte :: extended /\ announces second_byte extended n.
Proof.
  intros Hn. unfold length_field, announces.
  destruct (Z.leb_spec n 125);
    [|destruct (Z.leb_spec n 65535); [|destruct (Z.ltb_spec n (2 ^ 64))]];
    intros [= <-].
  - exists n, []. split; [reflexivity|]. left. repeat split; lia.
  - exists 126, (pack_be 2 n). split; [reflexivity|]. right. left.
    repeat split; try apply length_pack_be.
    symmetry. apply unpack_pack_be. change (256 ^ Z.of_nat 2) with 65536. lia.
  - exists 127, (pack_be 8 n). split; [reflexivity|]. right. right.
    repeat split; try apply length_pack_be.
    symmetry. apply unpack_pack_be. change (256 ^ Z.of_nat 8) with (2 ^ 64). lia.
Qed.

(** X17. A frame whose mask bit is clear is read back, however the socket cuts the
    stream into chunks and in whichever of the three forms the length is
    announced (in the second byte when it is below 126; in the two bytes after
    a 126 or the eight bytes after a 127, whatever the length is): the reader
    returns the low four bits of the first byte as the opcode and exactly the
    payload announced, and leaves exactly the bytes that follow the frame.
    The forms the client's own sender would choose are among them. *)
Theorem unmasked_frame_is_read_back
    (first_byte second_byte : Z) (extended payload tail buffer : list Z)
    (incoming : list (list Z)) :
  announces second_byte extended (Z.of_nat (List.length payload)) ->
  (buffer ++ pending incoming
   = first_byte :: second_byte :: extended ++ payload ++ tail)%list ->
  (exists buffer' incoming',
     read_frame buffer incoming
     = Done ((Z.land first_byte 15, payload), (buffer', incoming'))
     /\ (buffer' ++ pending incoming' = tail)%list)
  /\ (forall announced,
        length_field 0 (Z.of_nat (List.length payload)) = Done announced ->
        exists second_byte' extended',
          announced = second_byte' :: extended'
          /\ announces second_byte' extended' (Z.of_nat (List.length payload))).
Proof.
  set (n := List.length payload). intros A S.
  split; [|intros announced; apply length_field_announces; lia].
  assert (Tail : forall (index : nat) b i before,
            (b ++ pending i)%list = (before ++ payload ++ tail)%list ->
            List.length before = index ->
            exists buffer' incoming',
              match require_bytes (index + Z.to_nat (Z.of_nat n)) b i with
              | None => Failed ConnectionClosed
              | Some (b', i') =>
                  Done ((Z.land first_byte 15,
                         slice b' index (Z.to_nat (Z.of_nat n))),
                        (skipn (index + Z.to_nat (Z.of_nat n)) b', i'))
              end
              = Done ((Z.land first_byte 15, payload), (buffer', incoming'))
              /\ (buffer' ++ pending incoming' = tail)%list).
  { intros index b i before Sb Lb. rewrite Nat2Z.id. subst index.
    destruct (require_bytes_of_stream (List.length before + n) b _ i Sb)
      as (b' & i' & -> & S' & L'); [rewrite !length_app; fold n; lia|].
    destruct (slice_of_stream b' (pending i') before payload tail S' L') as [Sl Sk].
    fold n in Sl, Sk. rewrite Sl. eauto. }
  unfold read_frame.
  destruct (require_bytes_of_stream 2 buffer _ incoming S)
    as (b1 & i1 & -> & S1 & L1); [cbn; lia|].
  cbv beta iota zeta.
  rewrite (nth_of_stream b1 _ _ 0 S1), (nth_of_stream b1 _ _ 1 S1) by lia.
  cbn [nth app].
  destruct A as [(R & -> & N)|[(-> & Le & N)|(-> & Le & N)]].
  - rewrite land_small_127, land_small_128 by lia.
    assert ((second_byte =? 126) = false) as -> by (apply Z.eqb_neq; lia).
    assert ((second_byte =? 127) = false) as -> by (apply Z.eqb_neq; lia).
    cbn [Z.eqb negb]. rewrite <- N.
    apply (Tail 2%nat b1 i1 [first_byte; second_byte]); [exact S1|reflexivity].
  - change (Z.land 126 127) with 126. change (Z.land 126 128) with 0.
    cbn [Z.eqb Pos.eqb negb].
    destruct (require_bytes_of_stream 4 b1 _ i1 S1)
      as (b2 & i2 & -> & S2 & L2);
      [cbn [List.length app]; rewrite ?length_app, Le; lia|].
    destruct (slice_of_stream b2 (pending i2) [first_byte; 126]
                extended (payload ++ tail)) as [Sl _];
      [exact S2|rewrite Le; cbn; lia|].
    rewrite Le in Sl. cbn [List.length] in Sl. rewrite Sl, <- N.
    apply (Tail 4%nat b2 i2 (first_byte :: 126 :: extended)).
    + rewrite S2. reflexivity.
    + cbn [List.length]. now rewrite Le.
  - change (Z.land 127 127) with 127. change (Z.land 127 128) with 0.
    cbn [Z.eqb Pos.eqb negb].
    destruct (require_bytes_of_stream 10 b1 _ i1 S1)
      as (b2 & i2 & -> & S2 & L2);
      [cbn [List.length app]; rewrite ?length_app, Le; lia|].
    destruct (slice_of_stream b2 (pending i2) [first_byte; 127]
                extended (payload ++ tail)) as [Sl _];
      [exact S2|rewrite Le; cbn; lia|].
    rewrite Le in Sl. cbn [List.length] in Sl. rewrite Sl, <- N.
    apply (Tail 10%nat b2 i2 (first_byte :: 127 :: extended)).
    + rewrite S2. reflexivity.
    + cbn [List.length]. now rewrite Le.
Qed.


Lemma land_masked_127 (x : Z) : 0 <= x < 128 -> Z.land (Z.lor 128 x) 127 = x.
Proof.
  intros H. rewrite Z.land_lor_distr_l. change (Z.land 128 127) with 0.
  rewrite Z.lor_0_l. now apply land_small_127.
Qed.

Lemma land_masked_128 (x : Z) : 0 <= x < 128 -> Z.land (Z.lor 128 x) 128 = 128.
Proof.
  intros H. rewrite Z.land_lor_distr_l. change (Z.land 128 128) with 128.
  rewrite land_small_128 by exact H. reflexivity.
Qed.

Lemma mask_payload_from (mask_key : list Z) :
  forall payload start,
  let mask := fun ib : nat * Z =>
                Z.lxor (snd ib) (nth (fst ib mod 4) mask_key 0) in
  List.length (map mask (combine (seq start (List.length payload)) payload))
  = List.length payload
  /\ map mask
       (combine (seq start (List.length payload))
          (map mask (combine (seq start (List.length payload)) payload)))
     = payload.
Proof.
  induction payload as [|b payload IH]; intros start; cbv zeta; [now split|].
  cbn [List.length seq combine map]. pose proof (IH (S start)) as H.
  cbv zeta in H. destruct H as [L R].
  split; [now rewrite L|]. rewrite R. f_equal. cbn [fst snd].
  now rewrite Z.lxor_assoc, Z.lxor_nilpotent, Z.lxor_0_r.
Qed.

(** Masking twice with the same key gives the payload back. *)
Lemma mask_payload_involutive (mask_key payload : list Z) :
  mask_payload mask_key (mask_payload mask_key payload) = payload.
Proof.
  unfold mask_payload.
  destruct (mask_payload_from mask_key payload O) as [L R].
  cbv zeta in L, R. now rewrite L.
Qed.

Lemma length_field_cases (mask_bit n : Z) (announced : list Z) :
  length_field mask_bit n = Done announced ->
  0 <= n ->
  exists code extension,
    announced = Z.lor mask_bit code :: extension
    /\ 0 <= code < 128
    /\ ((code = n /\ n <= 125 /\ extension = [])
        \/ (code = 126 /\ extension = pack_be 2 n)
        \/ (code = 127 /\ extension = pack_be 8 n)).
Proof.
  unfold length_field. intros H Hn.
  destruct (n <=? 125) eqn:E1;
    [|destruct (n <=? 65535); [|destruct (n <? 2 ^ 64); [|discriminate]]];
    injection H as <-.
  - apply Z.leb_le in E1. exists n, []. repeat split; try lia. left. now split.
  - exists 126, (pack_be 2 n). repeat split; try lia. right. left. now split.
  - exists 127, (pack_be 8 n). repeat split; try lia. right. right. now split.
Qed.

(** X18. The message can be recovered from a text frame the client sends: after
    the two, four or ten bytes of header come the four bytes of the key, and
    unmasking what follows with that key gives the message. *)
Theorem sent_text_unmasks_to_the_message (mask_key payload frame : list Z) :
  List.length mask_key = 4%nat ->
  send_text mask_key payload = Done frame ->
  exists header : nat,
    (header = 2 \/ header = 4 \/ header = 10)%nat
    /\ nth 0 frame 0 = 129
    /\ slice frame header 4 = mask_key
    /\ mask_payload (slice frame header 4) (skipn (header + 4) frame) = payload.
Proof.
  intros Lk. unfold send_text.
  destruct (length_field 128 _) as [announced|] eqn:A; [|discriminate].
  intros [= <-].
  apply length_field_cases in A as (code & extension & -> & _ & Cases); [|lia].
  assert (K : forall before : list Z,
            slice (before ++ mask_key ++ mask_payload mask_key payload)
              (List.length before) 4 = mask_key
            /\ skipn (List.length before + 4)
                 (before ++ mask_key ++ mask_payload mask_key payload)
               = mask_payload mask_key payload).
  { intros before.
    destruct (slice_of_stream (before ++ mask_key ++ mask_payload mask_key payload)
                [] before mask_key (mask_payload mask_key payload)) as [Sl Sk].
    - now rewrite app_nil_r.
    - rewrite !length_app. lia.
    - rewrite Lk in Sl, Sk. rewrite app_nil_r in Sk. now split. }
  destruct Cases as [(-> & _ & ->)|[(-> & ->)|(-> & ->)]].
  - exists 2%nat. split; [auto|]. split; [reflexivity|].
    destruct (K [129; Z.lor 128 (Z.of_nat (List.length payload))]) as [Sl Sk].
    cbn [List.length app] in Sl, Sk. cbn [app]. rewrite Sl, Sk.
    split; [reflexivity|apply mask_payload_involutive].
  - exists 4%nat. split; [auto|]. split; [reflexivity|].
    destruct (K (129 :: Z.lor 128 126
                 :: pack_be 2 (Z.of_nat (List.length payload)))) as [Sl Sk].
    change (List.length (129 :: Z.lor 128 126
                          :: pack_be 2 (Z.of_nat (List.length payload))))
      with (2 + List.length (pack_be 2 (Z.of_nat (List.length payload))))%nat
      in Sl, Sk.
    rewrite length_pack_be in Sl, Sk.
    change (129 :: (Z.lor 128 126 :: pack_be 2 (Z.of_nat (List.length payload)))
            ++ mask_key ++ mask_payload mask_key payload)%list
      with ((129 :: Z.lor 128 126 :: pack_be 2 (Z.of_nat (List.length payload)))
            ++ mask_key ++ mask_payload mask_key payload)%list.
    cbn [Nat.add] in Sl, Sk |- *. rewrite Sl, Sk.
    split; [reflexivity|apply mask_payload_involutive].
  - exists 10%nat. split; [auto|]. split; [reflexivity|].
    destruct (K (129 :: Z.lor 128 127
                 :: pack_be 8 (Z.of_nat (List.length payload)))) as [Sl Sk].
    change (List.length (129 :: Z.lor 128 127
                          :: pack_be 8 (Z.of_nat (List.length payload))))
      with (2 + List.length (pack_be 8 (Z.of_nat (List.length payload))))%nat
      in Sl, Sk.
    rewrite length_pack_be in Sl, Sk.
    change (129 :: (Z.lor 128 127 :: pack_be 8 (Z.of_nat (List.length payload)))
            ++ mask_key ++ mask_payload mask_key payload)%list
      with ((129 :: Z.lor 128 127 :: pack_be 8 (Z.of_nat (List.length payload)))
            ++ mask_key ++ mask_payload mask_key payload)%list.
    cbn [Nat.add] in Sl, Sk |- *. rewrite Sl, Sk.
    split; [reflexivity|apply mask_payload_involutive].
Qed.

(** X19. The reader refuses the frames the client itself sends: whatever follows,
    reading a buffer that begins with such a frame raises the masked-frame
    error. *)
Theorem own_frames_are_refused (mask_key payload frame tail : list Z)
    (incoming : list (list Z)) :
  send_text mask_key payload = Done frame ->
  read_frame (frame ++ tail) incoming = Failed MaskedFrame.
Proof.
  unfold send_text.
  destruct (length_field 128 _) as [announced|] eqn:A; [|discriminate].
  intros [= <-].
  apply length_field_cases in A as (code & extension & -> & Hc & Cases); [|lia].
  unfold read_frame. rewrite require_bytes_enough by (cbn; lia).
  cbv beta iota zeta. cbn [nth app].
  rewrite land_masked_127, land_masked_128 by exact Hc.
  destruct Cases as [(-> & Le & ->)|[(-> & ->)|(-> & ->)]].
  - assert ((Z.of_nat (List.length payload) =? 126) = false) as ->
        by (apply Z.eqb_neq; lia).
    assert ((Z.of_nat (List.length payload) =? 127) = false) as ->
        by (apply Z.eqb_neq; lia).
    reflexivity.
  - cbn [Z.eqb Pos.eqb].
    rewrite require_bytes_enough; [reflexivity|].
    cbn [List.length]. rewrite !length_app, length_pack_be. lia.
  - cbn [Z.eqb Pos.eqb].
    rewrite require_bytes_enough; [reflexivity|].
    cbn [List.length]. rewrite !length_app, length_pack_be. lia.
Qed.


Lemma lor_128_small (x : Z) : 0 <= x < 128 -> Z.lor 128 x = 128 + x.
Proof.
  intros H. assert (L : Z.land 128 x = 0) by (rewrite Z.land_comm; now apply land_small_128).
  now rewrite <- (Z.lxor_lor _ _ L), <- (Z.add_nocarry_lxor _ _ L).
Qed.

Lemma lor_128_large (n : Z) : 256 <= n -> 256 <= Z.lor 128 n.
Proof.
  intros H. destruct (Z.lt_ge_cases (Z.lor 128 n) 256) as [Lt|Ge]; [|exact Ge].
  exfalso. assert (P : 0 < Z.lor 128 n).
  { assert (0 <= Z.lor 128 n) by (apply Z.lor_nonneg; lia).
    destruct (Z.eq_dec (Z.lor 128 n) 0) as [E|Ne]; [|lia].
    apply Z.lor_eq_0_iff in E. lia. }
  apply (Z.log2_lt_pow2 _ 8 P) in Lt. rewrite Z.log2_lor in Lt by lia.
  assert (8 <= Z.log2 n) by (apply Z.log2_le_pow2; [lia|exact H]). lia.
Qed.

(** X20. A control frame carries its length in one byte, mask bit included: up to
    125 bytes the seven length bits are the payload's length and unmasking the
    frame's payload gives it back; a payload of 128 to 255 bytes is sent under
    an announced length 128 short; from 256 bytes on the byte does not fit and
    sending fails. *)
Theorem control_frame_length_byte (opcode : Z) (mask_key payload : list Z) :
  0 <= opcode < 128 ->
  let n := Z.of_nat (List.length payload) in
  let masked := mask_payload mask_key payload in
  (n < 128 ->
   send_control_frame opcode mask_key payload
   = Done (128 + opcode :: 128 + n :: mask_key ++ masked)%list
   /\ Z.land (128 + n) 127 = n
   /\ mask_payload mask_key masked = payload)
  /\ (128 <= n < 256 ->
      send_control_frame opcode mask_key payload
      = Done (128 + opcode :: n :: mask_key ++ masked)%list
      /\ Z.land n 127 = n - 128)
  /\ (256 <= n -> send_control_frame opcode mask_key payload = Failed ByteOutOfRange).
Proof.
  intros Ho n masked. unfold send_control_frame. fold n. fold masked.
  rewrite (lor_128_small opcode Ho).
  assert ((128 + opcode <? 256) = true) as -> by (apply Z.ltb_lt; lia).
  cbn [andb].
  split; [intros Hn; repeat split|split; [intros Hn; split|intros Hn]].
  - rewrite lor_128_small by lia.
    assert ((128 + n <? 256) = true) as -> by (apply Z.ltb_lt; lia). reflexivity.
  - rewrite <- lor_128_small by lia. apply land_masked_127. lia.
  - apply mask_payload_involutive.
  - assert (E : Z.lor 128 n = n).
    { replace n with (128 + (n - 128)) at 1 by lia.
      rewrite <- (lor_128_small (n - 128)) by lia.
      rewrite Z.lor_assoc, Z.lor_diag, lor_128_small by lia. lia. }
    rewrite E. assert ((n <? 256) = true) as -> by (apply Z.ltb_lt; lia).
    reflexivity.
  - replace n with (128 + (n - 128)) at 1 by lia.
    rewrite <- (lor_128_small (n - 128)) by lia. apply land_masked_127. lia.
  - assert ((Z.lor 128 n <? 256) = false) as ->; [|reflexivity].
    apply Z.ltb_ge, lor_128_large. assumption.
Qed.

End Client.

(** ** The theorems at sample inputs *)

Lemma authentication_gate_witness :
  bundle_shaped partial_bundle = true
  /\ is_authenticated (load_cookies default_client partial_bundle) = Ok false
  /\ check_authentication sample_client = Ok tt.
Proof.
  split; [reflexivity|]. split.
  - apply (authentication_gate sample_str_compound sample_sleep_limit
             (load_cookies default_client partial_bundle) eq_refl).
    exists "ct0". split; [cbn; auto|exact I].
  - apply (authentication_gate sample_str_compound sample_sleep_limit
             sample_client eq_refl).
    exists [("cookies", VList []); ("cookieHeader", VStr "lang=en");
            ("essentials", VDict sample_essentials)],
           (VStr "lang=en"), sample_essentials.
    repeat split; try discriminate.
    intros k [<-|[<-|[<-|[<-|[<-|[]]]]]]; eexists; split; reflexivity.
Defined.

Lemma retries_exhausted_witness :
  check_authentication client_without_retries = Ok tt
  /\ make_request sample_str_compound sample_sleep_limit
       client_without_retries always_timeout "GET" "/api/tweet/1" None None
     = (Raise retries_exhausted, []).
Proof.
  split; [reflexivity|].
  apply (retries_exhausted_only_without_attempts sample_str_compound
           sample_sleep_limit client_without_retries always_timeout
           "GET" "/api/tweet/1" None None);
    reflexivity.
Defined.

Lemma bounded_retries_witness :
  1 < backoff_base (config sample_client)
  /\ sleeps (snd (make_request sample_str_compound sample_sleep_limit
                    sample_client always_timeout "GET" "/api/tweet/1" None None))
     = backoff_delays 2 2
  /\ exists e earlier,
       fst (make_request sample_str_compound sample_sleep_limit
              sample_client always_timeout "GET" "/api/tweet/1" None None)
       = Raise e
       /\ transport_unavailable e
       /\ snd (make_request sample_str_compound sample_sleep_limit
                 sample_client always_timeout "GET" "/api/tweet/1" None None)
          = (earlier ++ [EvRequest 2 tweet_request])%list.
Proof.
  assert (Hb : 1 < backoff_base (config sample_client)) by reflexivity.
  split; [exact Hb|].
  destruct (bounded_retries_with_exponential_backoff sample_str_compound
              sample_sleep_limit sample_client always_timeout
              "GET" "/api/tweet/1" None Hb)
    as (_ & _ & Hs & _ & Hf).
  split; [exact Hs|].
  apply Hf; [reflexivity|vm_compute; do 4 right; left; reflexivity|now left].
Defined.

Lemma classification_witness :
  handle_response sample_str_compound not_found_response
  = Raise (HttpError 404 "NOT_FOUND - upstream replied HTTP 503: unavailable")
  /\ handle_response sample_str_compound success_response
     = Ok (VDict [("success", VBool true); ("data", VList [])]).
Proof.
  split.
  - apply (proj1 (proj2 (classification_of_responses sample_str_compound
                           not_found_response))
             _ [("code", VStr "NOT_FOUND");
                ("message", VStr "upstream replied HTTP 503: unavailable")]
             eq_refl);
      [discriminate|reflexivity].
  - apply (proj1 (proj2 (proj2 (classification_of_responses sample_str_compound
                                  success_response))) _ eq_refl); reflexivity.
Defined.

Lemma cookie_header_witness :
  get_cookie_header default_client = Ok (VStr EmptyString)
  /\ exists parts,
       get_cookie_header
         (load_cookies default_client
            (collect_twitter_tokens sample_format_cookie_string sample_cookies))
       = Ok (VStr (join "; " parts))
       /\ contains "auth_token=a1" (join "; " parts) = true.
Proof.
  destruct (cookie_header_is_the_stored_header sample_format_cookie_string
              default_client) as (_ & Hn & Hb).
  split; [apply Hn; reflexivity|].
  destruct (Hb sample_cookies) as (parts & essentials & Hh & He & Hin).
  exists parts. split; [exact Hh|].
  injection He as <-.
  destruct (Hin "auth_token" (VStr "a1")) as (val & Hv & _ & Hc); [cbn; auto|].
  injection Hv as <-. exact Hc.
Defined.

Lemma uncaught_parser_error_witness :
  caught OverflowError = false
  /\ sample_date_parse (VStr "1705314600000") = Raise OverflowError
  /\ normalize_user sample_date_parse (VDict millisecond_user)
     = Raise OverflowError
  /\ normalize_tweet sample_date_parse sample_now (VDict millisecond_post)
     = Raise OverflowError.
Proof.
  split; [reflexivity|]. split; [reflexivity|].
  destruct (uncaught_parser_error_fails_normalization sample_date_parse
              sample_now OverflowError eq_refl) as (Hu & Ht & _).
  split.
  - apply (Hu millisecond_user (VStr "1705314600000")); reflexivity.
  - apply (Ht millisecond_post (VStr "1705314600000")); reflexivity.
Defined.

Lemma negative_engagement_behind_witness :
  normalize_engagement (VDict negative_metrics) = Raise negative_engagement
  /\ normalize_tweet sample_date_parse sample_now
       (VDict negative_post_of_millisecond_user)
     = Raise OverflowError
  /\ OverflowError <> negative_engagement.
Proof.
  destruct (negative_engagement_behind_uncaught_parser_error sample_date_parse
              sample_now sample_str_compound sample_sleep_limit
              negative_post_of_millisecond_user millisecond_user
              negative_metrics (VStr "1705314600000") OverflowError
              eq_refl eq_refl eq_refl eq_refl eq_refl eq_refl)
    as (He & Hn & Hd & _).
  - exists "retweets", (-1). split; [cbn; auto|]. split; [reflexivity|lia].
  - split; [exact He|]. split; [exact Hn|exact Hd].
Defined.

Lemma close_witness :
  check_authentication sample_client = Ok tt
  /\ make_request sample_str_compound sample_sleep_limit
       (fst (close sample_client)) always_timeout "GET" "/api/tweet/1" None None
     = (Raise AttributeError, [])
  /\ make_request sample_str_compound sample_sleep_limit
       (fst (close sample_client)) always_timeout "GET" "/api/tweet/1" None
       (Some 0)
     = (Raise retries_exhausted, [])
  /\ make_request sample_str_compound sample_sleep_limit
       (fst (close (load_cookies default_client partial_bundle))) always_timeout
       "GET" "/api/tweet/1" None None
     = (Raise auth_invalid, []).
Proof.
  split; [reflexivity|]. split; [|split].
  - apply (proj1 (proj2 (close_is_idempotent_and_requests_fail_after_close
                           sample_date_parse sample_now sample_str_compound
                           sample_sleep_limit sample_client))
             always_timeout "GET" "/api/tweet/1" None None);
      [reflexivity|cbn; lia].
  - apply (proj1 (proj2 (close_is_idempotent_and_requests_fail_after_close
                           sample_date_parse sample_now sample_str_compound
                           sample_sleep_limit sample_client))
             always_timeout "GET" "/api/tweet/1" None (Some 0));
      [reflexivity|cbn; lia].
  - apply (proj1 (proj2 (close_is_idempotent_and_requests_fail_after_close
                           sample_date_parse sample_now sample_str_compound
                           sample_sleep_limit
                           (load_cookies default_client partial_bundle)))
             always_timeout "GET" "/api/tweet/1" None None).
    reflexivity.
Defined.

Lemma content_features_witness :
  exists t,
    normalize_tweet sample_date_parse sample_now (VDict question_tweet_data) = Ok t
    /\ has_media (features t) = truthy (media t)
    /\ exists a b, text t = a ++ "?" ++ b.
Proof.
  destruct (normalize_tweet sample_date_parse sample_now (VDict question_tweet_data))
    as [t|e] eqn:E; [|discriminate E].
  exists t. split; [reflexivity|].
  destruct (content_features_are_lexical sample_date_parse sample_now _ t E)
    as (_ & _ & Hq & Hm & _).
  split; [exact Hm|]. apply Hq.
  injection E as <-. reflexivity.
Defined.


(** ** Where the specification and the code part *)

(** C4, counterexample.  Both responses have a status below 400 and a body
    that is valid JSON whose success flag is not false, yet neither body is
    returned: the envelope without a success member is classified as an
    ApiError, the JSON array makes the classification itself fail. *)
Lemma classification_counterexample :
  status_code unflagged_response < 400
  /\ (exists body, json_body unflagged_response = Some body
                   /\ flag_is_false body = false)
  /\ handle_response sample_str_compound unflagged_response
     = Raise (ApiError "UNKNOWN" "Unknown error")
  /\ status_code array_response < 400
  /\ (exists body, json_body array_response = Some body
                   /\ flag_is_false body = false)
  /\ handle_response sample_str_compound array_response = Raise AttributeError.
Proof.
  repeat split; try reflexivity; eexists; split; reflexivity.
Qed.

(** C5, counterexample.  An authenticated bundle whose stored header holds
    none of its essential pairs: the client returns the stored header. *)
Lemma cookie_header_counterexample :
  is_authenticated sample_client = Ok true
  /\ lookup "auth_token" sample_essentials = Some (VStr "a1")
  /\ get_cookie_header sample_client = Ok (VStr "lang=en")
  /\ contains "auth_token=a1" "lang=en" = false.
Proof. repeat split. Qed.

(** C6, counterexample.  The second close of a client returns normally. *)
Lemma second_close_counterexample :
  has_session (fst (close sample_client)) = false
  /\ close (fst (close sample_client)) = (fst (close sample_client), Ok tt).
Proof. split; reflexivity. Qed.

(** ** Further theorems at sample inputs *)

Lemma gate_passes_iff_witness :
  check_authentication sample_client = Ok tt
  /\ make_request sample_str_compound sample_sleep_limit
       (load_cookies default_client headless_bundle)
       always_timeout "GET" "/api/tweet/1" None None
     = (Raise auth_missing, []).
Proof.
  split.
  - apply (proj1 (gate_passes_iff sample_str_compound sample_sleep_limit
                    sample_client eq_refl)).
    split; reflexivity.
  - apply (proj2 (gate_passes_iff sample_str_compound sample_sleep_limit
                    (load_cookies default_client headless_bundle) eq_refl));
      reflexivity.
Defined.


Lemma payload_origin_witness :
  exists k r d,
    unavailable_then_success k = Delivered r
    /\ status_code r < 400
    /\ json_body r = Some (VDict d)
    /\ truthy (success_flag d) = true.
Proof.
  destruct (payload_comes_from_a_successful_response sample_str_compound
              sample_sleep_limit
              sample_client unavailable_then_success "GET" "/api/tweet/1"
              None None (VDict [("success", VBool true); ("data", VList [])])
              eq_refl) as (_ & k & req & r & d & _ & _ & E & S & J & T & _).
  now exists k, r, d.
Defined.

Lemma same_request_witness :
  req_method (timeline_request (VInt 5)) = POST
  /\ req_url (timeline_request (VInt 5)) = "http://localhost:3000/api/timeline".
Proof.
  destruct (every_attempt_sends_the_same_request sample_str_compound
              sample_sleep_limit
              sample_client always_timeout "post" "/api/timeline"
              (Some [("count", VInt 5)]) None 2 (timeline_request (VInt 5)))
    as (_ & U & _ & _ & P & _).
  - vm_compute. do 4 right. left. reflexivity.
  - split; [apply P; reflexivity|exact U].
Defined.

Lemma timeline_witness :
  exists tweets tr,
    get_timeline sample_date_parse sample_now sample_str_compound
      sample_sleep_limit sample_client
      (fun _ => Delivered timeline_response) (VInt 2)
    = (Ok tweets, tr)
    /\ List.length tweets = 2%nat.
Proof.
  destruct (get_timeline sample_date_parse sample_now sample_str_compound
              sample_sleep_limit
              sample_client (fun _ => Delivered timeline_response) (VInt 2))
    as [[tweets|e] tr] eqn:E; [|discriminate E].
  exists tweets, tr. split; [reflexivity|].
  destruct (proj1 (timeline_is_normalized_elementwise sample_date_parse sample_now
                     sample_str_compound sample_sleep_limit sample_client
                     (fun _ => Delivered timeline_response) (VInt 2) tweets tr) E)
    as (p & items & R & I & _ & L & _).
  rewrite L. injection R as <- _. injection I as <-. reflexivity.
Defined.

Lemma latest_tweet_witness :
  get_latest_tweet sample_date_parse sample_now sample_str_compound
    sample_sleep_limit sample_client (fun _ => Delivered success_response)
  = (Raise (TwitterClientError "No tweets found"),
     [EvRequest 0 (timeline_request (VInt 1))]).
Proof.
  apply (latest_tweet_needs_the_whole_timeline sample_date_parse sample_now
           sample_str_compound sample_sleep_limit sample_client
           (fun _ => Delivered success_response)
           (VDict [("success", VBool true); ("data", VList [])]) (VList []) []);
    reflexivity.
Defined.

Lemma get_tweet_data_witness :
  get_tweet sample_date_parse sample_now sample_str_compound
    sample_sleep_limit sample_client
    (fun _ => Delivered dataless_response) "1"
  = (Ok (default_tweet sample_now), [EvRequest 0 tweet_request]).
Proof.
  apply (proj1 (get_tweet_data_member sample_date_parse sample_now
                  sample_str_compound sample_sleep_limit sample_client
                  (fun _ => Delivered dataless_response)
                  "1" [("success", VBool true)] _ eq_refl)).
  reflexivity.
Defined.

Lemma ill_typed_witness :
  exists e,
    normalize_tweet sample_date_parse sample_now (VDict [("text", VNone)]) = Raise e
    /\ (e = TypeError \/ e = AttributeError).
Proof.
  apply (proj2 (proj2 (ill_typed_members_raise sample_date_parse sample_now
                         [("text", VNone)]))
           eq_refl eq_refl eq_refl eq_refl VNone);
    reflexivity.
Defined.

Lemma engagement_total_witness :
  exists m,
    new_EngagementMetrics (VInt 1) (VInt 2) (VBool true) (VInt 0) = Ok m
    /\ total_engagements m = Ok (VInt 4).
Proof.
  eexists. split; [reflexivity|].
  destruct (proj2 (validated_engagement_total (VInt 1) (VInt 2) (VBool true)
                     (VInt 0) 1 2 1 0 eq_refl eq_refl eq_refl eq_refl)
              _ eq_refl) as (_ & _ & _ & _ & T & _).
  exact T.
Defined.

Lemma engaging_witness :
  exists t,
    normalize_tweet sample_date_parse sample_now (VDict question_tweet_data) = Ok t
    /\ is_engaging (features t) = true.
Proof.
  destruct (normalize_tweet sample_date_parse sample_now (VDict question_tweet_data))
    as [t|e] eqn:E; [|discriminate E].
  exists t. split; [reflexivity|].
  rewrite (normalized_tweet_engaging sample_date_parse sample_now _ t E).
  injection E as <-. reflexivity.
Defined.

Lemma profile_round_trip_witness :
  Profile_from_dict sample_date_parse
    (VDict (Profile_to_dict sample_isoformat sample_profile))
  = Ok sample_profile.
Proof.
  apply (profile_round_trip sample_date_parse sample_isoformat sample_profile).
  intros t [= <-]. split; [discriminate|reflexivity].
Defined.

Lemma normalizer_agreement_witness :
  Profile_from_dict sample_date_parse (VDict sample_user)
  = normalize_user sample_date_parse (VDict sample_user).
Proof.
  apply (normalize_user_agrees_with_from_dict sample_date_parse sample_user);
    [reflexivity|].
  right. exists "2024-01-15T10:30:00.000Z". split; [reflexivity|discriminate].
Defined.

Lemma serialize_witness :
  exists t,
    normalize_tweet sample_date_parse sample_now (VDict minimal_tweet_data) = Ok t
    /\ lookup "id" (Tweet_to_dict sample_isoformat t) = Some (VStr "123")
    /\ lookup "text" (Tweet_to_dict sample_isoformat t)
       = Some (VStr "Minimal tweet").
Proof.
  destruct (normalize_tweet sample_date_parse sample_now (VDict minimal_tweet_data))
    as [t|e] eqn:E; [|discriminate E].
  exists t. split; [reflexivity|].
  destruct (normalize_then_serialize_preserves sample_date_parse sample_now
              sample_isoformat minimal_tweet_data t E) as (C & T & _).
  split; [apply C; [cbn; auto|reflexivity]|apply T; reflexivity].
Defined.

Lemma frame_read_back_witness :
  (exists buffer' incoming',
     read_frame [129] sample_chunks
     = Done ((1, sample_message), (buffer', incoming'))
     /\ (buffer' ++ pending incoming' = [137])%list)
  /\ (exists buffer' incoming',
        read_frame [129] long_form_chunks
        = Done ((1, sample_message), (buffer', incoming'))
        /\ (buffer' ++ pending incoming' = [137])%list).
Proof.
  split.
  - apply (unmasked_frame_is_read_back 129 2 [] sample_message [137] [129]
             sample_chunks); [|reflexivity].
    left. repeat split; cbn; lia.
  - apply (unmasked_frame_is_read_back 129 126 [0; 2] sample_message [137] [129]
             long_form_chunks); [|reflexivity].
    right. left. repeat split.
Defined.


Lemma sent_text_witness :
  exists frame header,
    send_text sample_key sample_message = Done frame
    /\ mask_payload (slice frame header 4) (skipn (header + 4) frame)
       = sample_message.
Proof.
  destruct (send_text sample_key sample_message) as [frame|e] eqn:E;
    [|discriminate E].
  destruct (sent_text_unmasks_to_the_message sample_key sample_message frame
              eq_refl E) as (header & _ & _ & _ & M).
  now exists frame, header.
Defined.

Lemma own_frame_witness :
  exists frame,
    send_text sample_key sample_message = Done frame
    /\ read_frame (frame ++ [137]) [] = Failed MaskedFrame.
Proof.
  destruct (send_text sample_key sample_message) as [frame|e] eqn:E;
    [|discriminate E].
  exists frame. split; [reflexivity|].
  apply (own_frames_are_refused sample_key sample_message frame [137] [] E).
Defined.

Lemma control_frame_witness :
  send_control_frame 10 sample_key sample_message
  = Done (138 :: 130 :: sample_key ++ mask_payload sample_key sample_message)%list.
Proof.
  apply (proj1 (control_frame_length_byte 10 sample_key sample_message
                  ltac:(lia))).
  reflexivity.
Defined.

Lemma transient_status_witness :
  retryable sample_str_compound unavailable_then_success 0 = true.
Proof.
  apply (transient_statuses_are_retryable sample_str_compound
           unavailable_then_success 0 unavailable_response eq_refl);
    [cbn; auto|left; reflexivity].
Defined.


Lemma normalization_witness :
  post_shaped minimal_tweet_data = true
  /\ normalize_tweet sample_date_parse sample_now (VDict minimal_tweet_data)
     = Ok (tweet_of sample_date_parse sample_now minimal_tweet_data)
  /\ created_at (tweet_of sample_date_parse sample_now minimal_tweet_data)
     = 1705314600
  /\ engagement (tweet_of sample_date_parse sample_now minimal_tweet_data)
     = zero_engagement
  /\ created_at (tweet_of sample_date_parse sample_now question_tweet_data)
     = sample_now.
Proof.
  split; [reflexivity|].
  destruct (normalization_defaults_missing_fields sample_date_parse sample_now
              minimal_tweet_data eq_refl eq_refl eq_refl)
    as (Ht & _ & Hc & He & _).
  split; [exact Ht|]. split; [|split].
  - apply (Hc (VStr "2024-01-15T10:30:00.000Z")); reflexivity.
  - apply He. reflexivity.
  - apply (proj1 (proj2 (normalization_defaults_missing_fields sample_date_parse
                           sample_now question_tweet_data
                           eq_refl eq_refl eq_refl))).
    left. reflexivity.
Defined.

Lemma negative_engagement_witness :
  absent_or is_dict negative_post "user" = true
  /\ lookup "engagement" negative_post = Some (VDict negative_metrics)
  /\ normalize_tweet sample_date_parse sample_now (VDict negative_post)
     = Raise negative_engagement.
Proof.
  split; [reflexivity|]. split; [reflexivity|].
  apply (negative_engagement_raises_value_error sample_date_parse sample_now
           sample_str_compound sample_sleep_limit negative_post negative_metrics
           eq_refl eq_refl eq_refl eq_refl).
  exists "retweets", (-1). split; [cbn; auto|]. split; [reflexivity|lia].
Defined.
